(** * The support-ticket synthesizer of [dataset_generation.py]

    A shallow embedding of [generate_support_tickets], [get_resolution],
    [save_to_csv] and [print_kpi_analysis], together with the pieces of the
    Python runtime they call ([random], [numpy.random], [datetime],
    [csv]), and the properties of the generated tickets.

    Conventions.
    - Python [float]s are idealised as rationals ([Q]).
    - A [datetime] is the number of microseconds since the start of the
      day of proleptic ordinal 0, so [t / DAY] is [t.toordinal()].
    - The two global generators ([random] and [numpy.random]) are tapes of
      variates that the calls consume one by one. *)

From Stdlib Require Import ZArith QArith Qround Qabs List String Ascii Bool Lia.
Import ListNotations.
Open Scope string_scope.
Open Scope Z_scope.

(** ** Outcomes of a Python call *)

Inductive exn : Type :=
| OverflowError       (* datetime / timedelta arithmetic out of range *)
| IndexError          (* sequence index out of range *)
| KeyError            (* missing dictionary key *)
| ZeroDivisionError.

Inductive outcome (A : Type) : Type :=
| Returned (a : A)
| Raised (e : exn)
| OutOfFuel.      (* the model stopped unrolling a [while] loop *)

Arguments Returned {A} a.
Arguments Raised {A} e.
Arguments OutOfFuel {A}.

(** ** Rational helpers *)

Definition Qltb (x y : Q) : bool := negb (Qle_bool y x).

Definition Qmax (x y : Q) : Q := if Qltb x y then y else x.

(** [round(x)] of Python: to the nearest integer, ties to even. *)
Definition round_half_even (x : Q) : Z :=
  let f := Qfloor x in
  match Qcompare (x - inject_Z f) (1 # 2) with
  | Lt => f
  | Gt => f + 1
  | Eq => if Z.even f then f else f + 1
  end.

(** ** The [datetime] module *)

Module Datetime.

Definition MAXORDINAL : Z := 3652059.   (* date(9999, 12, 31).toordinal() *)

Definition MINUTE : Z := 60000000.
Definition HOUR : Z := 3600000000.
Definition DAY : Z := 86400000000.

Definition _is_leap (year : Z) : bool :=
  (year mod 4 =? 0) && (negb (year mod 100 =? 0) || (year mod 400 =? 0)).

Definition _days_before_year (year : Z) : Z :=
  let y := year - 1 in
  y * 365 + y / 4 - y / 100 + y / 400.

Definition _DAYS_IN_MONTH : list Z :=
  [-1; 31; 28; 31; 30; 31; 30; 31; 31; 30; 31; 30; 31].

Definition _DAYS_BEFORE_MONTH : list Z :=
  [-1; 0; 31; 59; 90; 120; 151; 181; 212; 243; 273; 304; 334].

Definition b2z (b : bool) : Z := if b then 1 else 0.

Definition _days_in_month (year month : Z) : Z :=
  if (month =? 2) && _is_leap year then 29
  else nth (Z.to_nat month) _DAYS_IN_MONTH (-1).

Definition _days_before_month (year month : Z) : Z :=
  nth (Z.to_nat month) _DAYS_BEFORE_MONTH (-1)
  + b2z ((2 <? month) && _is_leap year).

Definition _ymd2ord (year month day : Z) : Z :=
  _days_before_year year + _days_before_month year month + day.

Definition _DI400Y : Z := 146097.
Definition _DI100Y : Z := 36524.
Definition _DI4Y : Z := 1461.

Definition _ord2ymd (n0 : Z) : Z * Z * Z :=
  let n := n0 - 1 in
  let n400 := n / _DI400Y in
  let n := n mod _DI400Y in
  let year := n400 * 400 + 1 in
  let n100 := n / _DI100Y in
  let n := n mod _DI100Y in
  let n4 := n / _DI4Y in
  let n := n mod _DI4Y in
  let n1 := n / 365 in
  let n := n mod 365 in
  let year := year + n100 * 100 + n4 * 4 + n1 in
  if (n1 =? 4) || (n100 =? 4) then (year - 1, 12, 31)
  else
    let leapyear := (n1 =? 3) && (negb (n4 =? 24) || (n100 =? 3)) in
    let month := Z.shiftr (n + 50) 5 in
    let preceding :=
      nth (Z.to_nat month) _DAYS_BEFORE_MONTH (-1)
      + b2z ((2 <? month) && leapyear) in
    if n <? preceding then
      let month := month - 1 in
      let preceding :=
        preceding
        - (nth (Z.to_nat month) _DAYS_IN_MONTH (-1)
           + b2z ((month =? 2) && leapyear)) in
      (year, month, n - preceding + 1)
    else (year, month, n - preceding + 1).

(** A [timedelta] is a number of microseconds. *)
Definition timedelta : Type := Z.

Definition MAXDELTADAYS : Z := 999999999.

(** [timedelta(days=d, hours=h, minutes=m)] with integer arguments. *)
Definition timedelta_ints (d h m : Z) : timedelta :=
  d * DAY + h * HOUR + m * MINUTE.

(** [timedelta(hours=x)] with a float argument: the nearest microsecond. *)
Definition timedelta_hours (x : Q) : outcome timedelta :=
  let us := round_half_even (x * inject_Z HOUR) in
  if (Z.abs (us / DAY) <=? MAXDELTADAYS) then Returned us
  else Raised OverflowError.

Definition datetime : Type := Z.

(** [datetime(year, month, day, hour, minute)] *)
Definition mk (year month day hour minute : Z) : datetime :=
  _ymd2ord year month day * DAY + hour * HOUR + minute * MINUTE.

Definition toordinal (t : datetime) : Z := t / DAY.

(** [t.weekday()]: Monday is 0, Sunday is 6. *)
Definition weekday (t : datetime) : Z := (toordinal t + 6) mod 7.

(** [t + delta] *)
Definition add (t : datetime) (delta : timedelta) : outcome datetime :=
  let r := t + delta in
  if (0 <? r / DAY) && (r / DAY <=? MAXORDINAL) then Returned r
  else Raised OverflowError.

Definition ltb (a b : datetime) : bool := a <? b.

End Datetime.

(** ** Strings *)

Definition digit_char (n : Z) : ascii :=
  ascii_of_nat (48 + Z.to_nat (n mod 10)).

(** [%02d] and [%04d] *)
Definition pad2 (n : Z) : string :=
  String (digit_char (n / 10)) (String (digit_char n) EmptyString).

Definition pad4 (n : Z) : string :=
  String (digit_char (n / 1000)) (String (digit_char (n / 100)) (pad2 n)).

(** [str(n)] of a non-negative integer. *)
Fixpoint str_digits (fuel : nat) (n : Z) (acc : string) : string :=
  match fuel with
  | O => acc
  | S fuel' =>
      let acc' := String (digit_char n) acc in
      if n <? 10 then acc' else str_digits fuel' (n / 10) acc'
  end.

Definition str_int (n : Z) : string :=
  if n <? 0 then String "-" (str_digits (S (Z.to_nat (Z.log2 (- n)))) (- n) EmptyString)
  else str_digits (S (Z.to_nat (Z.log2 n))) n EmptyString.

Definition digit_val (c : ascii) : option Z :=
  let n := Z.of_nat (nat_of_ascii c) - 48 in
  if (0 <=? n) && (n <=? 9) then Some n else None.

(** [int(s)] of a string of decimal digits. *)
Fixpoint int_digits (acc : Z) (s : string) : option Z :=
  match s with
  | EmptyString => Some acc
  | String c s' =>
      match digit_val c with
      | Some d => int_digits (10 * acc + d) s'
      | None => None
      end
  end.

Definition int_of_string (s : string) : option Z :=
  match s with
  | EmptyString => None
  | String _ _ => int_digits 0 s
  end.

Definition is_empty (s : string) : bool :=
  match s with EmptyString => true | String _ _ => false end.

(** [needle in s] *)
Fixpoint contains (needle s : string) : bool :=
  prefix needle s
  || match s with
     | EmptyString => false
     | String _ s' => contains needle s'
     end.

(** [s in l] for a list of strings *)
Definition mem (s : string) (l : list string) : bool :=
  existsb (String.eqb s) l.

(** A [dict] with string keys, in insertion order. *)
Fixpoint dict_get {A : Type} (d : list (string * A)) (k : string) : option A :=
  match d with
  | [] => None
  | (k', v) :: d' => if String.eqb k k' then Some v else dict_get d' k
  end.

(** ** [strftime] and [strptime] for the format ['%m/%d/%Y %H:%M']

    The year is written with four digits; the generator starts in 2024, so
    years below 1000 do not occur. *)

Definition strftime (t : Datetime.datetime) : string :=
  let '(y, m, d) := Datetime._ord2ymd (Datetime.toordinal t) in
  let rest := t mod Datetime.DAY in
  let hh := rest / Datetime.HOUR in
  let mm := (rest mod Datetime.HOUR) / Datetime.MINUTE in
  pad2 m ++ "/" ++ pad2 d ++ "/" ++ pad4 y ++ " " ++ pad2 hh ++ ":" ++ pad2 mm.

Fixpoint parse_digits (k : nat) (acc : Z) (s : string) : option (Z * string) :=
  match k with
  | O => Some (acc, s)
  | S k' =>
      match s with
      | EmptyString => None
      | String c s' =>
          match digit_val c with
          | Some d => parse_digits k' (10 * acc + d) s'
          | None => None
          end
      end
  end.

Definition expect (c : ascii) (s : string) : option string :=
  match s with
  | String c' s' => if Ascii.eqb c c' then Some s' else None
  | EmptyString => None
  end.

(** The zero-padded strings that [strptime(s, '%m/%d/%Y %H:%M')] accepts,
    and the [datetime] it builds from them. *)
Definition strptime (s : string) : option Datetime.datetime :=
  match parse_digits 2 0 s with None => None | Some (m, s) =>
  match expect "/" s with None => None | Some s =>
  match parse_digits 2 0 s with None => None | Some (d, s) =>
  match expect "/" s with None => None | Some s =>
  match parse_digits 4 0 s with None => None | Some (y, s) =>
  match expect " " s with None => None | Some s =>
  match parse_digits 2 0 s with None => None | Some (hh, s) =>
  match expect ":" s with None => None | Some s =>
  match parse_digits 2 0 s with None => None | Some (mm, s) =>
    if is_empty s
       && (1 <=? y) && (1 <=? m) && (m <=? 12)
       && (1 <=? d) && (d <=? Datetime._days_in_month y m)
       && (hh <=? 23) && (mm <=? 59)
    then Some (Datetime.mk y m d hh mm)
    else None
  end end end end end end end end end.

(** ** The generators [random] and [numpy.random]

    Each call consumes one variate of its tape. Integers and list elements
    are obtained from a uniform variate [u] by scaling, as [int(u * n)]. *)

Module Random.

Definition in_unit (q : Q) : bool := Qle_bool 0 q && Qltb q 1.

(** A uniform variate of [[0, 1)]. *)
Record unit_variate : Type := mk_unit {
  uval : Q;
  uval_ok : in_unit uval = true
}.

(** A gamma variate: a positive real. *)
Record gamma_variate : Type := mk_gamma {
  gval : Q;
  gval_ok : Qltb 0 gval = true
}.

(** The state of both generators: what each will return next. *)
Record rng : Type := mk_rng {
  py_tape : nat -> unit_variate;    (* random.random() *)
  py_pos : nat;
  np_unif : nat -> unit_variate;    (* numpy's uniform variates *)
  np_upos : nat;
  np_gam : nat -> gamma_variate;    (* numpy's standard gamma variates *)
  np_gpos : nat
}.

(** Computations that draw random numbers and may raise. *)
Definition M (A : Type) : Type := rng -> outcome (A * rng).

Definition ret {A : Type} (a : A) : M A := fun s => Returned (a, s).

Definition bind {A B : Type} (c : M A) (k : A -> M B) : M B :=
  fun s =>
    match c s with
    | Returned (a, s') => k a s'
    | Raised e => Raised e
    | OutOfFuel => OutOfFuel
    end.

Definition raise {A : Type} (e : exn) : M A := fun _ => Raised e.

Definition out_of_fuel {A : Type} : M A := fun _ => OutOfFuel.

Definition lift {A : Type} (o : outcome A) : M A :=
  fun s =>
    match o with
    | Returned a => Returned (a, s)
    | Raised e => Raised e
    | OutOfFuel => OutOfFuel
    end.

(** The value of a computation, without the final generator state. *)
Definition outcome_value {A : Type} (o : outcome (A * rng)) : outcome A :=
  match o with
  | Returned (a, _) => Returned a
  | Raised e => Raised e
  | OutOfFuel => OutOfFuel
  end.

(** [random.random()] *)
Definition random : M Q :=
  fun s =>
    Returned (uval (py_tape s (py_pos s)),
              mk_rng (py_tape s) (S (py_pos s))
                     (np_unif s) (np_upos s) (np_gam s) (np_gpos s)).

Definition np_random_sample : M Q :=
  fun s =>
    Returned (uval (np_unif s (np_upos s)),
              mk_rng (py_tape s) (py_pos s)
                     (np_unif s) (S (np_upos s)) (np_gam s) (np_gpos s)).

Definition np_standard_gamma : M Q :=
  fun s =>
    Returned (gval (np_gam s (np_gpos s)),
              mk_rng (py_tape s) (py_pos s)
                     (np_unif s) (np_upos s) (np_gam s) (S (np_gpos s))).

Notation "x <- c ;; k" := (bind c (fun x => k))
  (at level 61, c at next level, right associativity).

(** [random.randint(a, b)]: an integer of [[a, b]]. *)
Definition randint (a b : Z) : M Z :=
  u <- random ;;
  ret (a + Qfloor (u * inject_Z (b - a + 1))).

(** [random.choice(seq)] *)
Definition choice {A : Type} (seq : list A) : M A :=
  u <- random ;;
  match nth_error seq (Z.to_nat (Qfloor (u * inject_Z (Z.of_nat (List.length seq))))) with
  | Some x => ret x
  | None => raise IndexError
  end.

(** [random.uniform(a, b)] is [a + (b - a) * random()]. *)
Definition uniform (a b : Q) : M Q :=
  u <- random ;;
  ret (a + (b - a) * u)%Q.

Fixpoint cumsum (acc : Q) (p : list Q) : list Q :=
  match p with
  | [] => []
  | x :: p' => (acc + x)%Q :: cumsum (acc + x)%Q p'
  end.

(** [cdf.searchsorted(u, side='right')] on an increasing [cdf]. *)
Fixpoint searchsorted_right (cdf : list Q) (u : Q) : nat :=
  match cdf with
  | [] => O
  | c :: cdf' => if Qle_bool c u then S (searchsorted_right cdf' u) else O
  end.

(** [numpy.random.choice(a, p=p)] *)
Definition np_choice {A : Type} (a : list A) (p : list Q) : M A :=
  u <- np_random_sample ;;
  let cdf := cumsum 0 p in
  let cdf := map (fun c => c / last cdf 1)%Q cdf in
  match nth_error a (searchsorted_right cdf u) with
  | Some x => ret x
  | None => raise IndexError
  end.

(** [numpy.random.gamma(shape, scale)] scales a standard gamma variate of
    that shape. *)
Definition np_gamma (shape scale : Q) : M Q :=
  g <- np_standard_gamma ;;
  ret (scale * g)%Q.

End Random.

(** ** [dataset_generation.py] *)

Import Random.

Record ticket : Type := mk_ticket {
  TicketID : Z;
  DateOpened : string;
  DateClosed : string;
  Product : string;
  Issue : string;
  Priority : string;
  Status : string;
  AssignedTo : string;
  Resolution : string
}.

(** *** Configuration of [generate_support_tickets] *)

Definition target_full_resolution_hours : Q := 42 # 10.
Definition target_reopen_rate : Q := 132 # 1000.

Definition products : list string := ["Aether"; "Dynamo"; "Pulse"].

Definition issue_types : list (string * list string) :=
  [ ("Aether", ["Login Issue"; "Payment Failure"; "Performance Issue";
                "Data Sync Error"; "UI Bug"]);
    ("Dynamo", ["Software Crash"; "Integration Error"; "Performance Issue";
                "Configuration Problem"; "Data Loss"]);
    ("Pulse", ["Network Failure"; "Connection Timeout"; "Service Unavailable";
               "Authentication Error"; "Sync Issue"]) ].

Definition priorities : list string := ["Low"; "Medium"; "High"; "Critical"].
Definition priority_weights : list Q := [4 # 10; 35 # 100; 2 # 10; 5 # 100].

Definition support_agents : list string :=
  ["Alice"; "Bob"; "Charlie"; "Diana"; "Eve"; "Frank"].

Definition start_date : Datetime.datetime := Datetime.mk 2024 1 1 0 0.

Definition current_time : Datetime.datetime := Datetime.mk 2024 12 31 0 0.

(** *** [get_resolution] *)

Definition resolutions : list (string * list string) :=
  [ ("Login Issue", ["Reset User Password"; "Fixed Authentication Service";
                     "Updated User Credentials"]);
    ("Payment Failure", ["Informed Billing Team"; "Updated Payment Method";
                         "Resolved Gateway Issue"]);
    ("Performance Issue", ["Optimized Database Query";
                           "Increased Server Resources"; "Fixed Memory Leak"]);
    ("Software Crash", ["Applied Software Patch"; "Fixed Memory Exception";
                        "Updated Dependencies"]);
    ("Network Failure", ["Restored Network Connection";
                         "Fixed DNS Configuration";
                         "Replaced Network Hardware"]);
    ("Data Sync Error", ["Resynced Data"; "Fixed Sync Configuration";
                         "Resolved Data Conflict"]);
    ("UI Bug", ["Fixed UI Component"; "Updated User Interface";
                "Resolved Display Issue"]);
    ("Integration Error", ["Fixed API Connection";
                           "Updated Integration Settings";
                           "Resolved Authentication"]);
    ("Configuration Problem", ["Updated Configuration"; "Fixed Settings";
                               "Restored Default Config"]);
    ("Data Loss", ["Restored from Backup"; "Recovered Data";
                   "Implemented Data Recovery"]);
    ("Connection Timeout", ["Increased Timeout Settings";
                            "Fixed Network Configuration";
                            "Optimized Connection"]);
    ("Service Unavailable", ["Restarted Service";
                             "Fixed Service Configuration";
                             "Resolved Server Issue"]);
    ("Authentication Error", ["Reset Authentication"; "Updated Credentials";
                              "Fixed Auth Service"]);
    ("Sync Issue", ["Fixed Synchronization"; "Updated Sync Settings";
                    "Resolved Sync Conflict"]) ].

Definition reopened_suffix : string := " - Reopened Issue Addressed".

Definition get_resolution (issue : string) (is_reopened : bool) : M string :=
  match dict_get resolutions issue with
  | Some texts =>
      resolution <- choice texts ;;
      ret (if is_reopened then resolution ++ reopened_suffix else resolution)
  | None =>
      ret ("Issue Resolved"
           ++ (if is_reopened then reopened_suffix else EmptyString))
  end.

(** *** The body of the loop of [generate_support_tickets] *)

(** Lines 62-70: the resolution time by priority. *)
Definition sample_base_hours (priority : string) : M Q :=
  if String.eqb priority "Critical" then np_gamma 2 (15 # 10)
  else if String.eqb priority "High" then np_gamma 3 2
  else if String.eqb priority "Medium" then np_gamma 4 (25 # 10)
  else np_gamma 5 3.

(** Lines 83-85: [while date_closed.weekday() > 4: ...]; [fuel] bounds the
    number of iterations the model unrolls. *)
Fixpoint weekend_loop (fuel : nat) (date_closed : Datetime.datetime)
  : M Datetime.datetime :=
  if 4 <? Datetime.weekday date_closed then
    match fuel with
    | O => out_of_fuel
    | S fuel' =>
        u <- random ;;
        if Qltb u (7 # 10) then
          date_closed' <-
            lift (Datetime.add date_closed (Datetime.timedelta_ints 2 0 0)) ;;
          weekend_loop fuel' date_closed'
        else weekend_loop fuel' date_closed
    end
  else ret date_closed.

(** Lines 90-126: status, formatted close date and resolution text. *)
Definition determine_status (will_reopen : bool)
    (date_closed : Datetime.datetime) (issue : string)
  : M (string * string * string) :=
  if will_reopen then
    if Datetime.ltb date_closed current_time then
      h <- randint 1 168 ;;
      reopen_date <-
        lift (Datetime.add date_closed (Datetime.timedelta_ints 0 h 0)) ;;
      if Datetime.ltb reopen_date current_time then
        u <- random ;;
        if Qltb u (7 # 10) then
          second_resolution_hours <- np_gamma 2 (15 # 10) ;;
          delta <- lift (Datetime.timedelta_hours second_resolution_hours) ;;
          final_close_date <- lift (Datetime.add reopen_date delta) ;;
          resolution <- get_resolution issue true ;;
          ret ("Reopened Closed", strftime final_close_date, resolution)
        else ret ("Reopened Open", EmptyString, EmptyString)
      else ret ("Reopened Open", EmptyString, EmptyString)
    else ret ("Open", EmptyString, EmptyString)
  else
    if Datetime.ltb date_closed current_time then
      resolution <- get_resolution issue false ;;
      ret ("Closed", strftime date_closed, resolution)
    else ret ("Open", EmptyString, EmptyString).

Definition generate_ticket (fuel : nat) (ticket_id : Z) : M ticket :=
  days_offset <- randint 0 365 ;;
  date_opened <-
    lift (Datetime.add start_date (Datetime.timedelta_ints days_offset 0 0)) ;;
  hours <- randint 0 23 ;;
  minutes <- randint 0 59 ;;
  date_opened <-
    lift (Datetime.add date_opened (Datetime.timedelta_ints 0 hours minutes)) ;;
  product <- choice products ;;
  issues <- match dict_get issue_types product with
            | Some l => ret l
            | None => raise KeyError
            end ;;
  issue <- choice issues ;;
  priority <- np_choice priorities priority_weights ;;
  assigned_to <- choice support_agents ;;
  u <- random ;;
  let will_reopen := Qltb u target_reopen_rate in
  base_hours <- sample_base_hours priority ;;
  let resolution_hours :=
    Qmax (1 # 10) (base_hours * (target_full_resolution_hours / 4))%Q in
  u <- random ;;
  resolution_hours <-
    (if Qltb u (1 # 10) then
       f <- uniform 3 8 ;; ret (resolution_hours * f)%Q
     else ret resolution_hours) ;;
  delta <- lift (Datetime.timedelta_hours resolution_hours) ;;
  date_closed <- lift (Datetime.add date_opened delta) ;;
  date_closed <- weekend_loop fuel date_closed ;;
  r <- determine_status will_reopen date_closed issue ;;
  let '(status, date_closed_formatted, resolution) := r in
  let date_opened_formatted := strftime date_opened in
  ret (mk_ticket ticket_id date_opened_formatted date_closed_formatted
                 product issue priority status assigned_to resolution).

(** [range(a, b)] *)
Definition range (a b : Z) : list Z :=
  map (fun i => a + Z.of_nat i) (seq 0 (Z.to_nat (b - a))).

Fixpoint generate_loop (fuel : nat) (ids : list Z) (tickets : list ticket)
  : M (list ticket) :=
  match ids with
  | [] => ret tickets
  | ticket_id :: ids' =>
      t <- generate_ticket fuel ticket_id ;;
      generate_loop fuel ids' (tickets ++ [t])%list
  end.

Definition generate_support_tickets (fuel : nat) (num_tickets : Z)
  : M (list ticket) :=
  generate_loop fuel (range 1001 (1001 + num_tickets)) [].

(** ** The [csv] module (dialect [excel]) *)

Module Csv.

Definition quotechar : ascii := ascii_of_nat 34.
Definition CR : ascii := ascii_of_nat 13.
Definition LF : ascii := ascii_of_nat 10.
Definition delimiter : ascii := ",".
Definition lineterminator : string := String CR (String LF EmptyString).

(** Characters that force a field to be quoted ([QUOTE_MINIMAL]). *)
Definition special (c : ascii) : bool :=
  Ascii.eqb c delimiter || Ascii.eqb c quotechar
  || Ascii.eqb c CR || Ascii.eqb c LF.

Fixpoint any_special (s : string) : bool :=
  match s with
  | EmptyString => false
  | String c s' => special c || any_special s'
  end.

Fixpoint double_quotes (s : string) : string :=
  match s with
  | EmptyString => EmptyString
  | String c s' =>
      if Ascii.eqb c quotechar then String c (String c (double_quotes s'))
      else String c (double_quotes s')
  end.

Definition quote_field (s : string) : string :=
  if any_special s
  then String quotechar (double_quotes s ++ String quotechar EmptyString)
  else s.

Fixpoint join (fields : list string) : string :=
  match fields with
  | [] => EmptyString
  | [f] => f
  | f :: fields' => f ++ String delimiter (join fields')
  end.

(** [writer.writerow(fields)]: the text appended to the file. *)
Definition writerow (fields : list string) : string :=
  match fields with
  | [EmptyString] =>
      String quotechar (String quotechar EmptyString) ++ lineterminator
  | _ => join (map quote_field fields) ++ lineterminator
  end.

(** [DictWriter(f, fieldnames)]: a row dictionary holds the [str] of each
    value; a missing key is written as the empty [restval]. *)
Definition dict_row (fieldnames : list string) (d : list (string * string))
  : list string :=
  map (fun k => match dict_get d k with Some v => v | None => EmptyString end)
      fieldnames.

Definition writeheader (fieldnames : list string) : string :=
  writerow fieldnames.

Fixpoint writerows (fieldnames : list string)
    (rowdicts : list (list (string * string))) : string :=
  match rowdicts with
  | [] => EmptyString
  | d :: rowdicts' =>
      writerow (dict_row fieldnames d) ++ writerows fieldnames rowdicts'
  end.

(** The reader's automaton, one character at a time. *)
Inductive rstate : Type :=
| START_RECORD | START_FIELD | IN_FIELD
| IN_QUOTED_FIELD | QUOTE_IN_QUOTED_FIELD | EAT_CRNL.

Record rd : Type := mk_rd {
  rd_state : rstate;
  rd_field : string;
  rd_row : list string
}.

Definition snoc (s : string) (c : ascii) : string :=
  s ++ String c EmptyString.

Definition end_record (r : rd) (c : ascii) : rd * option (list string) :=
  (mk_rd (if Ascii.eqb c CR then EAT_CRNL else START_RECORD) EmptyString [],
   Some (rd_row r ++ [rd_field r])%list).

Definition end_field (r : rd) : rd * option (list string) :=
  (mk_rd START_FIELD EmptyString (rd_row r ++ [rd_field r])%list, None).

Definition start_field (r : rd) (c : ascii) : rd * option (list string) :=
  if Ascii.eqb c CR || Ascii.eqb c LF then end_record r c
  else if Ascii.eqb c quotechar
  then (mk_rd IN_QUOTED_FIELD EmptyString (rd_row r), None)
  else if Ascii.eqb c delimiter then end_field r
  else (mk_rd IN_FIELD (String c EmptyString) (rd_row r), None).

Definition start_record (r : rd) (c : ascii) : rd * option (list string) :=
  if Ascii.eqb c CR then (mk_rd EAT_CRNL EmptyString [], None)
  else if Ascii.eqb c LF then (mk_rd START_RECORD EmptyString [], None)
  else start_field (mk_rd START_FIELD EmptyString []) c.

Definition step (r : rd) (c : ascii) : rd * option (list string) :=
  match rd_state r with
  | START_RECORD => start_record r c
  | EAT_CRNL =>
      if Ascii.eqb c LF then (mk_rd START_RECORD EmptyString [], None)
      else start_record r c
  | START_FIELD => start_field r c
  | IN_FIELD =>
      if Ascii.eqb c CR || Ascii.eqb c LF then end_record r c
      else if Ascii.eqb c delimiter then end_field r
      else (mk_rd IN_FIELD (snoc (rd_field r) c) (rd_row r), None)
  | IN_QUOTED_FIELD =>
      if Ascii.eqb c quotechar
      then (mk_rd QUOTE_IN_QUOTED_FIELD (rd_field r) (rd_row r), None)
      else (mk_rd IN_QUOTED_FIELD (snoc (rd_field r) c) (rd_row r), None)
  | QUOTE_IN_QUOTED_FIELD =>
      if Ascii.eqb c quotechar
      then (mk_rd IN_QUOTED_FIELD (snoc (rd_field r) c) (rd_row r), None)
      else if Ascii.eqb c delimiter then end_field r
      else if Ascii.eqb c CR || Ascii.eqb c LF then end_record r c
      else (mk_rd IN_FIELD (snoc (rd_field r) c) (rd_row r), None)
  end.

(** [list(csv.reader(f))] without the blank lines. *)
Fixpoint read_from (r : rd) (s : string) : list (list string) :=
  match s with
  | EmptyString =>
      match rd_state r with
      | START_RECORD | EAT_CRNL => []
      | _ => [(rd_row r ++ [rd_field r])%list]
      end
  | String c s' =>
      match step r c with
      | (r', Some record) => record :: read_from r' s'
      | (r', None) => read_from r' s'
      end
  end.

Definition reader (s : string) : list (list string) :=
  read_from (mk_rd START_RECORD EmptyString []) s.

(** [list(csv.DictReader(f))]: the first record names the fields. *)
Definition dict_reader (s : string) : list (list (string * string)) :=
  match reader s with
  | [] => []
  | fieldnames :: records => map (combine fieldnames) records
  end.

End Csv.

(** *** [save_to_csv]: the text written to the file *)

Definition fieldnames : list string :=
  ["TicketID"; "DateOpened"; "DateClosed"; "Product"; "Issue"; "Priority";
   "Status"; "AssignedTo"; "Resolution"].

(** The ticket dictionary as the writer sees it: each value through [str]. *)
Definition ticket_items (t : ticket) : list (string * string) :=
  [ ("TicketID", str_int (TicketID t));
    ("DateOpened", DateOpened t);
    ("DateClosed", DateClosed t);
    ("Product", Product t);
    ("Issue", Issue t);
    ("Priority", Priority t);
    ("Status", Status t);
    ("AssignedTo", AssignedTo t);
    ("Resolution", Resolution t) ].

Definition save_to_csv (tickets : list ticket) : string :=
  Csv.writeheader fieldnames
  ++ Csv.writerows fieldnames (map ticket_items tickets).

(** *** [print_kpi_analysis]: the numbers it prints *)

Definition closed_tickets (tickets : list ticket) : list ticket :=
  filter (fun t => mem (Status t) ["Closed"; "Reopened Closed"]) tickets.

Definition reopened_tickets (tickets : list ticket) : nat :=
  List.length (filter (fun t => contains "Reopened" (Status t)) tickets).

(** [reopened_tickets / total_tickets] *)
Definition reopen_rate (tickets : list ticket) : outcome Q :=
  match tickets with
  | [] => Raised ZeroDivisionError
  | _ => Returned (inject_Z (Z.of_nat (reopened_tickets tickets))
                   / inject_Z (Z.of_nat (List.length tickets)))%Q
  end.

Definition resolution_rate (tickets : list ticket) : outcome Q :=
  match tickets with
  | [] => Raised ZeroDivisionError
  | _ => Returned (inject_Z (Z.of_nat (List.length (closed_tickets tickets)))
                   / inject_Z (Z.of_nat (List.length tickets)))%Q
  end.

(** What [print_kpi_analysis] prints: the three counts and the two
    percentages. The divisions of lines 195-196 raise on an empty list. *)
Record kpi : Type := mk_kpi {
  kpi_total : nat;
  kpi_closed : nat;
  kpi_reopened : nat;
  kpi_reopen_percent : Q;
  kpi_resolution_percent : Q
}.

Definition print_kpi_analysis (tickets : list ticket) : outcome kpi :=
  let closed := closed_tickets tickets in
  let total_tickets := List.length tickets in
  let reopened := reopened_tickets tickets in
  match total_tickets with
  | O => Raised ZeroDivisionError
  | S _ =>
      Returned
        (mk_kpi total_tickets (List.length closed) reopened
           (inject_Z (Z.of_nat reopened)
            / inject_Z (Z.of_nat total_tickets) * 100)%Q
           (inject_Z (Z.of_nat (List.length closed))
            / inject_Z (Z.of_nat total_tickets) * 100)%Q)
  end.

(** ** [project_dash.py]: [InteractiveTicketDashboard]

    A [DataFrame] is the list of its rows and a cell that holds NaN (or
    NaT) is [None]. [read_csv] is [pd.read_csv] on files with the nine
    columns that [save_to_csv] writes, [TicketID] read as an integer and
    the other columns as text; [to_datetime] with the format of line 23 is
    [strptime]. *)

Module Dashboard.

(** The texts that [pd.read_csv] takes for a missing value (pandas 2). *)
Definition na_values : list string :=
  [ EmptyString; "#N/A"; "#N/A N/A"; "#NA"; "-1.#IND"; "-1.#QNAN"; "-NaN";
    "-nan"; "1.#IND"; "1.#QNAN"; "<NA>"; "N/A"; "NA"; "NULL"; "NaN"; "None";
    "n/a"; "nan"; "null" ].

Definition read_cell (s : string) : option string :=
  if mem s na_values then None else Some s.

Record frame_row : Type := mk_frame_row {
  c_TicketID : option Z;
  c_DateOpened : option string;
  c_DateClosed : option string;
  c_Product : option string;
  c_Issue : option string;
  c_Priority : option string;
  c_Status : option string;
  c_AssignedTo : option string;
  c_Resolution : option string
}.

Definition frame_row_of (fields : list string) : option frame_row :=
  match fields with
  | [id; opened; closed; product; issue; priority; status; agent; res] =>
      Some (mk_frame_row (int_of_string id) (read_cell opened)
              (read_cell closed) (read_cell product) (read_cell issue)
              (read_cell priority) (read_cell status) (read_cell agent)
              (read_cell res))
  | _ => None
  end.

Fixpoint all_some {A : Type} (l : list (option A)) : option (list A) :=
  match l with
  | [] => Some []
  | None :: _ => None
  | Some a :: l' =>
      match all_some l' with
      | Some r => Some (a :: r)
      | None => None
      end
  end.

(** [None]: a record does not have nine fields. *)
Definition read_csv (content : string) : option (list frame_row) :=
  match Csv.reader content with
  | [] => Some []
  | _ :: records => all_some (map frame_row_of records)
  end.

(** [str(x)] of a cell *)
Definition str_cell (x : option string) : string :=
  match x with Some s => s | None => "nan" end.

(** Lines 39-42: the lambda that cleans the status. *)
Definition clean_status (x : option string) : string :=
  if contains "Closed" (str_cell x) then "Closed"
  else if contains "Open" (str_cell x) then "Open"
  else str_cell x.

(** [pd.to_datetime(col, format=...)]: the outer [None] is the
    [ValueError] of a text that does not match the format. *)
Definition to_datetime (x : option string)
  : option (option Datetime.datetime) :=
  match x with
  | None => Some None
  | Some s =>
      match strptime s with
      | Some t => Some (Some t)
      | None => None
      end
  end.

(** [pd.to_datetime(col, format=..., errors='coerce')] *)
Definition to_datetime_coerce (x : option string)
  : option Datetime.datetime :=
  match x with
  | None => None
  | Some s => strptime s
  end.

Definition month (t : Datetime.datetime) : Z :=
  let '(_, m, _) := Datetime._ord2ymd (Datetime.toordinal t) in m.

Definition hour (t : Datetime.datetime) : Z :=
  (t mod Datetime.DAY) / Datetime.HOUR.

Definition day_name (t : Datetime.datetime) : string :=
  nth (Z.to_nat (Datetime.weekday t))
      ["Monday"; "Tuesday"; "Wednesday"; "Thursday"; "Friday"; "Saturday";
       "Sunday"] EmptyString.

(** A row of [self.df] after [prepare_data]. *)
Record prepared : Type := mk_prepared {
  p_cells : frame_row;
  p_DateOpened : option Datetime.datetime;
  p_DateClosed : option Datetime.datetime;
  p_ResolutionHours : option Q;
  p_OpenedMonth : option Z;
  p_OpenedDayOfWeek : option string;
  p_OpenedHour : option Z;
  p_OpenedDate : option Z;
  p_CleanStatus : string
}.

Definition prepare_row (r : frame_row) : option prepared :=
  match to_datetime (c_DateOpened r) with
  | None => None
  | Some opened =>
      let closed := to_datetime_coerce (c_DateClosed r) in
      let hours :=
        match closed, opened with
        | Some c, Some o =>
            Some (inject_Z (c - o) / inject_Z Datetime.HOUR)%Q
        | _, _ => None
        end in
      Some (mk_prepared r opened closed hours
              (option_map month opened) (option_map day_name opened)
              (option_map hour opened)
              (option_map Datetime.toordinal opened)
              (clean_status (c_Status r)))
  end.

(** [prepare_data]: [None] when [DateOpened] of some row raises. *)
Definition prepare_data (df : list frame_row) : option (list prepared) :=
  all_some (map prepare_row df).

(** [series.mean()]: the mean of the values that are not NaN. *)
Definition mean (values : list (option Q)) : option Q :=
  let present := flat_map (fun v => match v with Some q => [q] | None => [] end)
                          values in
  match present with
  | [] => None
  | _ => Some (fold_right Qplus 0 present
               / inject_Z (Z.of_nat (List.length present)))%Q
  end.

(** The numbers on the cards of [create_kpi_cards]. *)
Record kpi_cards : Type := mk_kpi_cards {
  total_tickets : nat;
  closed_tickets : nat;
  open_tickets : nat;
  avg_resolution : option Q;
  closure_rate : Q
}.

Definition create_kpi_cards (filtered_df : list prepared) : kpi_cards :=
  let total := List.length filtered_df in
  let closed :=
    List.length
      (filter (fun r => String.eqb (p_CleanStatus r) "Closed") filtered_df) in
  let open :=
    List.length
      (filter (fun r => String.eqb (p_CleanStatus r) "Open") filtered_df) in
  let avg := mean (map p_ResolutionHours filtered_df) in
  let rate :=
    if (0 <? Z.of_nat total)
    then (inject_Z (Z.of_nat closed) / inject_Z (Z.of_nat total) * 100)%Q
    else 0%Q in
  mk_kpi_cards total closed open avg rate.

(** [series == value] on a column of text: NaN equals nothing. *)
Definition cell_is (x : option string) (value : string) : bool :=
  match x with
  | Some s => String.eqb s value
  | None => false
  end.

(** [filter_data]; a date argument is [None] when it is missing or empty,
    otherwise the timestamp it denotes. *)
Definition filter_data (df : list prepared) (product priority status : string)
    (start_date end_date : option Datetime.datetime) : list prepared :=
  let filtered_df := df in
  let filtered_df :=
    if negb (String.eqb product "all")
    then filter (fun r => cell_is (c_Product (p_cells r)) product) filtered_df
    else filtered_df in
  let filtered_df :=
    if negb (String.eqb priority "all")
    then filter (fun r => cell_is (c_Priority (p_cells r)) priority)
                filtered_df
    else filtered_df in
  let filtered_df :=
    if negb (String.eqb status "all")
    then filter (fun r => String.eqb (p_CleanStatus r) status) filtered_df
    else filtered_df in
  match start_date, end_date with
  | Some first, Some last =>
      filter (fun r =>
                match p_DateOpened r with
                | Some opened => (first <=? opened) && (opened <=? last)
                | None => false
                end)
             filtered_df
  | _, _ => filtered_df
  end.

End Dashboard.

(** ** [project_dash4.py]: the simulated reopen indicator

    Line 25 and the reopen figures of [update_dashboard] (lines 552-553),
    as functions of the [TicketID] column of the frame. *)

Module Dashboard4.

Definition WasReopened (ticket_id : Z) : bool := ticket_id mod 20 =? 0.

Definition reopened_tickets (dff : list Z) : nat :=
  List.length (filter (fun ticket_id => Bool.eqb (WasReopened ticket_id) true)
                      dff).

Definition reopen_rate (dff : list Z) : Q :=
  let total_tickets := List.length dff in
  if (0 <? Z.of_nat total_tickets)
  then (inject_Z (Z.of_nat (reopened_tickets dff))
        / inject_Z (Z.of_nat total_tickets) * 100)%Q
  else 0%Q.

End Dashboard4.

(** ** Sample generator states

    Tapes on which the generator is run in the examples below. *)

Definition u_of (n : Z) (d : positive) (ok : in_unit (n # d) = true)
  : unit_variate := mk_unit (n # d) ok.

Definition u_half : unit_variate := u_of 1 2 eq_refl.
Definition g_one : gamma_variate := mk_gamma 1 eq_refl.

Definition rng_of (py : nat -> unit_variate) (gam : nat -> gamma_variate)
  : rng := mk_rng py O (fun _ => u_half) O gam O.

(** Every uniform variate is 1/2 and every gamma variate is 1. *)
Definition rng_half : rng := rng_of (fun _ => u_half) (fun _ => g_one).

(** Opened on Saturday 2024-01-06 at 12:30 and resolved the same day; the
    first draw of the weekend loop is 0.9, the next ones are 0.5. *)
Definition rng_weekend : rng :=
  rng_of (fun i => match i with
                   | 0%nat => u_of 11 732 eq_refl
                   | 8%nat => u_of 9 10 eq_refl
                   | _ => u_half
                   end)
         (fun _ => g_one).

(** A tape of period 9: as [rng_weekend] for the first ticket, whose weekend
    loop draws 0.9 and then 11/732. *)
Definition rng_cycle : rng :=
  rng_of (fun i => match Nat.modulo i 9 with
                   | 0%nat => u_of 11 732 eq_refl
                   | 8%nat => u_of 9 10 eq_refl
                   | _ => u_half
                   end)
         (fun _ => g_one).

(** Opened on Monday 2024-12-30 at 19:30, first resolved at 22:07, reopened
    one hour later and resolved again after three more hours. *)
Definition rng_late : rng :=
  rng_of (fun i => match i with
                   | 0%nat => u_of 729 732 eq_refl
                   | 1%nat => u_of 39 48 eq_refl
                   | 6%nat => u_of 1 10 eq_refl
                   | 8%nat => u_of 0 1 eq_refl
                   | _ => u_half
                   end)
         (fun i => match i with
                   | 0%nat => g_one
                   | _ => mk_gamma 2 eq_refl
                   end).

(** A reopened ticket whose gamma variates are all 1/100. *)
Definition rng_quick : rng :=
  rng_of (fun i => match i with
                   | 6%nat => u_of 1 10 eq_refl
                   | 8%nat => u_of 0 1 eq_refl
                   | _ => u_half
                   end)
         (fun _ => mk_gamma (1 # 100) eq_refl).

(** The tickets these tapes produce. *)
Definition sample_ticket (ticket_id : Z) (opened closed status res : string)
  : ticket :=
  mk_ticket ticket_id opened closed "Dynamo" "Performance Issue" "Medium"
            status "Diana" res.

Definition ticket_half (ticket_id : Z) : ticket :=
  sample_ticket ticket_id "07/02/2024 12:30" "07/02/2024 15:07" "Closed"
                "Increased Server Resources".

Definition ticket_weekend : ticket :=
  sample_ticket 1001 "01/06/2024 12:30" "01/08/2024 15:07" "Closed"
                "Increased Server Resources".

Definition ticket_late : ticket :=
  sample_ticket 1001 "12/30/2024 19:30" "12/31/2024 02:07" "Reopened Closed"
                "Increased Server Resources - Reopened Issue Addressed".

Definition ticket_quick : ticket :=
  sample_ticket 1001 "07/02/2024 12:30" "07/02/2024 13:36" "Reopened Closed"
                "Increased Server Resources - Reopened Issue Addressed".

(** ** Auxiliary definitions for the proofs *)

(** [p] holds of [z], [z + 1], ..., [z + fuel - 1]. *)
Fixpoint all_from (fuel : nat) (z : Z) (p : Z -> bool) : bool :=
  match fuel with
  | O => true
  | S fuel' => p z && all_from fuel' (z + 1) p
  end.

(** The last lines of [_ord2ymd]: month and day of the day number [n] of
    a year, counted from 0. *)
Definition month_day (leapyear : bool) (n : Z) : Z * Z :=
  let month := Z.shiftr (n + 50) 5 in
  let preceding :=
    nth (Z.to_nat month) Datetime._DAYS_BEFORE_MONTH (-1)
    + Datetime.b2z ((2 <? month) && leapyear) in
  if n <? preceding then
    let month := month - 1 in
    let preceding :=
      preceding
      - (nth (Z.to_nat month) Datetime._DAYS_IN_MONTH (-1)
         + Datetime.b2z ((month =? 2) && leapyear)) in
    (month, n - preceding + 1)
  else (month, n - preceding + 1).

(** [month_day] yields a valid month and day, and the days before them
    add up to [n]. *)
Definition month_day_ok (leap : bool) (n : Z) : bool :=
  let '(m, d) := month_day leap n in
  (1 <=? m) && (m <=? 12) && (1 <=? d)
  && (d <=? (if (m =? 2) && leap then 29
             else nth (Z.to_nat m) Datetime._DAYS_IN_MONTH (-1)))
  && (nth (Z.to_nat m) Datetime._DAYS_BEFORE_MONTH (-1)
      + Datetime.b2z ((2 <? m) && leap) + d =? n + 1).

(** A [datetime] that Python can represent. *)
Definition in_range (t : Datetime.datetime) : Prop :=
  0 < t / Datetime.DAY <= Datetime.MAXORDINAL.

(** The start of the minute of [t]: what is left of [t] in a string of
    format ['%m/%d/%Y %H:%M']. *)
Definition minute_of (t : Datetime.datetime) : Datetime.datetime :=
  t - t mod Datetime.MINUTE.

(** [s'] is [s] after [n] more calls of [random.random()]. *)
Definition py_advanced (n : nat) (s s' : rng) : Prop :=
  py_tape s' = py_tape s /\ py_pos s' = (n + py_pos s)%nat.

Definition all_issues : list string := List.concat (map snd issue_types).

Definition all_texts : list string :=
  "Issue Resolved" :: List.concat (map snd resolutions).

(** What [get_resolution] can return. *)
Definition resolution_text (is_reopened : bool) (res : string) : Prop :=
  exists base,
    In base all_texts
    /\ res = if is_reopened then base ++ reopened_suffix else base.

(** The four ways lines 90-126 settle a ticket whose first resolution is at
    [date_closed]: status, formatted close date and resolution text. *)
Inductive settled (will_reopen : bool) (date_closed : Datetime.datetime)
  : string -> string -> string -> Prop :=
| settled_open :
    current_time <= date_closed ->
    settled will_reopen date_closed "Open" EmptyString EmptyString
| settled_closed (res : string) :
    will_reopen = false ->
    date_closed < current_time ->
    resolution_text false res ->
    settled will_reopen date_closed "Closed" (strftime date_closed) res
| settled_reopened_open :
    will_reopen = true ->
    date_closed < current_time ->
    settled will_reopen date_closed "Reopened Open" EmptyString EmptyString
| settled_reopened_closed (final_close_date : Datetime.datetime)
    (res : string) :
    will_reopen = true ->
    date_closed < current_time ->
    in_range final_close_date ->
    date_closed + Datetime.HOUR <= final_close_date ->
    resolution_text true res ->
    settled will_reopen date_closed
            "Reopened Closed" (strftime final_close_date) res.

(** What the loop body guarantees of the ticket it builds from the
    generator state [s]: [date_opened] is the opening time, [date_closed]
    the first resolution after the weekend loop, and the reopen decision is
    the seventh variate that [random] yields. *)
Definition ticket_spec (s : rng) (ticket_id : Z) (t : ticket) : Prop :=
  exists (date_opened date_closed : Datetime.datetime) (issues : list string),
    TicketID t = ticket_id
    /\ in_range date_opened
    /\ minute_of date_opened = date_opened
    /\ DateOpened t = strftime date_opened
    /\ In (Product t) products
    /\ dict_get issue_types (Product t) = Some issues
    /\ In (Issue t) issues
    /\ In (Priority t) priorities
    /\ In (AssignedTo t) support_agents
    /\ in_range date_closed
    /\ date_opened + 6 * Datetime.MINUTE <= date_closed
    /\ Datetime.weekday date_closed <= 4
    /\ settled
         (Qltb (uval (py_tape s (6 + py_pos s))) target_reopen_rate)
         date_closed (Status t) (DateClosed t) (Resolution t).

(** A ticket that some run of the loop body has built. *)
Definition generated (t : ticket) : Prop :=
  exists (s : rng) (ticket_id : Z), ticket_spec s ticket_id t.

(** The reopen decisions of line 59 for the tickets of a run, in order:
    whether the variate each ticket draws for it is below the target. *)
Fixpoint reopen_decisions (fuel : nat) (ids : list Z) (s : rng) : list bool :=
  match ids with
  | [] => []
  | ticket_id :: ids' =>
      Qltb (uval (py_tape s (6 + py_pos s))) target_reopen_rate
      :: match generate_ticket fuel ticket_id s with
         | Returned (_, s1) => reopen_decisions fuel ids' s1
         | _ => []
         end
  end.

(** How many of these decisions are to reopen. *)
Definition eligible (fuel : nat) (num_tickets : Z) (s : rng) : nat :=
  List.length
    (filter (fun b : bool => b)
            (reopen_decisions fuel (range 1001 (1001 + num_tickets)) s)).

(** A field that the writer leaves unquoted. *)
Definition plain (s : string) : Prop := Csv.any_special s = false.

(** The row that [DictWriter] writes for a ticket. *)
Definition ticket_row (t : ticket) : list string :=
  Csv.dict_row fieldnames (ticket_items t).

(** A ticket that the loop body returns from some state. *)
Definition built (t : ticket) : Prop :=
  exists (fuel : nat) (ticket_id : Z) (s s' : rng),
    generate_ticket fuel ticket_id s = Returned (t, s').

(** [f] applied to the value a computation returns. *)
Definition outcome_map {A B : Type} (f : A -> B) (o : outcome (A * rng))
  : outcome (B * rng) :=
  match o with
  | Returned (a, s) => Returned (f a, s)
  | Raised e => Raised e
  | OutOfFuel => OutOfFuel
  end.

(** [s'] draws from the same tapes as [s]. *)
Definition same_tapes (s s' : rng) : Prop :=
  py_tape s' = py_tape s /\ np_gam s' = np_gam s.

(** Tapes on which the generation can be shown to return: among any
    [k + 1] consecutive variates of [random] one is below 0.7, and no
    standard gamma variate exceeds 1000. *)
Definition steady (k : nat) (s : rng) : Prop :=
  (forall i, exists j,
      (i <= j <= i + k)%nat /\ Qltb (uval (py_tape s j)) (7 # 10) = true)
  /\ (forall i, (gval (np_gam s i) <= 1000)%Q).

(** ** Termination

    A tape that repeats with period [p], as the values of a generator with
    finitely many states do. *)
Definition periodic (p : nat) (tape : nat -> unit_variate) : Prop :=
  forall i, uval (tape (i + p)%nat) = uval (tape i).

(** Among any [p] consecutive variates of the tape one is below 0.7. *)
Definition recurs (p : nat) (tape : nat -> unit_variate) : Prop :=
  forall i, exists j,
    (i <= j < i + p)%nat /\ Qltb (uval (tape j)) (7 # 10) = true.

(** Started on such a tape, [c] returns, still on that tape, or raises: it
    does not run out of fuel. *)
Definition halts (p : nat) {A : Type} (c : M A) : Prop :=
  forall s, recurs p (py_tape s) ->
    match c s with
    | Returned (_, s') => py_tape s' = py_tape s
    | Raised _ => True
    | OutOfFuel => False
    end.

(** ** The dashboard

    [selected] is the one mask that the selections of [filter_data]
    amount to. *)

Definition selected (product priority status : string)
    (start_date end_date : option Datetime.datetime)
    (r : Dashboard.prepared) : bool :=
  (String.eqb product "all"
   || Dashboard.cell_is (Dashboard.c_Product (Dashboard.p_cells r)) product)
  && (String.eqb priority "all"
      || Dashboard.cell_is (Dashboard.c_Priority (Dashboard.p_cells r))
                           priority)
  && (String.eqb status "all"
      || String.eqb (Dashboard.p_CleanStatus r) status)
  && match start_date, end_date with
     | Some first, Some last =>
         match Dashboard.p_DateOpened r with
         | Some opened => (first <=? opened) && (opened <=? last)
         | None => false
         end
     | _, _ => true
     end.

(** What [prepare_data] makes of the row of a ticket. *)
Definition prepared_from (t : ticket) (r : Dashboard.prepared) : Prop :=
  Dashboard.c_TicketID (Dashboard.p_cells r) = Some (TicketID t)
  /\ ((DateClosed t <> EmptyString
       /\ Dashboard.p_CleanStatus r = "Closed"
       /\ exists h,
            Dashboard.p_ResolutionHours r = Some h /\ (1 # 10 <= h)%Q)
      \/ (DateClosed t = EmptyString
          /\ Dashboard.p_CleanStatus r = "Open"
          /\ Dashboard.p_DateClosed r = None
          /\ Dashboard.p_ResolutionHours r = None)).

(** A row that is closed with a resolution time of at least 0.1 hours, or
    open without one. *)
Definition rated (r : Dashboard.prepared) : Prop :=
  (Dashboard.p_CleanStatus r = "Closed"
   /\ exists h, Dashboard.p_ResolutionHours r = Some h /\ (1 # 10 <= h)%Q)
  \/ (Dashboard.p_CleanStatus r = "Open"
      /\ Dashboard.p_ResolutionHours r = None).

(** * Properties *)

(** ** The monad *)

Lemma bind_returned {A B : Type} (c : M A) (k : A -> M B) s b s' :
  bind c k s = Returned (b, s') ->
  exists a s1, c s = Returned (a, s1) /\ k a s1 = Returned (b, s').
Proof.
  unfold bind. destruct (c s) as [[a s1] | e | ]; try discriminate.
  intros H. exists a, s1. split; [reflexivity | exact H].
Qed.

Lemma bind_step {A B : Type} (c : M A) (k : A -> M B) s a s1 :
  c s = Returned (a, s1) -> bind c k s = k a s1.
Proof. unfold bind. intros ->. reflexivity. Qed.

Lemma bind_out_of_fuel {A B : Type} (c : M A) (k : A -> M B) s :
  c s = OutOfFuel -> bind c k s = OutOfFuel.
Proof. unfold bind. intros ->. reflexivity. Qed.

Lemma ret_returned {A : Type} (a b : A) s s' :
  ret a s = Returned (b, s') -> b = a /\ s' = s.
Proof. unfold ret. intros H. inversion H. split; reflexivity. Qed.

Lemma lift_returned {A : Type} (o : outcome A) s a s' :
  lift o s = Returned (a, s') -> o = Returned a /\ s' = s.
Proof.
  unfold lift. destruct o; try discriminate.
  intros H. inversion H. split; reflexivity.
Qed.

(** ** An empty range *)

Lemma range_nonpos (a n : Z) : n <= 0 -> range a (a + n) = [].
Proof.
  intros Hn. unfold range.
  replace (a + n - a) with n by lia.
  destruct n as [ | p | p ]; try lia; reflexivity.
Qed.

Lemma range_length (a n : Z) : List.length (range a (a + n)) = Z.to_nat n.
Proof.
  unfold range. rewrite length_map, length_seq. f_equal. lia.
Qed.

(** C10. For every record count less than or equal to zero,
    [generate_support_tickets] raises nothing and returns the empty list;
    the loop body is never entered, so no random number is drawn. *)
Theorem generate_nonpositive_returns_empty (fuel : nat) (num_tickets : Z) (s : rng) :
  num_tickets <= 0 ->
  generate_support_tickets fuel num_tickets s = Returned ([], s).
Proof.
  intros Hn. unfold generate_support_tickets.
  rewrite range_nonpos by exact Hn. reflexivity.
Qed.

Lemma generate_nonpositive_returns_empty_witness :
  -3 <= 0 /\ generate_support_tickets 0 (-3) rng_half = Returned ([], rng_half).
Proof.
  split; [lia | apply (generate_nonpositive_returns_empty 0 (-3) rng_half); lia].
Defined.

(** C1 as stated fails: with a count of zero the call raises no error of
    any kind, it returns the empty list. *)
Lemma nonpositive_count_not_rejected :
  generate_support_tickets 0 0 rng_half = Returned ([], rng_half)
  /\ ~ (exists e, generate_support_tickets 0 0 rng_half = Raised e).
Proof.
  split; [reflexivity | intros [e He]; discriminate He].
Qed.

(** C1, amended. For every record count less than or equal to zero the call
    does not fail: it returns a list of no tickets and leaves both random
    generators untouched, and [save_to_csv] on that list writes the header
    row and nothing else. *)
Theorem nonpositive_count_header_only (fuel : nat) (num_tickets : Z) (s : rng) :
  num_tickets <= 0 ->
  exists tickets,
    generate_support_tickets fuel num_tickets s = Returned (tickets, s)
    /\ List.length tickets = O
    /\ save_to_csv tickets = Csv.writeheader fieldnames.
Proof.
  intros Hn. exists []. unfold generate_support_tickets.
  rewrite range_nonpos by exact Hn. repeat split.
Qed.

Lemma nonpositive_count_header_only_witness :
  0 <= 0 /\
  exists tickets,
    generate_support_tickets 0 0 rng_half = Returned (tickets, rng_half)
    /\ List.length tickets = O
    /\ save_to_csv tickets = Csv.writeheader fieldnames.
Proof.
  split; [lia | apply (nonpositive_count_header_only 0 0 rng_half); lia].
Defined.

(** ** The calendar *)

Import Datetime.

Lemma all_from_spec (p : Z -> bool) (fuel : nat) :
  forall z, all_from fuel z p = true ->
  forall x, z <= x < z + Z.of_nat fuel -> p x = true.
Proof.
  induction fuel as [ | fuel IH]; intros z H x Hx.
  - simpl in Hx. lia.
  - cbn [all_from] in H. apply andb_true_iff in H. destruct H as [Hz Hrest].
    destruct (Z.eq_dec x z) as [-> | Hne]; [exact Hz | ].
    apply (IH (z + 1) Hrest). lia.
Qed.

Lemma month_day_checked (leap : bool) :
  all_from 365 0 (month_day_ok leap) = true.
Proof. destruct leap; vm_compute; reflexivity. Qed.

Lemma month_day_spec (leap : bool) (n : Z) :
  0 <= n < 365 -> month_day_ok leap n = true.
Proof.
  intros Hn. apply (all_from_spec _ 365 0 (month_day_checked leap)). lia.
Qed.

Lemma ord2ymd_tail (n : Z) :
  let a := (n - 1) / 146097 in
  let r0 := (n - 1) mod 146097 in
  let b := r0 / 36524 in
  let r1 := r0 mod 36524 in
  let c := r1 / 1461 in
  let r2 := r1 mod 1461 in
  let e := r2 / 365 in
  let r3 := r2 mod 365 in
  let year := a * 400 + 1 + b * 100 + c * 4 + e in
  _ord2ymd n =
    if (e =? 4) || (b =? 4) then (year - 1, 12, 31)
    else
      let '(m, d) :=
        month_day ((e =? 3) && (negb (c =? 24) || (b =? 3))) r3 in
      (year, m, d).
Proof.
  cbv zeta. unfold _ord2ymd, month_day, _DI400Y, _DI100Y, _DI4Y. cbv zeta.
  destruct (_ || _); [reflexivity | ].
  destruct (_ <? _); reflexivity.
Qed.

Lemma is_leap_decomposed (a b c e : Z) :
  0 <= b <= 3 -> 0 <= c <= 24 -> 0 <= e <= 3 ->
  _is_leap (a * 400 + 1 + b * 100 + c * 4 + e)
  = (e =? 3) && (negb (c =? 24) || (b =? 3)).
Proof.
  intros Hb Hc He. unfold _is_leap.
  repeat match goal with
         | |- context [?x =? ?y] => destruct (Z.eqb_spec x y)
         end; simpl; try reflexivity; exfalso;
    Z.div_mod_to_equations; lia.
Qed.

Lemma days_before_year_decomposed (a b c e : Z) :
  0 <= b <= 3 -> 0 <= c <= 24 -> 0 <= e <= 3 ->
  _days_before_year (a * 400 + 1 + b * 100 + c * 4 + e)
  = 146097 * a + 36524 * b + 1461 * c + 365 * e.
Proof.
  intros Hb Hc He. unfold _days_before_year. cbv zeta.
  Z.div_mod_to_equations. lia.
Qed.

Lemma december_of_leap_year (y : Z) :
  _is_leap y = true ->
  _days_in_month y 12 = 31 /\ _days_before_month y 12 = 335.
Proof.
  intros Hy. unfold _days_in_month, _days_before_month. rewrite Hy.
  split; reflexivity.
Qed.

Lemma ord2ymd_spec (n : Z) :
  let '(y, m, d) := _ord2ymd n in
  1 <= m <= 12 /\ 1 <= d <= _days_in_month y m /\ _ymd2ord y m d = n.
Proof.
  rewrite ord2ymd_tail. cbv zeta.
  set (a := (n - 1) / 146097).
  set (r0 := (n - 1) mod 146097).
  set (b := r0 / 36524).
  set (r1 := r0 mod 36524).
  set (c := r1 / 1461).
  set (r2 := r1 mod 1461).
  set (e := r2 / 365).
  set (r3 := r2 mod 365).
  assert (Hn : n - 1 = 146097 * a + r0 /\ 0 <= r0 < 146097)
    by (subst a r0; split; [apply Z.div_mod; lia | apply Z.mod_pos_bound; lia]).
  assert (H0 : r0 = 36524 * b + r1 /\ 0 <= r1 < 36524)
    by (subst b r1; split; [apply Z.div_mod; lia | apply Z.mod_pos_bound; lia]).
  assert (H1 : r1 = 1461 * c + r2 /\ 0 <= r2 < 1461)
    by (subst c r2; split; [apply Z.div_mod; lia | apply Z.mod_pos_bound; lia]).
  assert (H2 : r2 = 365 * e + r3 /\ 0 <= r3 < 365)
    by (subst e r3; split; [apply Z.div_mod; lia | apply Z.mod_pos_bound; lia]).
  clearbody a r0 b r1 c r2 e r3.
  destruct ((e =? 4) || (b =? 4)) eqn:Hend.
  - apply orb_true_iff in Hend.
    assert (Hy : exists b' c',
               a * 400 + 1 + b * 100 + c * 4 + e - 1
               = a * 400 + 1 + b' * 100 + c' * 4 + 3
               /\ 0 <= b' <= 3 /\ 0 <= c' <= 24 /\ (c' <> 24 \/ b' = 3)
               /\ 36524 * b' + 1461 * c' + 1461 = r0 + 1).
    { destruct Hend as [He | Hb4].
      - apply Z.eqb_eq in He. exists b, c. lia.
      - apply Z.eqb_eq in Hb4. exists 3, 24. lia. }
    destruct Hy as (b' & c' & -> & Hb' & Hc' & Hleap & Hsum).
    assert (Hly : _is_leap (a * 400 + 1 + b' * 100 + c' * 4 + 3) = true).
    { rewrite is_leap_decomposed by lia.
      apply andb_true_iff. split; [reflexivity | ].
      apply orb_true_iff. destruct Hleap as [Hc24 | Hb3].
      - left. apply negb_true_iff, Z.eqb_neq. exact Hc24.
      - right. apply Z.eqb_eq. exact Hb3. }
    destruct (december_of_leap_year _ Hly) as [Hdim Hdbm].
    unfold _ymd2ord. rewrite Hdim, Hdbm.
    rewrite days_before_year_decomposed by lia. lia.
  - apply orb_false_iff in Hend. destruct Hend as [He Hb].
    apply Z.eqb_neq in He, Hb.
    assert (Hb3 : 0 <= b <= 3) by lia.
    assert (Hc : 0 <= c <= 24) by lia.
    assert (He3 : 0 <= e <= 3) by lia.
    pose proof (month_day_spec ((e =? 3) && (negb (c =? 24) || (b =? 3))) r3
                  (proj2 H2)) as Hmd.
    unfold month_day_ok in Hmd.
    destruct (month_day _ r3) as [m d].
    repeat (apply andb_true_iff in Hmd; destruct Hmd as [Hmd ?]).
    unfold _ymd2ord, _days_in_month, _days_before_month.
    rewrite is_leap_decomposed, days_before_year_decomposed by lia.
    lia.
Qed.

(** Evaluate the month tables and the tests on month numbers, leaving the
    arithmetic alone. *)
Ltac eval_month :=
  cbv [nth Z.to_nat Pos.to_nat Pos.iter_op Nat.add Init.Nat.add
       _DAYS_BEFORE_MONTH _DAYS_IN_MONTH
       Z.eqb Z.ltb Z.compare Pos.eqb Pos.compare Pos.compare_cont
       andb b2z] in *.

Lemma days_before_month_bounds (y m : Z) :
  1 <= m <= 12 -> 0 <= _days_before_month y m <= 335.
Proof.
  intros Hm. unfold _days_before_month.
  assert (Hcases : m = 1 \/ m = 2 \/ m = 3 \/ m = 4 \/ m = 5 \/ m = 6 \/ m = 7
                   \/ m = 8 \/ m = 9 \/ m = 10 \/ m = 11 \/ m = 12) by lia.
  repeat (destruct Hcases as [-> | Hcases]); try subst m;
    destruct (_is_leap y); eval_month; lia.
Qed.

Lemma days_in_month_bounds (y m : Z) :
  1 <= m <= 12 -> 28 <= _days_in_month y m <= 31.
Proof.
  intros Hm. unfold _days_in_month.
  assert (Hcases : m = 1 \/ m = 2 \/ m = 3 \/ m = 4 \/ m = 5 \/ m = 6 \/ m = 7
                   \/ m = 8 \/ m = 9 \/ m = 10 \/ m = 11 \/ m = 12) by lia.
  repeat (destruct Hcases as [-> | Hcases]); try subst m;
    destruct (_is_leap y); eval_month; lia.
Qed.

(** The year of a representable ordinal has four digits. *)
Lemma ymd2ord_year_bounds (y m d : Z) :
  1 <= m <= 12 -> 1 <= d <= _days_in_month y m ->
  0 < _ymd2ord y m d <= MAXORDINAL ->
  1 <= y <= 9999.
Proof.
  intros Hm Hd Hn.
  pose proof (days_before_month_bounds y m Hm) as Hdbm.
  pose proof (days_in_month_bounds y m Hm) as Hdim.
  assert (Hsum : _days_before_month y m + d <= 366).
  { clear Hn Hdbm Hdim. unfold _days_before_month, _days_in_month in *.
    assert (Hcases : m = 1 \/ m = 2 \/ m = 3 \/ m = 4 \/ m = 5 \/ m = 6
                     \/ m = 7 \/ m = 8 \/ m = 9 \/ m = 10 \/ m = 11 \/ m = 12)
      by lia.
    repeat (destruct Hcases as [-> | Hcases]); try subst m;
      destruct (_is_leap y); eval_month; lia. }
  unfold _ymd2ord, MAXORDINAL, _days_before_year in Hn. cbv zeta in Hn.
  Z.div_mod_to_equations. lia.
Qed.

Lemma digit_val_char (k : Z) : digit_val (digit_char k) = Some (k mod 10).
Proof.
  unfold digit_char.
  assert (Hk : 0 <= k mod 10 < 10) by (apply Z.mod_pos_bound; lia).
  assert (Hcases : k mod 10 = 0 \/ k mod 10 = 1 \/ k mod 10 = 2 \/ k mod 10 = 3
                   \/ k mod 10 = 4 \/ k mod 10 = 5 \/ k mod 10 = 6
                   \/ k mod 10 = 7 \/ k mod 10 = 8 \/ k mod 10 = 9) by lia.
  repeat (destruct Hcases as [-> | Hcases]); try rewrite Hcases; reflexivity.
Qed.

Lemma parse_pad2 (n acc : Z) (rest : string) :
  0 <= n <= 99 ->
  parse_digits 2 acc (pad2 n ++ rest) = Some (100 * acc + n, rest).
Proof.
  intros Hn. unfold pad2. cbn [append parse_digits].
  rewrite !digit_val_char. f_equal. f_equal.
  Z.div_mod_to_equations. lia.
Qed.

Lemma parse_pad4 (n : Z) (rest : string) :
  0 <= n <= 9999 ->
  parse_digits 4 0 (pad4 n ++ rest) = Some (n, rest).
Proof.
  intros Hn. unfold pad4, pad2. cbn [append parse_digits].
  rewrite !digit_val_char. f_equal. f_equal.
  Z.div_mod_to_equations. lia.
Qed.

Lemma expect_here (c : ascii) (rest : string) :
  expect c (String c rest) = Some rest.
Proof. unfold expect. rewrite Ascii.eqb_refl. reflexivity. Qed.

(** Parsing a formatted [datetime] gives back the start of its minute. *)
Lemma strptime_strftime (t : datetime) :
  in_range t -> strptime (strftime t) = Some (minute_of t).
Proof.
  intros Ht. unfold in_range in Ht. unfold strftime, toordinal.
  pose proof (ord2ymd_spec (t / DAY)) as Hymd.
  destruct (_ord2ymd (t / DAY)) as [[y m] d].
  destruct Hymd as (Hm & Hd & Hord).
  assert (Hy : 1 <= y <= 9999)
    by (apply (ymd2ord_year_bounds y m d Hm Hd); rewrite Hord; exact Ht).
  pose proof (days_in_month_bounds y m Hm) as Hdim.
  set (hh := (t mod DAY) / HOUR).
  set (mm := ((t mod DAY) mod HOUR) / MINUTE).
  assert (Hhh : 0 <= hh <= 23)
    by (subst hh; unfold DAY, HOUR; Z.div_mod_to_equations; lia).
  assert (Hmm : 0 <= mm <= 59)
    by (subst mm; unfold DAY, HOUR, MINUTE; Z.div_mod_to_equations; lia).
  unfold strptime.
  rewrite parse_pad2 by lia. cbn [append]. rewrite expect_here.
  rewrite parse_pad2 by lia. cbn [append]. rewrite expect_here.
  rewrite parse_pad4 by lia. cbn [append]. rewrite expect_here.
  rewrite parse_pad2 by lia. cbn [append]. rewrite expect_here.
  replace (pad2 mm) with (pad2 mm ++ EmptyString)
    by (unfold pad2; reflexivity).
  rewrite parse_pad2 by lia.
  replace (100 * 0 + m) with m by lia.
  replace (100 * 0 + d) with d by lia.
  replace (100 * 0 + hh) with hh by lia.
  replace (100 * 0 + mm) with mm by lia.
  cbn [is_empty andb].
  replace (1 <=? y) with true by (symmetry; apply Z.leb_le; lia).
  replace (1 <=? m) with true by (symmetry; apply Z.leb_le; lia).
  replace (m <=? 12) with true by (symmetry; apply Z.leb_le; lia).
  replace (1 <=? d) with true by (symmetry; apply Z.leb_le; lia).
  replace (d <=? _days_in_month y m) with true
    by (symmetry; apply Z.leb_le; lia).
  replace (hh <=? 23) with true by (symmetry; apply Z.leb_le; lia).
  replace (mm <=? 59) with true by (symmetry; apply Z.leb_le; lia).
  cbn [andb]. f_equal. unfold mk, minute_of. rewrite Hord.
  subst hh mm. unfold DAY, HOUR, MINUTE.
  Z.div_mod_to_equations. lia.
Qed.

(** ** Rationals and rounding *)

Lemma Qltb_lt (x y : Q) : Qltb x y = true <-> (x < y)%Q.
Proof.
  unfold Qltb. rewrite negb_true_iff. split.
  - intros H. apply Qnot_le_lt. intros Hle.
    apply Qle_bool_iff in Hle. congruence.
  - intros H. destruct (Qle_bool y x) eqn:E; [ | reflexivity].
    apply Qle_bool_iff in E. exfalso. exact (Qlt_not_le _ _ H E).
Qed.

Lemma Qmax_lower (x y : Q) : (x <= Qmax x y)%Q.
Proof.
  unfold Qmax. destruct (Qltb x y) eqn:E.
  - apply Qlt_le_weak, Qltb_lt, E.
  - apply Qle_refl.
Qed.

Lemma round_half_even_floor (x : Q) : Qfloor x <= round_half_even x.
Proof.
  unfold round_half_even.
  destruct (Qcompare _ _); [destruct (Z.even _) | | ]; lia.
Qed.

Lemma round_half_even_lower (x : Q) (z : Z) :
  (inject_Z z <= x)%Q -> z <= round_half_even x.
Proof.
  intros H. apply Qfloor_resp_le in H. rewrite Qfloor_Z in H.
  pose proof (round_half_even_floor x). lia.
Qed.

Lemma unit_variate_bounds (u : unit_variate) : (0 <= uval u < 1)%Q.
Proof.
  pose proof (uval_ok u) as H. unfold in_unit in H.
  apply andb_true_iff in H. destruct H as [H0 H1].
  split; [apply Qle_bool_iff, H0 | apply Qltb_lt, H1].
Qed.

Lemma gamma_variate_pos (g : gamma_variate) : (0 < gval g)%Q.
Proof. apply Qltb_lt, gval_ok. Qed.

(** [int(u * n)] is an index below [n]. *)
Lemma scaled_floor_bounds (u : unit_variate) (n : Z) :
  0 < n -> 0 <= Qfloor (uval u * inject_Z n) < n.
Proof.
  intros Hn. destruct (unit_variate_bounds u) as [H0 H1].
  assert (Hn' : (0 < inject_Z n)%Q)
    by (change 0%Q with (inject_Z 0); rewrite <- Zlt_Qlt; exact Hn).
  split.
  - rewrite <- (Qfloor_Z 0) at 1.
    apply Qfloor_resp_le. change (inject_Z 0) with 0%Q. apply Qmult_le_0_compat; [exact H0 | ].
    apply Qlt_le_weak, Hn'.
  - rewrite Zlt_Qlt.
    apply Qle_lt_trans with (y := (uval u * inject_Z n)%Q);
      [apply Qfloor_le | ].
    setoid_replace (inject_Z n) with (1 * inject_Z n)%Q at 2 by ring.
    apply Qmult_lt_compat_r; assumption.
Qed.

(** A tenth of an hour is six minutes. *)
Lemma timedelta_hours_lower (x : Q) (delta : timedelta) :
  (1 # 10 <= x)%Q -> timedelta_hours x = Returned delta ->
  6 * MINUTE <= delta.
Proof.
  unfold timedelta_hours. intros Hx H.
  destruct (_ <=? _); [ | discriminate]. inversion H; subst. clear H.
  apply round_half_even_lower.
  setoid_replace (inject_Z (6 * MINUTE)) with ((1 # 10) * inject_Z HOUR)%Q
    by reflexivity.
  apply Qmult_le_compat_r; [exact Hx | discriminate].
Qed.

Lemma timedelta_hours_nonneg (x : Q) (delta : timedelta) :
  (0 <= x)%Q -> timedelta_hours x = Returned delta -> 0 <= delta.
Proof.
  unfold timedelta_hours. intros Hx H.
  destruct (_ <=? _); [ | discriminate]. inversion H; subst. clear H.
  apply round_half_even_lower.
  apply Qmult_le_0_compat; [exact Hx | discriminate].
Qed.

(** ** The random primitives *)

Lemma random_returned (s : rng) (u : Q) (s1 : rng) :
  random s = Returned (u, s1) ->
  u = uval (py_tape s (py_pos s)) /\ (0 <= u < 1)%Q /\ py_advanced 1 s s1.
Proof.
  unfold random. intros H. inversion H; subst. clear H.
  split; [reflexivity | ]. split; [apply unit_variate_bounds | ].
  split; reflexivity.
Qed.

Lemma randint_returned (a b : Z) (s : rng) (z : Z) (s1 : rng) :
  randint a b s = Returned (z, s1) -> a <= b ->
  a <= z <= b /\ py_advanced 1 s s1.
Proof.
  unfold randint. intros H Hab.
  apply bind_returned in H. destruct H as (u & s0 & Hu & H).
  apply ret_returned in H. destruct H as [-> ->].
  unfold random in Hu. inversion Hu; subst. clear Hu.
  pose proof (scaled_floor_bounds (py_tape s (py_pos s)) (b - a + 1)).
  split; [lia | split; reflexivity].
Qed.

Lemma choice_returned {A : Type} (l : list A) (s : rng) (x : A) (s1 : rng) :
  choice l s = Returned (x, s1) -> In x l /\ py_advanced 1 s s1.
Proof.
  unfold choice. intros H.
  apply bind_returned in H. destruct H as (u & s0 & Hu & H).
  apply random_returned in Hu. destruct Hu as (_ & _ & Hadv).
  destruct (nth_error l _) as [y | ] eqn:E; [ | discriminate].
  apply ret_returned in H. destruct H as [-> ->].
  split; [exact (nth_error_In _ _ E) | exact Hadv].
Qed.

Lemma uniform_returned (a b : Q) (s : rng) (x : Q) (s1 : rng) :
  uniform a b s = Returned (x, s1) -> (a <= b)%Q ->
  (a <= x)%Q /\ py_advanced 1 s s1.
Proof.
  unfold uniform. intros H Hab.
  apply bind_returned in H. destruct H as (u & s0 & Hu & H).
  apply random_returned in Hu. destruct Hu as (_ & [Hu0 _] & Hadv).
  apply ret_returned in H. destruct H as [-> ->].
  split; [ | exact Hadv].
  setoid_replace a with (a + 0)%Q at 1 by ring.
  apply Qplus_le_r. apply Qmult_le_0_compat; [ | exact Hu0].
  setoid_replace 0%Q with (a - a)%Q by ring.
  apply Qplus_le_l. exact Hab.
Qed.

Lemma np_choice_returned {A : Type} (a : list A) (p : list Q)
    (s : rng) (x : A) (s1 : rng) :
  np_choice a p s = Returned (x, s1) -> In x a /\ py_advanced 0 s s1.
Proof.
  unfold np_choice. intros H.
  apply bind_returned in H. destruct H as (u & s0 & Hu & H).
  unfold np_random_sample in Hu. inversion Hu; subst. clear Hu.
  destruct (nth_error a _) as [y | ] eqn:E; [ | discriminate].
  apply ret_returned in H. destruct H as [-> ->].
  split; [exact (nth_error_In _ _ E) | split; reflexivity].
Qed.

Lemma np_gamma_returned (shape scale : Q) (s : rng) (x : Q) (s1 : rng) :
  np_gamma shape scale s = Returned (x, s1) -> (0 <= scale)%Q ->
  (0 <= x)%Q /\ py_advanced 0 s s1.
Proof.
  unfold np_gamma. intros H Hscale.
  apply bind_returned in H. destruct H as (g & s0 & Hg & H).
  unfold np_standard_gamma in Hg. inversion Hg; subst. clear Hg.
  apply ret_returned in H. destruct H as [-> ->].
  split; [ | split; reflexivity].
  apply Qmult_le_0_compat; [exact Hscale | ].
  apply Qlt_le_weak, gamma_variate_pos.
Qed.

Lemma add_returned (t : datetime) (delta : timedelta) (r : datetime) :
  add t delta = Returned r -> r = t + delta /\ in_range r.
Proof.
  unfold add, in_range. intros H.
  destruct (_ && _) eqn:E; [ | discriminate].
  inversion H; subst. clear H. split; [reflexivity | ].
  apply andb_true_iff in E. destruct E as [E1 E2].
  apply Z.ltb_lt in E1. apply Z.leb_le in E2. split; assumption.
Qed.

Lemma dict_get_in {A : Type} (d : list (string * A)) (k : string) (v : A) :
  dict_get d k = Some v -> In v (map snd d).
Proof.
  induction d as [ | [k' v'] d IH]; simpl; [discriminate | ].
  destruct (String.eqb k k').
  - intros H. inversion H. left. reflexivity.
  - intros H. right. exact (IH H).
Qed.

Lemma get_resolution_returned (issue : string) (is_reopened : bool)
    (s : rng) (res : string) (s1 : rng) :
  get_resolution issue is_reopened s = Returned (res, s1) ->
  resolution_text is_reopened res.
Proof.
  unfold get_resolution, resolution_text. intros H.
  destruct (dict_get resolutions issue) as [texts | ] eqn:E.
  - apply bind_returned in H. destruct H as (base & s0 & Hbase & H).
    apply choice_returned in Hbase. destruct Hbase as [Hin _].
    apply ret_returned in H. destruct H as [-> ->].
    exists base. split; [ | reflexivity].
    right. apply in_concat. exists texts.
    split; [exact (dict_get_in _ _ _ E) | exact Hin].
  - apply ret_returned in H. destruct H as [-> ->].
    exists "Issue Resolved". split; [left; reflexivity | ].
    destruct is_reopened; reflexivity.
Qed.

(** ** The weekend loop *)

Lemma weekend_loop_unfold (fuel : nat) (date_closed : datetime) :
  weekend_loop fuel date_closed =
  if 4 <? weekday date_closed then
    match fuel with
    | O => out_of_fuel
    | S fuel' =>
        bind random (fun u =>
        if Qltb u (7 # 10) then
          bind (lift (add date_closed (timedelta_ints 2 0 0)))
               (fun date_closed' => weekend_loop fuel' date_closed')
        else weekend_loop fuel' date_closed)
    end
  else ret date_closed.
Proof. destruct fuel; reflexivity. Qed.

(** When the loop is left, the close date is not on a weekend. *)
Lemma weekend_loop_returned (fuel : nat) :
  forall (d : datetime) (s : rng) (d' : datetime) (s' : rng),
    weekend_loop fuel d s = Returned (d', s') ->
    in_range d ->
    weekday d' <= 4 /\ d <= d' /\ in_range d'.
Proof.
  induction fuel as [ | fuel IH]; intros d s d' s' H Hd;
    rewrite weekend_loop_unfold in H;
    destruct (4 <? weekday d) eqn:Hw.
  - discriminate H.
  - apply ret_returned in H. destruct H as [-> ->].
    apply Z.ltb_ge in Hw. repeat split; try lia; apply Hd.
  - apply bind_returned in H. destruct H as (u & s0 & Hu & H).
    destruct (Qltb u (7 # 10)).
    + apply bind_returned in H. destruct H as (d2 & s2 & Hadd & H).
      apply lift_returned in Hadd. destruct Hadd as [Hadd ->].
      apply add_returned in Hadd. destruct Hadd as [-> Hrange].
      destruct (IH _ _ _ _ H Hrange) as (Hwd & Hle & Hr).
      unfold timedelta_ints, DAY, HOUR, MINUTE in Hle.
      repeat split; try assumption; try lia; apply Hr.
    + exact (IH _ _ _ _ H Hd).
  - apply ret_returned in H. destruct H as [-> ->].
    apply Z.ltb_ge in Hw. repeat split; try lia; apply Hd.
Qed.

(** ** Status, close date and resolution text *)

Lemma determine_status_returned (will_reopen : bool) (date_closed : datetime)
    (issue : string) (s : rng) (status dcf res : string) (s' : rng) :
  determine_status will_reopen date_closed issue s
  = Returned ((status, dcf, res), s') ->
  settled will_reopen date_closed status dcf res.
Proof.
  unfold determine_status, ltb. intros H.
  destruct will_reopen; destruct (date_closed <? current_time) eqn:Hcut;
    try apply Z.ltb_lt in Hcut; try apply Z.ltb_ge in Hcut.
  - apply bind_returned in H. destruct H as (h & s1 & Hh & H).
    apply randint_returned in Hh; [ | lia]. destruct Hh as [Hh _].
    apply bind_returned in H. destruct H as (reopen_date & s2 & Hre & H).
    apply lift_returned in Hre. destruct Hre as [Hre ->].
    apply add_returned in Hre. destruct Hre as [-> Hrange].
    destruct (_ <? current_time).
    + apply bind_returned in H. destruct H as (u & s3 & Hu & H).
      destruct (Qltb u (7 # 10)).
      * apply bind_returned in H. destruct H as (hours2 & s4 & Hg & H).
        apply np_gamma_returned in Hg; [ | discriminate].
        destruct Hg as [Hg _].
        apply bind_returned in H. destruct H as (delta & s5 & Hdelta & H).
        apply lift_returned in Hdelta. destruct Hdelta as [Hdelta ->].
        apply (timedelta_hours_nonneg _ _ Hg) in Hdelta.
        apply bind_returned in H. destruct H as (final & s6 & Hfin & H).
        apply lift_returned in Hfin. destruct Hfin as [Hfin ->].
        apply add_returned in Hfin. destruct Hfin as [-> Hfrange].
        apply bind_returned in H. destruct H as (r & s7 & Hr & H).
        apply get_resolution_returned in Hr.
        apply ret_returned in H. destruct H as [H ->].
        inversion H; subst. clear H.
        apply settled_reopened_closed; try assumption; try reflexivity.
        unfold timedelta_ints, DAY, HOUR, MINUTE in *. lia.
      * apply ret_returned in H. destruct H as [H ->].
        inversion H; subst. apply settled_reopened_open; auto.
    + apply ret_returned in H. destruct H as [H ->].
      inversion H; subst. apply settled_reopened_open; auto.
  - apply ret_returned in H. destruct H as [H ->].
    inversion H; subst. apply settled_open. exact Hcut.
  - apply bind_returned in H. destruct H as (r & s1 & Hr & H).
    apply get_resolution_returned in Hr.
    apply ret_returned in H. destruct H as [H ->].
    inversion H; subst. apply settled_closed; auto.
  - apply ret_returned in H. destruct H as [H ->].
    inversion H; subst. apply settled_open. exact Hcut.
Qed.

(** ** One ticket *)

Lemma start_date_value : start_date = 738886 * DAY.
Proof. reflexivity. Qed.

Lemma resolution_hours_floor (base_hours : Q) :
  (1 # 10 <= Qmax (1 # 10) (base_hours * (target_full_resolution_hours / 4)))%Q.
Proof. apply Qmax_lower. Qed.

Lemma outlier_keeps_floor (hours f : Q) :
  (1 # 10 <= hours)%Q -> (3 <= f)%Q -> (1 # 10 <= hours * f)%Q.
Proof.
  intros Hh Hf.
  apply Qle_trans with (y := ((1 # 10) * 3)%Q); [discriminate | ].
  apply Qle_trans with (y := (hours * 3)%Q).
  - apply Qmult_le_compat_r; [exact Hh | discriminate].
  - rewrite (Qmult_comm hours 3), (Qmult_comm hours f).
    apply Qmult_le_compat_r; [exact Hf | ].
    apply Qle_trans with (y := (1 # 10)%Q); [discriminate | exact Hh].
Qed.

Theorem generate_ticket_returned (fuel : nat) (ticket_id : Z) (s : rng)
    (t : ticket) (s' : rng) :
  generate_ticket fuel ticket_id s = Returned (t, s') ->
  ticket_spec s ticket_id t.
Proof.
  unfold generate_ticket. intros H.
  apply bind_returned in H. destruct H as (days_offset & s1 & Hdays & H).
  apply randint_returned in Hdays; [ | lia]. destruct Hdays as [_ A1].
  apply bind_returned in H. destruct H as (opened0 & s2 & Ho0 & H).
  apply lift_returned in Ho0. destruct Ho0 as [Ho0 ->].
  apply add_returned in Ho0. destruct Ho0 as [-> _].
  apply bind_returned in H. destruct H as (hours & s3 & Hhours & H).
  apply randint_returned in Hhours; [ | lia]. destruct Hhours as [_ A2].
  apply bind_returned in H. destruct H as (minutes & s4 & Hminutes & H).
  apply randint_returned in Hminutes; [ | lia]. destruct Hminutes as [_ A3].
  apply bind_returned in H. destruct H as (date_opened & s5 & Ho & H).
  apply lift_returned in Ho. destruct Ho as [Ho ->].
  apply add_returned in Ho. destruct Ho as [Hopened Horange].
  apply bind_returned in H. destruct H as (product & s6 & Hproduct & H).
  apply choice_returned in Hproduct. destruct Hproduct as [Hproduct A4].
  apply bind_returned in H. destruct H as (issues & s7 & Hissues & H).
  destruct (dict_get issue_types product) as [l | ] eqn:Hdict;
    [ | discriminate].
  apply ret_returned in Hissues. destruct Hissues as [-> ->].
  apply bind_returned in H. destruct H as (issue & s8 & Hissue & H).
  apply choice_returned in Hissue. destruct Hissue as [Hissue A5].
  apply bind_returned in H. destruct H as (priority & s9 & Hpriority & H).
  apply np_choice_returned in Hpriority. destruct Hpriority as [Hpriority A6].
  apply bind_returned in H. destruct H as (assigned_to & s10 & Hagent & H).
  apply choice_returned in Hagent. destruct Hagent as [Hagent A7].
  apply bind_returned in H. destruct H as (u & s11 & Hu & H).
  apply random_returned in Hu. destruct Hu as (Hu & _ & _).
  apply bind_returned in H. destruct H as (base_hours & s12 & Hbase & H).
  clear Hbase.
  apply bind_returned in H. destruct H as (u2 & s13 & Hu2 & H). clear Hu2.
  apply bind_returned in H. destruct H as (hours_r & s14 & Hres & H).
  assert (Hfloor : (1 # 10 <= hours_r)%Q).
  { destruct (Qltb u2 (1 # 10)).
    - apply bind_returned in Hres. destruct Hres as (f & s15 & Hf & Hres).
      apply uniform_returned in Hf; [ | discriminate]. destruct Hf as [Hf _].
      apply ret_returned in Hres. destruct Hres as [-> _].
      apply outlier_keeps_floor; [apply resolution_hours_floor | exact Hf].
    - apply ret_returned in Hres. destruct Hres as [-> _].
      apply resolution_hours_floor. }
  clear Hres.
  apply bind_returned in H. destruct H as (delta & s16 & Hdelta & H).
  apply lift_returned in Hdelta. destruct Hdelta as [Hdelta ->].
  apply (timedelta_hours_lower _ _ Hfloor) in Hdelta.
  apply bind_returned in H. destruct H as (closed0 & s17 & Hc0 & H).
  apply lift_returned in Hc0. destruct Hc0 as [Hc0 ->].
  apply add_returned in Hc0. destruct Hc0 as [-> Hc0range].
  apply bind_returned in H. destruct H as (date_closed & s18 & Hloop & H).
  apply weekend_loop_returned in Hloop; [ | exact Hc0range].
  destruct Hloop as (Hweekday & Hle & Hcrange).
  apply bind_returned in H. destruct H as ([[status dcf] res] & s19 & Hst & H).
  apply determine_status_returned in Hst.
  apply ret_returned in H. destruct H as [-> ->].
  exists date_opened, date_closed, l. cbn [TicketID DateOpened DateClosed
    Product Issue Priority Status AssignedTo Resolution].
  assert (Hpos : py_tape s10 = py_tape s /\ py_pos s10 = (6 + py_pos s)%nat).
  { destruct A1 as [T1 P1], A2 as [T2 P2], A3 as [T3 P3], A4 as [T4 P4],
      A5 as [T5 P5], A6 as [T6 P6], A7 as [T7 P7].
    split; [congruence | ].
    rewrite P7, P6, P5, P4, P3, P2, P1. reflexivity. }
  destruct Hpos as [Htape Hposn].
  rewrite Hu, Htape, Hposn in Hst.
  repeat split; try assumption; try apply Horange; try apply Hcrange;
    try lia.
  unfold minute_of. rewrite Hopened, start_date_value.
  unfold timedelta_ints, DAY, HOUR, MINUTE.
  Z.div_mod_to_equations. lia.
Qed.

(** ** A population of tickets *)

Lemma outcome_value_returned {A : Type} (o : outcome (A * rng)) (a : A) :
  outcome_value o = Returned a -> exists s', o = Returned (a, s').
Proof.
  destruct o as [[a' s'] | e | ]; simpl; try discriminate.
  intros H. inversion H. exists s'. reflexivity.
Qed.

Lemma generate_loop_returned (fuel : nat) (ids : list Z) :
  forall (acc : list ticket) (s : rng) (tickets : list ticket) (s' : rng),
    generate_loop fuel ids acc s = Returned (tickets, s') ->
    exists new,
      tickets = (acc ++ new)%list
      /\ Forall generated new
      /\ map TicketID new = ids.
Proof.
  induction ids as [ | ticket_id ids IH]; intros acc s tickets s' H;
    cbn [generate_loop] in H.
  - apply ret_returned in H. destruct H as [-> ->].
    exists []. rewrite app_nil_r. repeat split. constructor.
  - apply bind_returned in H. destruct H as (t & s1 & Ht & H).
    apply generate_ticket_returned in Ht.
    destruct (IH _ _ _ _ H) as (new & -> & Hall & Hids).
    exists (t :: new). rewrite <- app_assoc. split; [reflexivity | ].
    split.
    + constructor; [exists s, ticket_id; exact Ht | exact Hall].
    + cbn [map]. f_equal; [ | exact Hids].
      destruct Ht as (o & c & l & Hid & _). exact Hid.
Qed.

Lemma generate_returned (fuel : nat) (num_tickets : Z) (s : rng)
    (tickets : list ticket) :
  outcome_value (generate_support_tickets fuel num_tickets s)
  = Returned tickets ->
  Forall generated tickets
  /\ map TicketID tickets = range 1001 (1001 + num_tickets).
Proof.
  intros H. apply outcome_value_returned in H. destruct H as [s' H].
  unfold generate_support_tickets in H.
  apply generate_loop_returned in H. destruct H as (new & -> & Hall & Hids).
  split; assumption.
Qed.

Lemma generated_in (fuel : nat) (num_tickets : Z) (s : rng)
    (tickets : list ticket) (t : ticket) :
  outcome_value (generate_support_tickets fuel num_tickets s)
  = Returned tickets ->
  In t tickets -> generated t.
Proof.
  intros H Hin. apply generate_returned in H. destruct H as [Hall _].
  rewrite Forall_forall in Hall. exact (Hall t Hin).
Qed.

(** ** Texts that are never empty *)

Lemma strftime_not_empty (t : datetime) : strftime t <> EmptyString.
Proof.
  unfold strftime. destruct (_ord2ymd _) as [[y m] d].
  unfold pad2 at 1. cbn [append]. discriminate.
Qed.

Lemma all_texts_not_empty :
  forallb (fun base => negb (is_empty base)) all_texts = true.
Proof. reflexivity. Qed.

Lemma resolution_text_not_empty (is_reopened : bool) (res : string) :
  resolution_text is_reopened res -> res <> EmptyString.
Proof.
  intros (base & Hin & ->).
  pose proof all_texts_not_empty as Hall. rewrite forallb_forall in Hall.
  specialize (Hall base Hin).
  destruct base as [ | c base]; [discriminate Hall | ].
  destruct is_reopened; discriminate.
Qed.

(** ** Close date and cutoff, ticket by ticket *)

Lemma minute_of_same_day (t : datetime) :
  toordinal (minute_of t) = toordinal t.
Proof.
  unfold toordinal, minute_of, DAY, MINUTE. Z.div_mod_to_equations. lia.
Qed.

Lemma minute_of_bounds (t : datetime) :
  t - MINUTE < minute_of t <= t.
Proof.
  unfold minute_of, MINUTE. Z.div_mod_to_equations. lia.
Qed.

Lemma closed_after_opened (t : ticket) :
  generated t -> DateClosed t <> EmptyString ->
  exists opened closed,
    strptime (DateOpened t) = Some opened
    /\ strptime (DateClosed t) = Some closed
    /\ opened < closed.
Proof.
  intros (s & ticket_id & o & c & l & _ & Ho & Hmin & Hopened & _ & _ & _ & _
          & _ & Hc & Hgap & _ & Hsettled) Hne.
  exists o. rewrite Hopened, strptime_strftime, Hmin by exact Ho.
  inversion Hsettled as [ Hcut Hst Hdc Hres
                        | res Hw Hcut Hres Hst Hdc Hr
                        | Hw Hcut Hst Hdc Hres
                        | final res Hw Hcut Hfin Hlate Hres Hst Hdc Hr ].
  - congruence.
  - exists (minute_of c). rewrite strptime_strftime by exact Hc.
    pose proof (minute_of_bounds c). unfold MINUTE in *.
    repeat split; lia.
  - congruence.
  - exists (minute_of final). rewrite strptime_strftime by exact Hfin.
    pose proof (minute_of_bounds final). unfold HOUR, MINUTE in *.
    repeat split; lia.
Qed.

(** ** The claims about dates, status and resolution *)

(** C6. For every generated ticket whose [DateClosed] field is not empty,
    the time it denotes is strictly after the time that [DateOpened]
    denotes, on the first-closure path (weekend adjustment included) and on
    the reopened second-closure path alike. *)
Theorem date_closed_after_date_opened (fuel : nat) (num_tickets : Z)
    (s : rng) (tickets : list ticket) (t : ticket) :
  outcome_value (generate_support_tickets fuel num_tickets s)
  = Returned tickets ->
  In t tickets ->
  DateClosed t <> EmptyString ->
  exists opened closed,
    strptime (DateOpened t) = Some opened
    /\ strptime (DateClosed t) = Some closed
    /\ opened < closed.
Proof.
  intros Hrun Hin Hne.
  exact (closed_after_opened t (generated_in _ _ _ _ _ Hrun Hin) Hne).
Qed.

Lemma date_closed_after_date_opened_witness :
  outcome_value (generate_support_tickets 0 1 rng_late)
  = Returned [ticket_late]
  /\ exists opened closed,
    strptime (DateOpened ticket_late) = Some opened
    /\ strptime (DateClosed ticket_late) = Some closed
    /\ opened < closed.
Proof.
  split; [vm_compute; reflexivity | ].
  apply (date_closed_after_date_opened 0 1 rng_late [ticket_late] ticket_late).
  - vm_compute. reflexivity.
  - left. reflexivity.
  - discriminate.
Defined.

(** C7. For every generated ticket, [Resolution] is not empty exactly when
    the ticket is in a closed state, [DateClosed] is empty exactly when
    [Status] is Open or Reopened Open, and [Resolution] is empty exactly
    when [DateClosed] is. *)
Theorem resolution_and_close_date_follow_status (fuel : nat)
    (num_tickets : Z) (s : rng) (tickets : list ticket) (t : ticket) :
  outcome_value (generate_support_tickets fuel num_tickets s)
  = Returned tickets ->
  In t tickets ->
  (Resolution t <> EmptyString
   <-> Status t = "Closed" \/ Status t = "Reopened Closed")
  /\ (DateClosed t = EmptyString
      <-> Status t = "Open" \/ Status t = "Reopened Open")
  /\ (Resolution t = EmptyString <-> DateClosed t = EmptyString).
Proof.
  intros Hrun Hin.
  destruct (generated_in _ _ _ _ _ Hrun Hin)
    as (s0 & ticket_id & o & c & l & _ & _ & _ & _ & _ & _ & _ & _ & _ & _
        & _ & _ & Hsettled).
  inversion Hsettled as [ Hcut Hst Hdc Hres
                        | res Hw Hcut Hres Hst Hdc Hr
                        | Hw Hcut Hst Hdc Hres
                        | final res Hw Hcut Hfin Hlate Hres Hst Hdc Hr ].
  - repeat split; intros H; try reflexivity; try congruence;
      try (left; reflexivity); destruct H as [H | H]; discriminate H.
  - apply resolution_text_not_empty in Hres.
    pose proof (strftime_not_empty c) as Hc.
    repeat split; intros H; try congruence; try (left; reflexivity);
      try (exfalso; congruence); destruct H as [H | H]; discriminate H.
  - repeat split; intros H; try reflexivity; try congruence;
      try (right; reflexivity); destruct H as [H | H]; discriminate H.
  - apply resolution_text_not_empty in Hres.
    pose proof (strftime_not_empty final) as Hc.
    repeat split; intros H; try congruence; try (right; reflexivity);
      try (exfalso; congruence); destruct H as [H | H]; discriminate H.
Qed.

Lemma resolution_and_close_date_follow_status_witness :
  outcome_value (generate_support_tickets 0 1 rng_half)
  = Returned [ticket_half 1001]
  /\
  (Resolution (ticket_half 1001) <> EmptyString
   <-> Status (ticket_half 1001) = "Closed"
       \/ Status (ticket_half 1001) = "Reopened Closed")
  /\ (DateClosed (ticket_half 1001) = EmptyString
      <-> Status (ticket_half 1001) = "Open"
          \/ Status (ticket_half 1001) = "Reopened Open")
  /\ (Resolution (ticket_half 1001) = EmptyString
      <-> DateClosed (ticket_half 1001) = EmptyString).
Proof.
  split; [vm_compute; reflexivity | ].
  apply (resolution_and_close_date_follow_status
           0 1 rng_half [ticket_half 1001] (ticket_half 1001)).
  - vm_compute. reflexivity.
  - left. reflexivity.
Defined.

(** ** The weekend adjustment *)

(** C2 fails on the code. The claim says that some sequence of draws leaves
    the first closure of a Closed ticket on a Saturday or Sunday. The loop
    of lines 83-85 is a [while]: a draw of 0.7 or more makes it draw again,
    so whenever a ticket is emitted as Closed its [DateClosed] falls on a
    weekday, whatever the draws. *)
Theorem closed_ticket_never_on_weekend (fuel : nat) (num_tickets : Z)
    (s : rng) (tickets : list ticket) (t : ticket) :
  outcome_value (generate_support_tickets fuel num_tickets s)
  = Returned tickets ->
  In t tickets ->
  Status t = "Closed" ->
  exists closed,
    strptime (DateClosed t) = Some closed /\ weekday closed <= 4.
Proof.
  intros Hrun Hin Hstatus.
  destruct (generated_in _ _ _ _ _ Hrun Hin)
    as (s0 & ticket_id & o & c & l & _ & _ & _ & _ & _ & _ & _ & _ & _ & Hc
        & _ & Hweekday & Hsettled).
  inversion Hsettled as [ Hcut Hst Hdc Hres
                        | res Hw Hcut Hres Hst Hdc Hr
                        | Hw Hcut Hst Hdc Hres
                        | final res Hw Hcut Hfin Hlate Hres Hst Hdc Hr ];
    try (rewrite Hstatus in Hst; discriminate Hst).
  exists (minute_of c). split; [apply strptime_strftime, Hc | ].
  unfold weekday. rewrite minute_of_same_day. exact Hweekday.
Qed.

(** On [rng_weekend] the first resolution falls on Saturday 2024-01-06 and
    the first draw of the loop is 0.9: the ticket is closed on Monday. *)
Lemma closed_ticket_never_on_weekend_witness :
  outcome_value (generate_support_tickets 2 1 rng_weekend)
  = Returned [ticket_weekend]
  /\ exists closed,
       strptime (DateClosed ticket_weekend) = Some closed
       /\ weekday closed <= 4.
Proof.
  split; [vm_compute; reflexivity | ].
  apply (closed_ticket_never_on_weekend
           2 1 rng_weekend [ticket_weekend] ticket_weekend).
  - vm_compute. reflexivity.
  - left. reflexivity.
  - reflexivity.
Defined.

(** As long as the draws are 0.7 or more, a close date on a weekend stays
    where it is and the loop goes on. *)
Lemma weekend_loop_stuck (fuel : nat) :
  forall (d : datetime) (s : rng),
    4 < weekday d ->
    (forall i, (py_pos s <= i < py_pos s + fuel)%nat ->
               Qltb (uval (py_tape s i)) (7 # 10) = false) ->
    weekend_loop fuel d s = OutOfFuel.
Proof.
  induction fuel as [ | fuel IH]; intros d s Hd Htape;
    rewrite weekend_loop_unfold;
    replace (4 <? weekday d) with true by (symmetry; apply Z.ltb_lt, Hd).
  - reflexivity.
  - unfold bind, random.
    rewrite (Htape (py_pos s)) by lia.
    apply IH; [exact Hd | ].
    cbn [py_tape py_pos]. intros i Hi. apply Htape. lia.
Qed.

(** The first draw below 0.7 moves the close date by two days, from
    Saturday to Monday or from Sunday to Tuesday, and ends the loop. *)
Lemma weekend_loop_exits (k : nat) :
  forall (fuel : nat) (d : datetime) (s : rng),
    4 < weekday d ->
    in_range (d + 2 * DAY) ->
    (forall i, (py_pos s <= i < py_pos s + k)%nat ->
               Qltb (uval (py_tape s i)) (7 # 10) = false) ->
    Qltb (uval (py_tape s (py_pos s + k))) (7 # 10) = true ->
    (k < fuel)%nat ->
    outcome_value (weekend_loop fuel d s) = Returned (d + 2 * DAY).
Proof.
  induction k as [ | k IH]; intros fuel d s Hd Hrange Htape Hlow Hfuel;
    (destruct fuel as [ | fuel]; [lia | ]);
    rewrite weekend_loop_unfold;
    replace (4 <? weekday d) with true by (symmetry; apply Z.ltb_lt, Hd);
    unfold bind at 1, random.
  - rewrite Nat.add_0_r in Hlow. rewrite Hlow.
    unfold bind, lift, add, timedelta_ints.
    replace (d + (2 * DAY + 0 * HOUR + 0 * MINUTE)) with (d + 2 * DAY)
      by lia.
    destruct Hrange as [Hr1 Hr2].
    replace (0 <? (d + 2 * DAY) / DAY) with true
      by (symmetry; apply Z.ltb_lt, Hr1).
    replace ((d + 2 * DAY) / DAY <=? MAXORDINAL) with true
      by (symmetry; apply Z.leb_le, Hr2).
    cbn [andb]. rewrite weekend_loop_unfold.
    replace (4 <? weekday (d + 2 * DAY)) with false; [reflexivity | ].
    symmetry. apply Z.ltb_ge.
    unfold weekday, toordinal, DAY in *. Z.div_mod_to_equations. lia.
  - rewrite (Htape (py_pos s)) by lia.
    apply IH; cbn [py_tape py_pos]; try assumption; try lia.
    + intros i Hi. apply Htape. lia.
    + replace (S (py_pos s) + k)%nat with (py_pos s + S k)%nat by lia.
      exact Hlow.
Qed.

(** ** Termination *)

Lemma halts_ret (p : nat) {A : Type} (a : A) : halts p (ret a).
Proof. intros s _. reflexivity. Qed.

Lemma halts_raise (p : nat) {A : Type} (e : exn) : halts p (@raise A e).
Proof. intros s _. exact I. Qed.

Lemma halts_bind (p : nat) {A B : Type} (c : M A) (k : A -> M B) :
  halts p c -> (forall a, halts p (k a)) -> halts p (bind c k).
Proof.
  intros Hc Hk s HT. unfold bind. specialize (Hc s HT).
  destruct (c s) as [[a s1] | e | ]; [ | exact I | exact Hc].
  rewrite <- Hc in HT. specialize (Hk a s1 HT).
  destruct (k a s1) as [[b s2] | e | ]; [congruence | exact I | exact Hk].
Qed.

Lemma halts_random (p : nat) : halts p random.
Proof. intros s _. reflexivity. Qed.

Lemma halts_np_random_sample (p : nat) : halts p np_random_sample.
Proof. intros s _. reflexivity. Qed.

Lemma halts_np_standard_gamma (p : nat) : halts p np_standard_gamma.
Proof. intros s _. reflexivity. Qed.

Lemma halts_add (p : nat) (t : datetime) (delta : timedelta) :
  halts p (lift (add t delta)).
Proof.
  intros s _. unfold lift, add.
  destruct ((0 <? (t + delta) / DAY) && ((t + delta) / DAY <=? MAXORDINAL));
    [reflexivity | exact I].
Qed.

Lemma halts_timedelta_hours (p : nat) (x : Q) :
  halts p (lift (timedelta_hours x)).
Proof.
  intros s _. unfold lift, timedelta_hours.
  destruct (Z.abs (round_half_even (x * inject_Z HOUR) / DAY)
            <=? MAXDELTADAYS);
    [reflexivity | exact I].
Qed.

Ltac halts_step :=
  lazymatch goal with
  | |- halts _ (bind _ _) => apply halts_bind; [ | intros ? ]
  | |- halts _ (ret _) => apply halts_ret
  | |- halts _ (raise _) => apply halts_raise
  | |- halts _ random => apply halts_random
  | |- halts _ np_random_sample => apply halts_np_random_sample
  | |- halts _ np_standard_gamma => apply halts_np_standard_gamma
  | |- halts _ (lift (add _ _)) => apply halts_add
  | |- halts _ (lift (timedelta_hours _)) => apply halts_timedelta_hours
  | |- halts _ (if ?b then _ else _) => destruct b
  end.

Lemma halts_randint (p : nat) (a b : Z) : halts p (randint a b).
Proof. unfold randint. repeat halts_step. Qed.

Lemma halts_choice (p : nat) {A : Type} (seq : list A) : halts p (choice seq).
Proof.
  unfold choice. halts_step; [halts_step | ].
  destruct (nth_error seq _); halts_step.
Qed.

Lemma halts_uniform (p : nat) (a b : Q) : halts p (uniform a b).
Proof. unfold uniform. repeat halts_step. Qed.

Lemma halts_np_choice (p : nat) {A : Type} (a : list A) (w : list Q) :
  halts p (np_choice a w).
Proof.
  unfold np_choice. halts_step; [halts_step | ]. cbv zeta.
  destruct (nth_error a _); halts_step.
Qed.

Lemma halts_np_gamma (p : nat) (shape scale : Q) :
  halts p (np_gamma shape scale).
Proof. unfold np_gamma. repeat halts_step. Qed.

Lemma halts_get_resolution (p : nat) (issue : string) (is_reopened : bool) :
  halts p (get_resolution issue is_reopened).
Proof.
  unfold get_resolution. destruct (dict_get resolutions issue).
  - halts_step; [apply halts_choice | halts_step].
  - halts_step.
Qed.

Lemma halts_sample_base_hours (p : nat) (priority : string) :
  halts p (sample_base_hours priority).
Proof.
  unfold sample_base_hours. repeat halts_step; apply halts_np_gamma.
Qed.

Lemma halts_determine_status (p : nat) (will_reopen : bool)
    (date_closed : datetime) (issue : string) :
  halts p (determine_status will_reopen date_closed issue).
Proof.
  unfold determine_status.
  repeat first [halts_step | apply halts_randint | apply halts_np_gamma
               | apply halts_get_resolution].
Qed.

(** Started where a draw below 0.7 lies fewer than [fuel] draws ahead, the
    weekend loop comes to an end. *)
Lemma weekend_loop_ends (fuel : nat) :
  forall (d : datetime) (s : rng),
    (exists j, (py_pos s <= j < py_pos s + fuel)%nat
               /\ Qltb (uval (py_tape s j)) (7 # 10) = true) ->
    match weekend_loop fuel d s with
    | Returned (_, s') => py_tape s' = py_tape s
    | Raised _ => True
    | OutOfFuel => False
    end.
Proof.
  induction fuel as [ | fuel IH]; intros d s (j & Hj & Hlow);
    rewrite weekend_loop_unfold;
    destruct (4 <? weekday d) eqn:Hw; try reflexivity; [lia | ].
  apply Z.ltb_lt in Hw. unfold bind at 1, random.
  destruct (Qltb (uval (py_tape s (py_pos s))) (7 # 10)) eqn:Hu.
  - unfold bind, lift, add.
    destruct ((0 <? (d + timedelta_ints 2 0 0) / DAY)
              && ((d + timedelta_ints 2 0 0) / DAY <=? MAXORDINAL));
      [ | exact I].
    rewrite weekend_loop_unfold.
    replace (4 <? weekday (d + timedelta_ints 2 0 0)) with false;
      [reflexivity | ].
    symmetry. apply Z.ltb_ge.
    unfold weekday, toordinal, timedelta_ints, DAY, HOUR, MINUTE in *.
    Z.div_mod_to_equations. lia.
  - assert (Hne : j <> py_pos s) by (intros ->; congruence).
    apply (IH d (mk_rng (py_tape s) (S (py_pos s)) (np_unif s)
                        (np_upos s) (np_gam s) (np_gpos s))).
    exists j. cbn [py_pos py_tape]. split; [lia | exact Hlow].
Qed.

Lemma halts_weekend_loop (p fuel : nat) (d : datetime) :
  (p <= fuel)%nat -> halts p (weekend_loop fuel d).
Proof.
  intros Hfuel s Hrec. apply weekend_loop_ends.
  destruct (Hrec (py_pos s)) as (j & Hj & Hlow).
  exists j. split; [lia | exact Hlow].
Qed.

Lemma halts_generate_ticket (p fuel : nat) (ticket_id : Z) :
  (p <= fuel)%nat -> halts p (generate_ticket fuel ticket_id).
Proof.
  intros Hfuel. unfold generate_ticket.
  do 6 (halts_step;
        [first [apply halts_randint | apply halts_add | apply halts_choice]
        | ]).
  halts_step.
  { destruct (dict_get issue_types _); halts_step. }
  halts_step; [apply halts_choice | ].
  halts_step; [apply halts_np_choice | ].
  halts_step; [apply halts_choice | ].
  halts_step; [apply halts_random | ]. cbv zeta.
  halts_step; [apply halts_sample_base_hours | ].
  halts_step; [apply halts_random | ].
  halts_step.
  { halts_step; [halts_step; [apply halts_uniform | halts_step] | halts_step]. }
  halts_step; [apply halts_timedelta_hours | ].
  halts_step; [apply halts_add | ].
  halts_step; [apply halts_weekend_loop, Hfuel | ].
  halts_step; [apply halts_determine_status | ].
  match goal with r : (string * string * string)%type |- _ =>
    destruct r as [[status dcf] res] end.
  halts_step.
Qed.

Lemma halts_generate_loop (p fuel : nat) (ids : list Z) :
  (p <= fuel)%nat ->
  forall tickets, halts p (generate_loop fuel ids tickets).
Proof.
  intros Hfuel. induction ids as [ | ticket_id ids IH]; intros tickets;
    cbn [generate_loop].
  - apply halts_ret.
  - apply halts_bind; [apply halts_generate_ticket, Hfuel | ].
    intros t. apply IH.
Qed.

Lemma periodic_low_below (p : nat) (tape : nat -> unit_variate) :
  (0 < p)%nat -> periodic p tape ->
  forall j, Qltb (uval (tape j)) (7 # 10) = true ->
  exists j', (j' < p)%nat /\ Qltb (uval (tape j')) (7 # 10) = true.
Proof.
  intros Hp Hper j. induction j as [j IH] using lt_wf_ind. intros Hlow.
  destruct (Nat.lt_ge_cases j p) as [Hlt | Hge].
  - exists j. split; assumption.
  - apply (IH (j - p)%nat); [lia | ].
    rewrite <- (Hper (j - p)%nat).
    replace (j - p + p)%nat with j by lia. exact Hlow.
Qed.

Lemma periodic_recurs (p : nat) (tape : nat -> unit_variate) (j : nat) :
  (0 < p)%nat -> periodic p tape ->
  Qltb (uval (tape j)) (7 # 10) = true ->
  recurs p tape.
Proof.
  intros Hp Hper Hlow i. induction i as [ | i IH].
  - destruct (periodic_low_below p tape Hp Hper j Hlow) as (j' & Hj' & Hl).
    exists j'. split; [lia | exact Hl].
  - destruct IH as (j' & Hj' & Hl).
    destruct (Nat.eq_dec j' i) as [-> | Hne].
    + exists (i + p)%nat. split; [lia | ]. rewrite (Hper i). exact Hl.
    + exists j'. split; [lia | exact Hl].
Qed.



(** ** Reopened tickets *)

(** C4 fails on the code. On [rng_late] the ticket is first resolved on
    2024-12-30 at 22:07 and reopened at 23:07, both before the cutoff of
    2024-12-31 00:00; the second resolution takes three hours and ends at
    02:07 on 2024-12-31, after the cutoff. Line 100 sets the status to
    Reopened Closed without comparing [final_close_date] with
    [current_time], and the close date is recorded. *)
Theorem reopened_closed_beyond_cutoff :
  outcome_value (generate_support_tickets 0 1 rng_late)
  = Returned [ticket_late]
  /\ Status ticket_late = "Reopened Closed"
  /\ strptime (DateClosed ticket_late) = Some (mk 2024 12 31 2 7)
  /\ current_time < mk 2024 12 31 2 7.
Proof. repeat split; vm_compute; reflexivity. Qed.

(** C5 fails on the code. With a standard gamma variate of 1/100, lines
    102-103 turn the second resolution time into a [timedelta] of 54
    seconds: no [max(0.1, ...)] floors it to the six minutes of a tenth of
    an hour, as line 73 does for the first resolution time. The ticket of
    [rng_quick] is opened at 12:30, first resolved six minutes later
    (floored), reopened after one hour and closed within the same minute,
    at 13:36. *)
Theorem second_resolution_below_floor :
  outcome_value
    (bind (np_gamma 2 (15 # 10))
          (fun second_resolution_hours =>
             lift (timedelta_hours second_resolution_hours))
          rng_quick)
  = Returned 54000000
  /\ 54000000 < 6 * MINUTE
  /\ outcome_value (generate_support_tickets 0 1 rng_quick)
     = Returned [ticket_quick]
  /\ Status ticket_quick = "Reopened Closed"
  /\ strptime (DateOpened ticket_quick) = Some (mk 2024 7 2 12 30)
  /\ strptime (DateClosed ticket_quick) = Some (mk 2024 7 2 13 36)
  /\ mk 2024 7 2 13 36 - mk 2024 7 2 12 30 = 6 * MINUTE + HOUR.
Proof. repeat split; vm_compute; reflexivity. Qed.

(** The first resolution time, in contrast, is never shorter than six
    minutes, and a reopening adds an hour or more. *)
Lemma first_resolution_floored (t : ticket) :
  generated t -> Status t = "Reopened Closed" ->
  exists opened closed,
    strptime (DateOpened t) = Some opened
    /\ strptime (DateClosed t) = Some closed
    /\ 6 * MINUTE + HOUR <= closed - opened.
Proof.
  intros (s & ticket_id & o & c & l & _ & Ho & Hmin & Hopened & _ & _ & _ & _
          & _ & Hc & Hgap & _ & Hsettled) Hstatus.
  exists o. rewrite Hopened, strptime_strftime, Hmin by exact Ho.
  inversion Hsettled as [ Hcut Hst Hdc Hres
                        | res Hw Hcut Hres Hst Hdc Hr
                        | Hw Hcut Hst Hdc Hres
                        | final res Hw Hcut Hfin Hlate Hres Hst Hdc Hr ];
    try (rewrite Hstatus in Hst; discriminate Hst).
  exists (minute_of final). rewrite strptime_strftime by exact Hfin.
  repeat split.
  unfold minute_of in *. unfold HOUR, MINUTE in *.
  Z.div_mod_to_equations. lia.
Qed.

(** ** The reopen rate *)

Lemma generate_loop_half (fuel : nat) (ids : list Z) :
  forall (acc : list ticket) (s : rng),
    py_tape s = (fun _ => u_half) ->
    np_unif s = (fun _ => u_half) ->
    np_gam s = (fun _ => g_one) ->
    outcome_value (generate_loop fuel ids acc s)
    = Returned (acc ++ map ticket_half ids)%list.
Proof.
  induction ids as [ | ticket_id ids IH]; intros acc s Hpy Hu Hg;
    cbn [generate_loop map].
  - rewrite app_nil_r. reflexivity.
  - destruct s as [py pos unif upos gam gpos]. cbn in Hpy, Hu, Hg. subst.
    assert (Hstep :
              generate_ticket fuel ticket_id
                (mk_rng (fun _ => u_half) pos (fun _ => u_half) upos
                        (fun _ => g_one) gpos)
              = Returned (ticket_half ticket_id,
                          mk_rng (fun _ => u_half) (9 + pos)
                                 (fun _ => u_half) (1 + upos)
                                 (fun _ => g_one) (1 + gpos))).
    { destruct fuel; vm_compute; reflexivity. }
    rewrite (bind_step _ _ _ _ _ Hstep).
    rewrite IH by reflexivity.
    rewrite <- app_assoc. reflexivity.
Qed.

Lemma reopened_tickets_half (ids : list Z) :
  reopened_tickets (map ticket_half ids) = O.
Proof.
  unfold reopened_tickets.
  induction ids as [ | ticket_id ids IH]; [reflexivity | exact IH].
Qed.

(** C8 as stated fails: when every uniform variate is 1/2, none of the 500
    tickets is reopened; the actual reopen rate is 0, at a distance of 0.132
    from the target. *)
Lemma reopen_rate_far_from_target :
  outcome_value (generate_support_tickets 0 500 rng_half)
  = Returned (map ticket_half (range 1001 (1001 + 500)))
  /\ List.length (map ticket_half (range 1001 (1001 + 500))) = 500%nat
  /\ reopen_rate (map ticket_half (range 1001 (1001 + 500)))
     = Returned (0 # 500)
  /\ ~ (Qabs ((0 # 500) - target_reopen_rate) < 3 # 100)%Q.
Proof.
  split; [ | split; [ | split]].
  - unfold generate_support_tickets.
    rewrite generate_loop_half by reflexivity. reflexivity.
  - rewrite length_map, range_length. reflexivity.
  - unfold reopen_rate. rewrite reopened_tickets_half.
    rewrite length_map, range_length. reflexivity.
  - intros H. vm_compute in H. discriminate H.
Qed.

Lemma settled_reopened (w : bool) (dc : datetime) (status dcf res : string) :
  settled w dc status dcf res ->
  contains "Reopened" status = true -> w = true.
Proof.
  intros Hsettled Hre.
  inversion Hsettled; subst; try assumption; discriminate Hre.
Qed.

Lemma reopened_tickets_cons (t : ticket) (tickets : list ticket) :
  reopened_tickets (t :: tickets)
  = ((if contains "Reopened" (Status t) then 1 else 0)
     + reopened_tickets tickets)%nat.
Proof.
  unfold reopened_tickets. cbn [filter].
  destruct (contains "Reopened" (Status t)); reflexivity.
Qed.

Lemma generate_loop_reopened (fuel : nat) (ids : list Z) :
  forall (acc : list ticket) (s : rng) (tickets : list ticket) (s' : rng),
    generate_loop fuel ids acc s = Returned (tickets, s') ->
    exists new,
      tickets = (acc ++ new)%list
      /\ List.length new = List.length ids
      /\ (reopened_tickets new
          <= List.length
               (filter (fun b : bool => b) (reopen_decisions fuel ids s)))%nat.
Proof.
  induction ids as [ | ticket_id ids IH]; intros acc s tickets s' H;
    cbn [generate_loop] in H.
  - apply ret_returned in H. destruct H as [-> ->].
    exists []. rewrite app_nil_r. repeat split. apply Nat.le_refl.
  - apply bind_returned in H. destruct H as (t & s1 & Ht & H).
    destruct (IH _ _ _ _ H) as (new & -> & Hlen & Hcount).
    exists (t :: new). rewrite <- app_assoc. split; [reflexivity | ].
    split; [cbn [List.length]; rewrite Hlen; reflexivity | ].
    cbn [reopen_decisions]. rewrite Ht.
    rewrite reopened_tickets_cons.
    pose proof (generate_ticket_returned _ _ _ _ _ Ht) as Hspec.
    destruct Hspec as (o & c & l & _ & _ & _ & _ & _ & _ & _ & _ & _ & _ & _
                       & _ & Hsettled).
    destruct (contains "Reopened" (Status t)) eqn:Hre.
    + rewrite (settled_reopened _ _ _ _ _ Hsettled Hre).
      cbn [filter List.length]. lia.
    + destruct (Qltb _ target_reopen_rate); cbn [filter List.length]; lia.
Qed.

(** C8, amended. A ticket gets a Reopened status only if the variate drawn
    for its reopen decision is below the target reopen rate. In a generated
    population of [N >= 1] tickets the reopened tickets are therefore at
    most as many as the decisions to reopen, and the actual reopen rate is
    at most their share of [N]; how close it comes to the target depends on
    the draws. *)
Theorem reopen_rate_bounded_by_decisions (fuel : nat) (num_tickets : Z)
    (s : rng) (tickets : list ticket) :
  1 <= num_tickets ->
  outcome_value (generate_support_tickets fuel num_tickets s)
  = Returned tickets ->
  List.length tickets = Z.to_nat num_tickets
  /\ (reopened_tickets tickets <= eligible fuel num_tickets s)%nat
  /\ exists rate,
       reopen_rate tickets = Returned rate
       /\ (0 <= rate)%Q
       /\ (rate <= inject_Z (Z.of_nat (eligible fuel num_tickets s))
                   / inject_Z num_tickets)%Q.
Proof.
  intros Hn Hrun. apply outcome_value_returned in Hrun.
  destruct Hrun as [s' Hrun]. unfold generate_support_tickets in Hrun.
  apply generate_loop_reopened in Hrun.
  destruct Hrun as (new & -> & Hlen & Hcount). cbn [app].
  rewrite range_length in Hlen.
  split; [exact Hlen | ]. split; [exact Hcount | ].
  unfold reopen_rate. destruct new as [ | t new].
  - cbn [List.length] in Hlen. lia.
  - eexists. split; [reflexivity | ].
    rewrite Hlen, Z2Nat.id by lia.
    assert (Hpos : (0 < inject_Z num_tickets)%Q)
      by (change 0%Q with (inject_Z 0); rewrite <- Zlt_Qlt; lia).
    split.
    + apply Qle_shift_div_l; [exact Hpos | ].
      rewrite Qmult_0_l. change 0%Q with (inject_Z 0).
      rewrite <- Zle_Qle. lia.
    + apply Qle_shift_div_l; [exact Hpos | ].
      unfold Qdiv. rewrite <- Qmult_assoc.
      rewrite (Qmult_comm (/ inject_Z num_tickets)).
      rewrite Qmult_inv_r, Qmult_1_r
        by (intros Heq; rewrite Heq in Hpos; discriminate Hpos).
      rewrite <- Zle_Qle. unfold eligible. lia.
Qed.

Lemma reopen_rate_bounded_by_decisions_witness :
  1 <= 1
  /\ outcome_value (generate_support_tickets 0 1 rng_late)
     = Returned [ticket_late]
  /\ List.length [ticket_late] = Z.to_nat 1
  /\ (reopened_tickets [ticket_late] <= eligible 0 1 rng_late)%nat
  /\ exists rate,
       reopen_rate [ticket_late] = Returned rate
       /\ (0 <= rate)%Q
       /\ (rate <= inject_Z (Z.of_nat (eligible 0 1 rng_late))
                   / inject_Z 1)%Q.
Proof.
  split; [lia | ]. split; [vm_compute; reflexivity | ].
  apply (reopen_rate_bounded_by_decisions 0 1 rng_late [ticket_late]).
  - lia.
  - vm_compute. reflexivity.
Defined.

(** ** Writing and reading the file *)

Import Csv.

Lemma string_app_assoc (a b c : string) : (a ++ b) ++ c = a ++ (b ++ c).
Proof.
  induction a as [ | x a IH]; cbn [append]; [reflexivity | ].
  rewrite IH. reflexivity.
Qed.

Lemma any_special_app (a b : string) :
  any_special (a ++ b) = any_special a || any_special b.
Proof.
  induction a as [ | x a IH]; cbn [append any_special]; [reflexivity | ].
  rewrite IH. apply orb_assoc.
Qed.

Lemma plain_cons (c : ascii) (s : string) :
  plain (String c s) ->
  (Ascii.eqb c delimiter = false /\ Ascii.eqb c quotechar = false
   /\ Ascii.eqb c CR = false /\ Ascii.eqb c LF = false)
  /\ plain s.
Proof.
  unfold plain. cbn [any_special]. unfold special. intros H.
  apply orb_false_iff in H. destruct H as [Hc Hs].
  apply orb_false_iff in Hc. destruct Hc as [Hc HLF].
  apply orb_false_iff in Hc. destruct Hc as [Hc HCR].
  apply orb_false_iff in Hc. destruct Hc as [Hd Hq].
  repeat split; assumption.
Qed.

Lemma quote_field_plain (f : string) : plain f -> quote_field f = f.
Proof. unfold plain, quote_field. intros ->. reflexivity. Qed.

Lemma map_quote_field_plain (fields : list string) :
  Forall plain fields -> map quote_field fields = fields.
Proof.
  induction 1 as [ | f fields Hf _ IH]; cbn [map]; [reflexivity | ].
  rewrite (quote_field_plain f Hf), IH. reflexivity.
Qed.

(** Inside an unquoted field the reader appends plain characters. *)
Lemma read_in_field (f : string) :
  plain f ->
  forall (field : string) (row : list string) (rest : string),
    read_from (mk_rd IN_FIELD field row) (f ++ rest)
    = read_from (mk_rd IN_FIELD (field ++ f) row) rest.
Proof.
  induction f as [ | c f IH]; intros Hf field row rest.
  - cbn [append]. replace (field ++ EmptyString) with field; [reflexivity | ].
    induction field as [ | x field IHf]; cbn [append]; congruence.
  - apply plain_cons in Hf. destruct Hf as [(Hd & Hq & HCR & HLF) Hf].
    cbn [append read_from]. unfold step. cbn [rd_state rd_field rd_row].
    rewrite HCR, HLF, Hd. cbn [orb].
    rewrite (IH Hf). unfold snoc. rewrite string_app_assoc. reflexivity.
Qed.

(** A plain field read from the start of a field, up to the delimiter. *)
Lemma read_field_delimiter (f : string) (row : list string) (rest : string) :
  plain f ->
  read_from (mk_rd START_FIELD EmptyString row) (f ++ String delimiter rest)
  = read_from (mk_rd START_FIELD EmptyString (row ++ [f])) rest.
Proof.
  intros Hf. destruct f as [ | c f].
  - reflexivity.
  - apply plain_cons in Hf. destruct Hf as [(Hd & Hq & HCR & HLF) Hf].
    cbn [append read_from]. unfold step at 1, start_field.
    cbn [rd_state rd_field rd_row]. rewrite HCR, HLF, Hq, Hd. cbn [orb].
    rewrite (read_in_field f Hf). reflexivity.
Qed.

(** The last field of a record, up to the line terminator. *)
Lemma read_field_terminator (f : string) (row : list string) (rest : string) :
  plain f ->
  read_from (mk_rd START_FIELD EmptyString row) (f ++ lineterminator ++ rest)
  = (row ++ [f])%list :: read_from (mk_rd START_RECORD EmptyString []) rest.
Proof.
  intros Hf. destruct f as [ | c f].
  - reflexivity.
  - apply plain_cons in Hf. destruct Hf as [(Hd & Hq & HCR & HLF) Hf].
    cbn [append read_from]. unfold step at 1, start_field.
    cbn [rd_state rd_field rd_row]. rewrite HCR, HLF, Hq, Hd. cbn [orb].
    rewrite (read_in_field f Hf). reflexivity.
Qed.

(** The first field of a record that has more fields. *)
Lemma read_first_field (f : string) (rest : string) :
  plain f ->
  read_from (mk_rd START_RECORD EmptyString []) (f ++ String delimiter rest)
  = read_from (mk_rd START_FIELD EmptyString [f]) rest.
Proof.
  intros Hf. destruct f as [ | c f].
  - reflexivity.
  - apply plain_cons in Hf. destruct Hf as [(Hd & Hq & HCR & HLF) Hf].
    cbn [append read_from]. unfold step at 1, start_record, start_field.
    cbn [rd_state rd_field rd_row]. rewrite HCR, HLF, Hq, Hd. cbn [orb].
    rewrite (read_in_field f Hf). reflexivity.
Qed.

Lemma read_fields (fields : list string) :
  Forall plain fields -> fields <> [] ->
  forall (row : list string) (rest : string),
    read_from (mk_rd START_FIELD EmptyString row)
              (join fields ++ lineterminator ++ rest)
    = (row ++ fields)%list
      :: read_from (mk_rd START_RECORD EmptyString []) rest.
Proof.
  induction 1 as [ | f fields Hf Hfields IH]; intros Hne row rest;
    [congruence | ].
  destruct fields as [ | f2 fields].
  - cbn [join]. apply read_field_terminator. exact Hf.
  - change (join (f :: f2 :: fields))
      with (f ++ String delimiter (join (f2 :: fields))).
    rewrite string_app_assoc. cbn [append].
    rewrite read_field_delimiter by exact Hf.
    rewrite IH by discriminate. rewrite <- app_assoc. reflexivity.
Qed.

(** A written record of two or more plain fields is read back as it was. *)
Lemma read_writerow (fields : list string) (rest : string) :
  Forall plain fields -> (2 <= List.length fields)%nat ->
  read_from (mk_rd START_RECORD EmptyString []) (writerow fields ++ rest)
  = fields :: read_from (mk_rd START_RECORD EmptyString []) rest.
Proof.
  intros Hplain Hlen.
  destruct fields as [ | f [ | f2 fields]]; cbn [List.length] in Hlen;
    try lia.
  assert (Hrow : writerow (f :: f2 :: fields)
                 = join (f :: f2 :: fields) ++ lineterminator).
  { unfold writerow. rewrite map_quote_field_plain by exact Hplain.
    destruct f; reflexivity. }
  rewrite Hrow. rewrite string_app_assoc.
  change (join (f :: f2 :: fields))
    with (f ++ String delimiter (join (f2 :: fields))).
  rewrite string_app_assoc. cbn [append].
  inversion Hplain as [ | ? ? Hf Hrest]; subst.
  rewrite read_first_field by exact Hf.
  rewrite read_fields by (try exact Hrest; discriminate).
  reflexivity.
Qed.

Lemma read_writerows (names : list string)
    (rowdicts : list (list (string * string))) :
  (2 <= List.length names)%nat ->
  Forall (fun d => Forall plain (dict_row names d)) rowdicts ->
  read_from (mk_rd START_RECORD EmptyString []) (writerows names rowdicts)
  = map (dict_row names) rowdicts.
Proof.
  intros Hlen. induction 1 as [ | d rowdicts Hd _ IH];
    cbn [writerows map]; [reflexivity | ].
  rewrite read_writerow; [rewrite IH; reflexivity | exact Hd | ].
  unfold dict_row. rewrite length_map. exact Hlen.
Qed.

(** ** Fields that need no quoting *)

Lemma special_digit_char (k : Z) : special (digit_char k) = false.
Proof.
  unfold digit_char.
  assert (Hk : 0 <= k mod 10 < 10) by (apply Z.mod_pos_bound; lia).
  assert (Hcases : k mod 10 = 0 \/ k mod 10 = 1 \/ k mod 10 = 2 \/ k mod 10 = 3
                   \/ k mod 10 = 4 \/ k mod 10 = 5 \/ k mod 10 = 6
                   \/ k mod 10 = 7 \/ k mod 10 = 8 \/ k mod 10 = 9) by lia.
  repeat (destruct Hcases as [-> | Hcases]); try rewrite Hcases; reflexivity.
Qed.

Lemma plain_pad2 (n : Z) : plain (pad2 n).
Proof.
  unfold plain, pad2. cbn [any_special].
  rewrite !special_digit_char. reflexivity.
Qed.

Lemma plain_pad4 (n : Z) : plain (pad4 n).
Proof.
  unfold plain, pad4, pad2. cbn [any_special].
  rewrite !special_digit_char. reflexivity.
Qed.

Lemma plain_app (a b : string) : plain a -> plain b -> plain (a ++ b).
Proof.
  unfold plain. intros Ha Hb. rewrite any_special_app, Ha, Hb. reflexivity.
Qed.

Lemma plain_strftime (t : datetime) : plain (strftime t).
Proof.
  unfold strftime. destruct (_ord2ymd _) as [[y m] d].
  unfold plain. rewrite !any_special_app.
  rewrite (plain_pad2 m), (plain_pad2 d), (plain_pad4 y).
  rewrite (plain_pad2 ((t mod DAY) / HOUR)).
  rewrite (plain_pad2 (((t mod DAY) mod HOUR) / MINUTE)).
  reflexivity.
Qed.

Lemma plain_member (l : list string) (x : string) :
  forallb (fun s => negb (any_special s)) l = true -> In x l -> plain x.
Proof.
  intros Hall Hin. rewrite forallb_forall in Hall.
  apply negb_true_iff. exact (Hall x Hin).
Qed.

Lemma plain_resolution_text (is_reopened : bool) (res : string) :
  resolution_text is_reopened res -> plain res.
Proof.
  intros (base & Hin & ->).
  assert (Hbase : plain base)
    by (apply (plain_member all_texts); [reflexivity | exact Hin]).
  destruct is_reopened; [apply plain_app; [exact Hbase | reflexivity] | ].
  exact Hbase.
Qed.

(** ** The decimal text of a ticket number *)

Lemma int_digits_app (ds rest : string) :
  forall acc,
    int_digits acc (ds ++ rest)
    = match int_digits acc ds with
      | Some b => int_digits b rest
      | None => None
      end.
Proof.
  induction ds as [ | c ds IH]; intros acc; cbn [append int_digits];
    [reflexivity | ].
  destruct (digit_val c); [apply IH | reflexivity].
Qed.

Lemma str_digits_spec (fuel : nat) :
  forall (n : Z) (acc : string),
    0 <= n < 2 ^ Z.of_nat (S fuel) ->
    exists ds,
      str_digits (S fuel) n acc = ds ++ acc
      /\ ds <> EmptyString
      /\ int_digits 0 ds = Some n
      /\ plain ds.
Proof.
  induction fuel as [ | fuel IH]; intros n acc Hn;
    cbn [str_digits]; destruct (n <? 10) eqn:Hlt;
    try apply Z.ltb_lt in Hlt; try apply Z.ltb_ge in Hlt.
  - exists (String (digit_char n) EmptyString).
    repeat split; try discriminate.
    + cbn [int_digits]. rewrite digit_val_char. f_equal.
      Z.div_mod_to_equations. lia.
    + unfold plain. cbn [any_special]. rewrite special_digit_char.
      reflexivity.
  - change (2 ^ Z.of_nat 1) with 2 in Hn. lia.
  - exists (String (digit_char n) EmptyString).
    repeat split; try discriminate.
    + cbn [int_digits]. rewrite digit_val_char. f_equal.
      Z.div_mod_to_equations. lia.
    + unfold plain. cbn [any_special]. rewrite special_digit_char.
      reflexivity.
  - assert (Hdiv : 0 <= n / 10 < 2 ^ Z.of_nat (S fuel)).
    { rewrite Nat2Z.inj_succ, Z.pow_succ_r in Hn by lia.
      Z.div_mod_to_equations. lia. }
    destruct (IH (n / 10) (String (digit_char n) acc) Hdiv)
      as (ds & Heq & Hne & Hval & Hplain).
    exists (ds ++ String (digit_char n) EmptyString).
    rewrite string_app_assoc. cbn [append].
    split; [exact Heq | ]. split; [destruct ds; discriminate | ]. split.
    + rewrite int_digits_app, Hval. cbn [int_digits].
      rewrite digit_val_char. f_equal. Z.div_mod_to_equations. lia.
    + apply plain_app; [exact Hplain | ].
      unfold plain. cbn [any_special]. rewrite special_digit_char.
      reflexivity.
Qed.

Lemma str_int_spec (n : Z) :
  0 <= n -> int_of_string (str_int n) = Some n /\ plain (str_int n).
Proof.
  intros Hn. unfold str_int.
  replace (n <? 0) with false by (symmetry; apply Z.ltb_ge; exact Hn).
  destruct (str_digits_spec (Z.to_nat (Z.log2 n)) n EmptyString)
    as (ds & Heq & Hne & Hval & Hplain).
  - split; [exact Hn | ].
    rewrite Nat2Z.inj_succ, Z2Nat.id by apply Z.log2_nonneg.
    destruct (Z.eq_dec n 0) as [-> | Hpos]; [reflexivity | ].
    apply Z.log2_spec. lia.
  - rewrite Heq.
    replace (ds ++ EmptyString) with ds
      by (clear; induction ds as [ | c ds IH]; cbn [append]; congruence).
    split; [ | exact Hplain].
    unfold int_of_string. destruct ds; [congruence | exact Hval].
Qed.

Lemma range_bounds (a b x : Z) : In x (range a b) -> a <= x < b.
Proof.
  unfold range. rewrite in_map_iff. intros (i & <- & Hi).
  apply in_seq in Hi. lia.
Qed.

(** ** The round trip through the file *)

Lemma ticket_row_fields (t : ticket) :
  ticket_row t
  = [ str_int (TicketID t); DateOpened t; DateClosed t; Product t; Issue t;
      Priority t; Status t; AssignedTo t; Resolution t ].
Proof. reflexivity. Qed.

Lemma ticket_row_items (t : ticket) :
  combine fieldnames (ticket_row t) = ticket_items t.
Proof. reflexivity. Qed.

Lemma settled_plain (w : bool) (dc : datetime) (status dcf res : string) :
  settled w dc status dcf res -> plain status /\ plain dcf /\ plain res.
Proof.
  intros Hsettled.
  inversion Hsettled as [ Hcut | r Hw Hcut Hres | Hw Hcut
                        | final r Hw Hcut Hfin Hlate Hres ]; subst;
    repeat split; try reflexivity; try apply plain_strftime;
    exact (plain_resolution_text _ _ Hres).
Qed.

Lemma generated_row_plain (t : ticket) :
  generated t -> 0 <= TicketID t -> Forall plain (ticket_row t).
Proof.
  intros (s & ticket_id & o & c & l & _ & _ & _ & Hopened & Hproduct & Hdict
          & Hissue & Hpriority & Hagent & _ & _ & _ & Hsettled) Hid.
  destruct (settled_plain _ _ _ _ _ Hsettled) as (Hst & Hdc & Hres).
  rewrite ticket_row_fields.
  repeat constructor; try assumption.
  - apply str_int_spec. exact Hid.
  - rewrite Hopened. apply plain_strftime.
  - apply (plain_member products); [reflexivity | exact Hproduct].
  - apply (plain_member all_issues); [reflexivity | ].
    apply in_concat. exists l.
    split; [exact (dict_get_in _ _ _ Hdict) | exact Hissue].
  - apply (plain_member priorities); [reflexivity | exact Hpriority].
  - apply (plain_member support_agents); [reflexivity | exact Hagent].
Qed.

Lemma dates_parse_back (t : ticket) :
  generated t ->
  (exists date_opened,
      in_range date_opened
      /\ DateOpened t = strftime date_opened
      /\ strptime (DateOpened t) = Some (minute_of date_opened))
  /\ (DateClosed t = EmptyString
      \/ exists date_closed,
           in_range date_closed
           /\ DateClosed t = strftime date_closed
           /\ strptime (DateClosed t) = Some (minute_of date_closed)).
Proof.
  intros (s & ticket_id & o & c & l & _ & Ho & _ & Hopened & _ & _ & _ & _
          & _ & Hc & _ & _ & Hsettled).
  split.
  - exists o. rewrite Hopened.
    split; [exact Ho | split; [reflexivity | apply strptime_strftime, Ho]].
  - inversion Hsettled as [ Hcut Hst Hdc Hres
                          | res Hw Hcut Hres Hst Hdc Hr
                          | Hw Hcut Hst Hdc Hres
                          | final res Hw Hcut Hfin Hlate Hres Hst Hdc Hr ].
    + left. reflexivity.
    + right. exists c.
      split; [exact Hc | split; [reflexivity | apply strptime_strftime, Hc]].
    + left. reflexivity.
    + right. exists final.
      split; [exact Hfin | split; [reflexivity | ]].
      apply strptime_strftime, Hfin.
Qed.

(** C9. Round trip: for every list of N generated tickets, the file that
    [save_to_csv] writes is read back as N records with the same field
    values, the ticket number as the decimal text of the integer; and the
    strings of [DateOpened] and [DateClosed], formatted as
    [MM/DD/YYYY HH:MM], parse back to the calendar minute of the timestamps
    they were formatted from. *)
Theorem csv_round_trip (fuel : nat) (num_tickets : Z) (s : rng)
    (tickets : list ticket) :
  outcome_value (generate_support_tickets fuel num_tickets s)
  = Returned tickets ->
  List.length tickets = Z.to_nat num_tickets
  /\ Csv.dict_reader (save_to_csv tickets) = map ticket_items tickets
  /\ List.length (Csv.dict_reader (save_to_csv tickets))
     = List.length tickets
  /\ forall t, In t tickets ->
       int_of_string (str_int (TicketID t)) = Some (TicketID t)
       /\ (exists date_opened,
              in_range date_opened
              /\ DateOpened t = strftime date_opened
              /\ strptime (DateOpened t) = Some (minute_of date_opened))
       /\ (DateClosed t = EmptyString
           \/ exists date_closed,
                in_range date_closed
                /\ DateClosed t = strftime date_closed
                /\ strptime (DateClosed t) = Some (minute_of date_closed)).
Proof.
  intros Hrun.
  destruct (generate_returned _ _ _ _ Hrun) as [Hall Hids].
  assert (Hpos : forall t, In t tickets -> 0 <= TicketID t).
  { intros t Hin.
    assert (Hr : In (TicketID t) (range 1001 (1001 + num_tickets)))
      by (rewrite <- Hids; apply in_map; exact Hin).
    apply range_bounds in Hr. lia. }
  assert (Hread : Csv.dict_reader (save_to_csv tickets)
                  = map ticket_items tickets).
  { unfold Csv.dict_reader, Csv.reader, save_to_csv, Csv.writeheader.
    rewrite read_writerow;
      [ | repeat constructor | cbn [List.length fieldnames]; lia ].
    rewrite read_writerows; [ | cbn [List.length fieldnames]; lia | ].
    - rewrite !map_map. apply map_ext. intros t. apply ticket_row_items.
    - rewrite Forall_map. rewrite Forall_forall in *. intros t Hin.
      apply generated_row_plain; [apply Hall | apply Hpos]; exact Hin. }
  split.
  { rewrite <- (length_map TicketID), Hids. apply range_length. }
  split; [exact Hread | ].
  split; [rewrite Hread; apply length_map | ].
  intros t Hin. rewrite Forall_forall in Hall.
  split; [apply str_int_spec, Hpos, Hin | ].
  apply dates_parse_back, Hall, Hin.
Qed.

Lemma csv_round_trip_witness :
  outcome_value (generate_support_tickets 0 1 rng_late)
  = Returned [ticket_late]
  /\ List.length [ticket_late] = Z.to_nat 1
  /\ Csv.dict_reader (save_to_csv [ticket_late])
     = map ticket_items [ticket_late]
  /\ List.length (Csv.dict_reader (save_to_csv [ticket_late]))
     = List.length [ticket_late]
  /\ forall t, In t [ticket_late] ->
       int_of_string (str_int (TicketID t)) = Some (TicketID t)
       /\ (exists date_opened,
              in_range date_opened
              /\ DateOpened t = strftime date_opened
              /\ strptime (DateOpened t) = Some (minute_of date_opened))
       /\ (DateClosed t = EmptyString
           \/ exists date_closed,
                in_range date_closed
                /\ DateClosed t = strftime date_closed
                /\ strptime (DateClosed t) = Some (minute_of date_closed)).
Proof.
  split; [vm_compute; reflexivity | ].
  apply (csv_round_trip 0 1 rng_late [ticket_late]).
  vm_compute. reflexivity.
Defined.

(** * Further properties of the generator *)

(** ** Ticket numbers *)

(** X1. A run that returns has built exactly [max(0, num_tickets)] tickets,
    and their numbers are 1001, 1002, ... in the order of the list. *)
Theorem ticket_ids_sequential (fuel : nat) (num_tickets : Z) (s : rng)
    (tickets : list ticket) :
  outcome_value (generate_support_tickets fuel num_tickets s)
  = Returned tickets ->
  List.length tickets = Z.to_nat num_tickets
  /\ forall i : nat,
       (i < List.length tickets)%nat ->
       option_map TicketID (nth_error tickets i) = Some (1001 + Z.of_nat i).
Proof.
  intros Hrun. destruct (generate_returned _ _ _ _ Hrun) as [_ Hids].
  assert (Hlen : List.length tickets = Z.to_nat num_tickets)
    by (rewrite <- (length_map TicketID), Hids; apply range_length).
  split; [exact Hlen | ]. intros i Hi.
  rewrite <- nth_error_map, Hids. unfold range.
  rewrite nth_error_map, nth_error_seq.
  replace (1001 + num_tickets - 1001) with num_tickets by lia.
  rewrite <- Hlen.
  destruct (Nat.ltb_spec i (List.length tickets)) as [_ | Hge]; [ | lia].
  reflexivity.
Qed.

Lemma ticket_ids_sequential_witness :
  outcome_value (generate_support_tickets 0 2 rng_half)
  = Returned [ticket_half 1001; ticket_half 1002]
  /\ List.length [ticket_half 1001; ticket_half 1002] = Z.to_nat 2
  /\ forall i : nat,
       (i < List.length [ticket_half 1001; ticket_half 1002])%nat ->
       option_map TicketID
                  (nth_error [ticket_half 1001; ticket_half 1002] i)
       = Some (1001 + Z.of_nat i).
Proof.
  split; [vm_compute; reflexivity | ].
  apply (ticket_ids_sequential 0 2 rng_half).
  vm_compute. reflexivity.
Defined.

(** ** Every ticket of a run comes from the loop body *)

Lemma generate_loop_built (fuel : nat) (ids : list Z) :
  forall (acc : list ticket) (s : rng) (tickets : list ticket) (s' : rng),
    generate_loop fuel ids acc s = Returned (tickets, s') ->
    exists new, tickets = (acc ++ new)%list /\ Forall built new.
Proof.
  induction ids as [ | ticket_id ids IH]; intros acc s tickets s' H;
    cbn [generate_loop] in H.
  - apply ret_returned in H. destruct H as [-> ->].
    exists []. rewrite app_nil_r. split; [reflexivity | constructor].
  - apply bind_returned in H. destruct H as (t & s1 & Ht & H).
    destruct (IH _ _ _ _ H) as (new & -> & Hall).
    exists (t :: new). rewrite <- app_assoc. split; [reflexivity | ].
    constructor; [ | exact Hall]. exists fuel, ticket_id, s, s1. exact Ht.
Qed.

Lemma built_in (fuel : nat) (num_tickets : Z) (s : rng)
    (tickets : list ticket) (t : ticket) :
  outcome_value (generate_support_tickets fuel num_tickets s)
  = Returned tickets ->
  In t tickets -> built t.
Proof.
  intros H Hin. apply outcome_value_returned in H. destruct H as [s' H].
  apply generate_loop_built in H. destruct H as (new & -> & Hall).
  rewrite Forall_forall in Hall. exact (Hall t Hin).
Qed.

(** ** Vocabularies *)

(** X2. In every generated ticket the product, the priority and the agent
    come from their fixed lists, the issue is one of the five issues of the
    ticket's own product, and the status is one of the four statuses. *)
Theorem fields_from_vocabularies (fuel : nat) (num_tickets : Z) (s : rng)
    (tickets : list ticket) (t : ticket) :
  outcome_value (generate_support_tickets fuel num_tickets s)
  = Returned tickets ->
  In t tickets ->
  In (Product t) products
  /\ (exists issues,
         dict_get issue_types (Product t) = Some issues
         /\ List.length issues = 5%nat
         /\ In (Issue t) issues)
  /\ In (Priority t) priorities
  /\ In (AssignedTo t) support_agents
  /\ In (Status t) ["Open"; "Closed"; "Reopened Open"; "Reopened Closed"].
Proof.
  intros Hrun Hin.
  destruct (generated_in _ _ _ _ _ Hrun Hin)
    as (s0 & ticket_id & o & c & l & _ & _ & _ & _ & Hproduct & Hdict
        & Hissue & Hpriority & Hagent & _ & _ & _ & Hsettled).
  split; [exact Hproduct | ]. split.
  - exists l. split; [exact Hdict | ]. split; [ | exact Hissue].
    clear - Hproduct Hdict. unfold products in Hproduct. cbn [In] in Hproduct.
    destruct Hproduct as [Hp | [Hp | [Hp | []]]]; rewrite <- Hp in Hdict;
      vm_compute in Hdict; inversion Hdict; reflexivity.
  - split; [exact Hpriority | ]. split; [exact Hagent | ].
    inversion Hsettled; cbn [In]; auto.
Qed.

Lemma fields_from_vocabularies_witness :
  outcome_value (generate_support_tickets 0 1 rng_late)
  = Returned [ticket_late]
  /\ In (Product ticket_late) products
  /\ (exists issues,
         dict_get issue_types (Product ticket_late) = Some issues
         /\ List.length issues = 5%nat
         /\ In (Issue ticket_late) issues)
  /\ In (Priority ticket_late) priorities
  /\ In (AssignedTo ticket_late) support_agents
  /\ In (Status ticket_late)
        ["Open"; "Closed"; "Reopened Open"; "Reopened Closed"].
Proof.
  split; [vm_compute; reflexivity | ].
  apply (fields_from_vocabularies 0 1 rng_late [ticket_late] ticket_late).
  - vm_compute. reflexivity.
  - left. reflexivity.
Defined.

(** ** The opening time *)

(** Drop the next bind of a returned computation. *)
Ltac skip_bind H :=
  let a := fresh "a" in
  let s := fresh "s" in
  apply bind_returned in H; destruct H as (a & s & _ & H).

Lemma generate_ticket_opened (fuel : nat) (ticket_id : Z) (s : rng)
    (t : ticket) (s' : rng) :
  generate_ticket fuel ticket_id s = Returned (t, s') ->
  exists days_offset hours minutes,
    0 <= days_offset <= 365 /\ 0 <= hours <= 23 /\ 0 <= minutes <= 59
    /\ DateOpened t
       = strftime (start_date + days_offset * DAY
                   + hours * HOUR + minutes * MINUTE).
Proof.
  unfold generate_ticket. intros H.
  apply bind_returned in H. destruct H as (days_offset & s1 & Hdays & H).
  apply randint_returned in Hdays; [ | lia]. destruct Hdays as [Hdays _].
  apply bind_returned in H. destruct H as (opened0 & s2 & Ho0 & H).
  apply lift_returned in Ho0. destruct Ho0 as [Ho0 ->].
  apply add_returned in Ho0. destruct Ho0 as [-> _].
  apply bind_returned in H. destruct H as (hours & s3 & Hhours & H).
  apply randint_returned in Hhours; [ | lia]. destruct Hhours as [Hhours _].
  apply bind_returned in H. destruct H as (minutes & s4 & Hminutes & H).
  apply randint_returned in Hminutes; [ | lia].
  destruct Hminutes as [Hminutes _].
  apply bind_returned in H. destruct H as (date_opened & s5 & Ho & H).
  apply lift_returned in Ho. destruct Ho as [Ho ->].
  apply add_returned in Ho. destruct Ho as [-> _].
  do 12 skip_bind H.
  apply bind_returned in H. destruct H as ([[status dcf] res] & s_last & _ & H).
  apply ret_returned in H. destruct H as [-> ->].
  exists days_offset, hours, minutes. cbn [DateOpened].
  repeat split; try lia.
  f_equal. unfold timedelta_ints. lia.
Qed.

(** X3. [DateOpened] of every generated ticket denotes a whole minute
    between 2024-01-01 00:00 and 2024-12-31 23:59, both included. *)
Theorem date_opened_in_window (fuel : nat) (num_tickets : Z) (s : rng)
    (tickets : list ticket) (t : ticket) :
  outcome_value (generate_support_tickets fuel num_tickets s)
  = Returned tickets ->
  In t tickets ->
  exists opened,
    strptime (DateOpened t) = Some opened
    /\ mk 2024 1 1 0 0 <= opened <= mk 2024 12 31 23 59
    /\ opened mod MINUTE = 0.
Proof.
  intros Hrun Hin.
  destruct (built_in _ _ _ _ _ Hrun Hin) as (fuel0 & id & s0 & s1 & Hbuilt).
  apply generate_ticket_opened in Hbuilt.
  destruct Hbuilt as (days & hours & minutes & Hd & Hh & Hm & ->).
  set (opened := start_date + days * DAY + hours * HOUR + minutes * MINUTE).
  assert (Hs : mk 2024 1 1 0 0 = 738886 * DAY) by reflexivity.
  assert (He : mk 2024 12 31 23 59
               = 738886 * DAY + 365 * DAY + 23 * HOUR + 59 * MINUTE)
    by reflexivity.
  assert (Hbounds : mk 2024 1 1 0 0 <= opened <= mk 2024 12 31 23 59
                    /\ opened mod MINUTE = 0).
  { rewrite Hs, He. subst opened. rewrite start_date_value.
    unfold DAY, HOUR, MINUTE. split; [lia | ].
    Z.div_mod_to_equations. lia. }
  destruct Hbounds as [Hwin Hmod].
  exists opened. split; [ | split; assumption].
  rewrite strptime_strftime.
  - unfold minute_of. rewrite Hmod. f_equal. lia.
  - unfold in_range, MAXORDINAL. rewrite Hs, He in Hwin.
    unfold DAY, HOUR, MINUTE in *. Z.div_mod_to_equations. lia.
Qed.

Lemma date_opened_in_window_witness :
  outcome_value (generate_support_tickets 0 1 rng_late)
  = Returned [ticket_late]
  /\ exists opened,
       strptime (DateOpened ticket_late) = Some opened
       /\ mk 2024 1 1 0 0 <= opened <= mk 2024 12 31 23 59
       /\ opened mod MINUTE = 0.
Proof.
  split; [vm_compute; reflexivity | ].
  apply (date_opened_in_window 0 1 rng_late [ticket_late] ticket_late).
  - vm_compute. reflexivity.
  - left. reflexivity.
Defined.

(** ** Close dates *)

Lemma minute_of_monotone (a b : datetime) :
  a mod MINUTE = 0 -> a <= b -> a <= minute_of b.
Proof.
  unfold minute_of, MINUTE. intros Ha Hab. Z.div_mod_to_equations. lia.
Qed.

(** X4. A ticket with status Closed was closed before the cutoff of
    2024-12-31 00:00 and six minutes or more after it was opened. *)
Theorem closed_before_cutoff (fuel : nat) (num_tickets : Z) (s : rng)
    (tickets : list ticket) (t : ticket) :
  outcome_value (generate_support_tickets fuel num_tickets s)
  = Returned tickets ->
  In t tickets ->
  Status t = "Closed" ->
  exists opened closed,
    strptime (DateOpened t) = Some opened
    /\ strptime (DateClosed t) = Some closed
    /\ opened + 6 * MINUTE <= closed
    /\ closed < current_time.
Proof.
  intros Hrun Hin Hstatus.
  destruct (generated_in _ _ _ _ _ Hrun Hin)
    as (s0 & ticket_id & o & c & l & _ & Ho & Hmin & Hopened & _ & _ & _ & _
        & _ & Hc & Hgap & _ & Hsettled).
  inversion Hsettled as [ Hcut Hst Hdc Hres
                        | res Hw Hcut Hres Hst Hdc Hr
                        | Hw Hcut Hst Hdc Hres
                        | final res Hw Hcut Hfin Hlate Hres Hst Hdc Hr ];
    try (rewrite Hstatus in Hst; discriminate Hst).
  exists o, (minute_of c).
  rewrite Hopened, !strptime_strftime, Hmin by assumption.
  repeat split.
  - apply minute_of_monotone; [ | exact Hgap].
    unfold minute_of in Hmin. unfold MINUTE in *.
    Z.div_mod_to_equations. lia.
  - pose proof (minute_of_bounds c). lia.
Qed.

Lemma closed_before_cutoff_witness :
  outcome_value (generate_support_tickets 2 1 rng_weekend)
  = Returned [ticket_weekend]
  /\ exists opened closed,
       strptime (DateOpened ticket_weekend) = Some opened
       /\ strptime (DateClosed ticket_weekend) = Some closed
       /\ opened + 6 * MINUTE <= closed
       /\ closed < current_time.
Proof.
  split; [vm_compute; reflexivity | ].
  apply (closed_before_cutoff 2 1 rng_weekend [ticket_weekend] ticket_weekend).
  - vm_compute. reflexivity.
  - left. reflexivity.
  - reflexivity.
Defined.

(** X5. A ticket with status Reopened Closed was closed 66 minutes or more
    after it was opened: six minutes for the first resolution and an hour
    or more before it is reopened. *)
Theorem reopened_closed_gap (fuel : nat) (num_tickets : Z) (s : rng)
    (tickets : list ticket) (t : ticket) :
  outcome_value (generate_support_tickets fuel num_tickets s)
  = Returned tickets ->
  In t tickets ->
  Status t = "Reopened Closed" ->
  exists opened closed,
    strptime (DateOpened t) = Some opened
    /\ strptime (DateClosed t) = Some closed
    /\ opened + 6 * MINUTE + HOUR <= closed.
Proof.
  intros Hrun Hin Hstatus.
  destruct (first_resolution_floored t (generated_in _ _ _ _ _ Hrun Hin)
              Hstatus) as (opened & closed & Ho & Hc & Hgap).
  exists opened, closed. repeat split; try assumption. lia.
Qed.

Lemma reopened_closed_gap_witness :
  outcome_value (generate_support_tickets 0 1 rng_quick)
  = Returned [ticket_quick]
  /\ exists opened closed,
       strptime (DateOpened ticket_quick) = Some opened
       /\ strptime (DateClosed ticket_quick) = Some closed
       /\ opened + 6 * MINUTE + HOUR <= closed.
Proof.
  split; [vm_compute; reflexivity | ].
  apply (reopened_closed_gap 0 1 rng_quick [ticket_quick] ticket_quick).
  - vm_compute. reflexivity.
  - left. reflexivity.
  - reflexivity.
Defined.

(** ** The weekend loop, once more *)

(** X6. When the weekend loop returns, it has left a weekday close date
    untouched without drawing anything, or it has moved a weekend close
    date by exactly two days: never by more, never backwards. *)
Theorem weekend_loop_shift (fuel : nat) :
  forall (d : datetime) (s : rng) (d' : datetime) (s' : rng),
    weekend_loop fuel d s = Returned (d', s') ->
    (weekday d <= 4 /\ d' = d /\ s' = s)
    \/ (4 < weekday d /\ d' = d + 2 * DAY /\ weekday d' = weekday d - 5).
Proof.
  induction fuel as [ | fuel IH]; intros d s d' s' H;
    rewrite weekend_loop_unfold in H;
    destruct (4 <? weekday d) eqn:Hw;
    try apply Z.ltb_lt in Hw; try apply Z.ltb_ge in Hw.
  - discriminate H.
  - apply ret_returned in H. destruct H as [-> ->]. left. auto.
  - right. apply bind_returned in H. destruct H as (u & s0 & Hu & H).
    destruct (Qltb u (7 # 10)).
    + apply bind_returned in H. destruct H as (d2 & s2 & Hadd & H).
      apply lift_returned in Hadd. destruct Hadd as [Hadd ->].
      apply add_returned in Hadd. destruct Hadd as [-> _].
      assert (Hrange : 0 <= weekday d < 7)
        by (unfold weekday; apply Z.mod_pos_bound; lia).
      assert (Hnext : weekday (d + timedelta_ints 2 0 0) = weekday d - 5).
      { unfold weekday, toordinal, timedelta_ints, DAY, HOUR, MINUTE in *.
        Z.div_mod_to_equations. lia. }
      destruct (IH _ _ _ _ H) as [(Hwd & -> & _) | (Hwd & _)]; [ | lia].
      unfold timedelta_ints in *.
      replace (d + (2 * DAY + 0 * HOUR + 0 * MINUTE)) with (d + 2 * DAY)
        in * by lia.
      repeat split; [exact Hw | exact Hnext].
    + destruct (IH _ _ _ _ H) as [(Hwd & _) | (_ & Hd' & Hwd')]; [lia | ].
      repeat split; assumption.
  - apply ret_returned in H. destruct H as [-> ->]. left. auto.
Qed.

Lemma weekend_loop_shift_witness :
  weekend_loop 1 (mk 2024 1 6 15 7) rng_half
  = Returned (mk 2024 1 8 15 7,
              mk_rng (py_tape rng_half) 1 (np_unif rng_half) 0
                     (np_gam rng_half) 0)
  /\ ((weekday (mk 2024 1 6 15 7) <= 4
       /\ mk 2024 1 8 15 7 = mk 2024 1 6 15 7
       /\ mk_rng (py_tape rng_half) 1 (np_unif rng_half) 0
                 (np_gam rng_half) 0 = rng_half)
      \/ (4 < weekday (mk 2024 1 6 15 7)
          /\ mk 2024 1 8 15 7 = mk 2024 1 6 15 7 + 2 * DAY
          /\ weekday (mk 2024 1 8 15 7) = weekday (mk 2024 1 6 15 7) - 5)).
Proof.
  split; [vm_compute; reflexivity | ].
  apply (weekend_loop_shift 1 (mk 2024 1 6 15 7) rng_half).
  vm_compute. reflexivity.
Defined.

(** ** [get_resolution] *)

Lemma choice_total {A : Type} (l : list A) (s : rng) :
  l <> [] ->
  exists x s', choice l s = Returned (x, s') /\ In x l /\ py_advanced 1 s s'.
Proof.
  intros Hne. unfold choice, bind, random.
  set (i := Z.to_nat (Qfloor (uval (py_tape s (py_pos s))
                              * inject_Z (Z.of_nat (List.length l))))).
  assert (Hi : (i < List.length l)%nat).
  { subst i.
    assert (Hlen : 0 < Z.of_nat (List.length l))
      by (destruct l; [congruence | cbn [List.length]; lia]).
    pose proof (scaled_floor_bounds (py_tape s (py_pos s)) _ Hlen). lia. }
  destruct (nth_error l i) as [x | ] eqn:E.
  - exists x. eexists. split; [reflexivity | ].
    split; [exact (nth_error_In _ _ E) | split; reflexivity].
  - apply nth_error_None in E. lia.
Qed.

Lemma dict_get_none {A : Type} (d : list (string * A)) (k : string) :
  ~ In k (map fst d) -> dict_get d k = None.
Proof.
  induction d as [ | [k' v] d IH]; cbn [dict_get map fst In];
    [reflexivity | ].
  intros Hnot. destruct (String.eqb_spec k k') as [-> | Hne].
  - exfalso. apply Hnot. left. reflexivity.
  - apply IH. intros Hin. apply Hnot. right. exact Hin.
Qed.

(** X7. The resolution of a reopened issue is the resolution the same draw
    gives for the issue when it is not reopened, followed by
    [' - Reopened Issue Addressed']; the generator is left in the same
    state. *)
Theorem get_resolution_reopened_suffix (issue : string) (s : rng) :
  get_resolution issue true s
  = outcome_map (fun resolution => resolution ++ reopened_suffix)
                (get_resolution issue false s).
Proof.
  unfold get_resolution.
  destruct (dict_get resolutions issue) as [texts | ].
  - unfold bind. destruct (choice texts s) as [[base s'] | e | ];
      reflexivity.
  - reflexivity.
Qed.

(** X8. For an issue that has no entry in the table of resolutions,
    [get_resolution] draws nothing and answers ['Issue Resolved'], with the
    reopened suffix when asked for. *)
Theorem get_resolution_unknown_issue (issue : string) (is_reopened : bool)
    (s : rng) :
  ~ In issue (map fst resolutions) ->
  get_resolution issue is_reopened s
  = Returned (if is_reopened
              then "Issue Resolved - Reopened Issue Addressed"
              else "Issue Resolved", s).
Proof.
  intros Hnot. unfold get_resolution.
  rewrite (dict_get_none _ _ Hnot). destruct is_reopened; reflexivity.
Qed.

Lemma get_resolution_unknown_issue_witness :
  ~ In "Billing Question" (map fst resolutions)
  /\ get_resolution "Billing Question" true rng_half
     = Returned ("Issue Resolved - Reopened Issue Addressed", rng_half).
Proof.
  assert (Hnot : ~ In "Billing Question" (map fst resolutions)).
  { cbn. intros H.
    repeat (destruct H as [H | H]; [discriminate H | ]). exact H. }
  split; [exact Hnot | ].
  exact (get_resolution_unknown_issue "Billing Question" true rng_half Hnot).
Defined.

(** X9. Every issue of every product has an entry in the table of
    resolutions: for such an issue [get_resolution] never raises and never
    falls back to ['Issue Resolved']; it consumes one draw and returns one
    of the three texts of the issue, with the suffix when reopened. *)
Theorem get_resolution_known_issue (issue : string) (is_reopened : bool)
    (s : rng) :
  In issue all_issues ->
  exists texts base s',
    dict_get resolutions issue = Some texts
    /\ List.length texts = 3%nat
    /\ In base texts
    /\ get_resolution issue is_reopened s
       = Returned (if is_reopened then base ++ reopened_suffix else base, s')
    /\ py_advanced 1 s s'.
Proof.
  intros Hin.
  assert (Hentry : exists texts,
             dict_get resolutions issue = Some texts
             /\ List.length texts = 3%nat).
  { unfold all_issues in Hin. cbn in Hin.
    repeat (destruct Hin as [<- | Hin];
            [eexists; split; [vm_compute; reflexivity | reflexivity] | ]).
    destruct Hin. }
  destruct Hentry as (texts & Hdict & Hlen).
  assert (Hne : texts <> []) by (destruct texts; [discriminate | congruence]).
  destruct (choice_total texts s Hne) as (base & s' & Hchoice & Hbase & Hadv).
  exists texts, base, s'. repeat split; try assumption; try apply Hadv.
  unfold get_resolution. rewrite Hdict.
  rewrite (bind_step _ _ _ _ _ Hchoice). reflexivity.
Qed.

Lemma get_resolution_known_issue_witness :
  In "UI Bug" all_issues
  /\ exists texts base s',
       dict_get resolutions "UI Bug" = Some texts
       /\ List.length texts = 3%nat
       /\ In base texts
       /\ get_resolution "UI Bug" true rng_half
          = Returned (base ++ reopened_suffix, s')
       /\ py_advanced 1 rng_half s'.
Proof.
  assert (Hin : In "UI Bug" all_issues) by (cbn; tauto).
  split; [exact Hin | ].
  exact (get_resolution_known_issue "UI Bug" true rng_half Hin).
Defined.

(** ** [print_kpi_analysis] *)

Lemma percent_bounds (a b : nat) :
  (a <= b)%nat -> (0 < b)%nat ->
  (0 <= inject_Z (Z.of_nat a) / inject_Z (Z.of_nat b) * 100 <= 100)%Q.
Proof.
  intros Hab Hb.
  assert (Hpos : (0 < inject_Z (Z.of_nat b))%Q)
    by (change 0%Q with (inject_Z 0); rewrite <- Zlt_Qlt; lia).
  assert (Hratio : (0 <= inject_Z (Z.of_nat a) / inject_Z (Z.of_nat b) <= 1)%Q).
  { split.
    - apply Qle_shift_div_l; [exact Hpos | ].
      rewrite Qmult_0_l. change 0%Q with (inject_Z 0).
      rewrite <- Zle_Qle. lia.
    - apply Qle_shift_div_r; [exact Hpos | ].
      rewrite Qmult_1_l. rewrite <- Zle_Qle. lia. }
  destruct Hratio as [H0 H1]. split.
  - apply Qmult_le_0_compat; [exact H0 | discriminate].
  - setoid_replace 100%Q with (1 * 100)%Q at 2 by reflexivity.
    apply Qmult_le_compat_r; [exact H1 | discriminate].
Qed.

Lemma closed_status_has_close_date (t : ticket) :
  generated t ->
  mem (Status t) ["Closed"; "Reopened Closed"]
  = negb (is_empty (DateClosed t)).
Proof.
  intros (s & ticket_id & o & c & l & _ & _ & _ & _ & _ & _ & _ & _ & _ & _
          & _ & _ & Hsettled).
  inversion Hsettled as [ Hcut Hst Hdc Hres
                        | res Hw Hcut Hres Hst Hdc Hr
                        | Hw Hcut Hst Hdc Hres
                        | final res Hw Hcut Hfin Hlate Hres Hst Hdc Hr ];
    try reflexivity.
  - pose proof (strftime_not_empty c) as Hne.
    destruct (strftime c); [congruence | reflexivity].
  - pose proof (strftime_not_empty final) as Hne.
    destruct (strftime final); [congruence | reflexivity].
Qed.

(** X10. On the result of a generation, [print_kpi_analysis] raises
    [ZeroDivisionError] when the count was zero or negative (the list is
    empty). For a count of one or more it returns: the total is the count,
    the closed tickets are the tickets whose [DateClosed] is not empty, the
    closed and the reopened tickets are at most as many as the total, and
    both percentages lie between 0 and 100. *)
Theorem kpi_of_generated (fuel : nat) (num_tickets : Z) (s : rng)
    (tickets : list ticket) :
  outcome_value (generate_support_tickets fuel num_tickets s)
  = Returned tickets ->
  (num_tickets <= 0 -> print_kpi_analysis tickets = Raised ZeroDivisionError)
  /\ (1 <= num_tickets ->
      exists k,
        print_kpi_analysis tickets = Returned k
        /\ kpi_total k = Z.to_nat num_tickets
        /\ kpi_closed k
           = List.length
               (filter (fun t => negb (is_empty (DateClosed t))) tickets)
        /\ (kpi_closed k <= kpi_total k)%nat
        /\ (kpi_reopened k <= kpi_total k)%nat
        /\ (0 <= kpi_reopen_percent k <= 100)%Q
        /\ (0 <= kpi_resolution_percent k <= 100)%Q).
Proof.
  intros Hrun.
  destruct (generate_returned _ _ _ _ Hrun) as [Hall Hids].
  assert (Hlen : List.length tickets = Z.to_nat num_tickets)
    by (rewrite <- (length_map TicketID), Hids; apply range_length).
  split; intros Hn.
  - destruct tickets as [ | t tickets]; [reflexivity | ].
    cbn [List.length] in Hlen. lia.
  - assert (Hclosed : (List.length (closed_tickets tickets)
                       <= List.length tickets)%nat)
      by apply filter_length_le.
    assert (Hreopened : (reopened_tickets tickets
                         <= List.length tickets)%nat)
      by apply filter_length_le.
    unfold print_kpi_analysis.
    destruct (List.length tickets) as [ | n] eqn:Htotal; [lia | ].
    eexists. split; [reflexivity | ].
    cbn [kpi_total kpi_closed kpi_reopened kpi_reopen_percent
         kpi_resolution_percent].
    split; [exact Hlen | ]. split.
    + unfold closed_tickets. f_equal. apply filter_ext_in.
      intros t Hin. rewrite Forall_forall in Hall.
      apply closed_status_has_close_date, Hall, Hin.
    + split; [exact Hclosed | ]. split; [exact Hreopened | ].
      split; apply percent_bounds; try assumption; lia.
Qed.

Lemma kpi_of_generated_witness :
  outcome_value (generate_support_tickets 0 1 rng_late)
  = Returned [ticket_late]
  /\ (1 <= 0 -> print_kpi_analysis [ticket_late] = Raised ZeroDivisionError)
  /\ (1 <= 1 ->
      exists k,
        print_kpi_analysis [ticket_late] = Returned k
        /\ kpi_total k = Z.to_nat 1
        /\ kpi_closed k
           = List.length
               (filter (fun t => negb (is_empty (DateClosed t)))
                       [ticket_late])
        /\ (kpi_closed k <= kpi_total k)%nat
        /\ (kpi_reopened k <= kpi_total k)%nat
        /\ (0 <= kpi_reopen_percent k <= 100)%Q
        /\ (0 <= kpi_resolution_percent k <= 100)%Q).
Proof.
  split; [vm_compute; reflexivity | ].
  apply (kpi_of_generated 0 1 rng_late [ticket_late]).
  vm_compute. reflexivity.
Defined.

(** ** Quoted fields *)

Lemma string_app_empty (s : string) : s ++ EmptyString = s.
Proof. induction s as [ | c s IH]; cbn [append]; congruence. Qed.

(** Inside a quoted field the reader undoes the doubling of quotes, up to
    the closing quote. *)
Lemma read_in_quoted (f : string) :
  forall (field : string) (row : list string) (rest : string),
    read_from (mk_rd IN_QUOTED_FIELD field row)
              (double_quotes f ++ String quotechar rest)
    = read_from (mk_rd QUOTE_IN_QUOTED_FIELD (field ++ f) row) rest.
Proof.
  induction f as [ | c f IH]; intros field row rest.
  - cbn [double_quotes append read_from]. unfold step.
    cbn [rd_state rd_field rd_row]. rewrite Ascii.eqb_refl.
    rewrite string_app_empty. reflexivity.
  - cbn [double_quotes]. destruct (Ascii.eqb c quotechar) eqn:Hq.
    + apply Ascii.eqb_eq in Hq. subst c.
      cbn [append read_from]. unfold step at 1.
      cbn [rd_state rd_field rd_row]. rewrite Ascii.eqb_refl.
      unfold step at 1. cbn [rd_state rd_field rd_row].
      rewrite Ascii.eqb_refl.
      rewrite IH. unfold snoc. rewrite string_app_assoc. reflexivity.
    + cbn [append read_from]. unfold step at 1.
      cbn [rd_state rd_field rd_row]. rewrite Hq.
      rewrite IH. unfold snoc. rewrite string_app_assoc. reflexivity.
Qed.

Lemma quote_field_quoted (f : string) :
  any_special f = true ->
  forall rest,
    quote_field f ++ rest
    = String quotechar (double_quotes f ++ String quotechar rest).
Proof.
  intros Hf rest. unfold quote_field. rewrite Hf.
  cbn [append]. rewrite string_app_assoc. reflexivity.
Qed.

Lemma read_any_field_delimiter (f : string) (row : list string)
    (rest : string) :
  read_from (mk_rd START_FIELD EmptyString row)
            (quote_field f ++ String delimiter rest)
  = read_from (mk_rd START_FIELD EmptyString (row ++ [f])) rest.
Proof.
  destruct (any_special f) eqn:Hf.
  - rewrite (quote_field_quoted f Hf).
    cbn [read_from]. unfold step at 1, start_field.
    cbn [rd_state rd_field rd_row].
    change (Ascii.eqb quotechar CR || Ascii.eqb quotechar LF) with false.
    rewrite Ascii.eqb_refl.
    rewrite read_in_quoted. reflexivity.
  - rewrite (quote_field_plain f Hf). apply read_field_delimiter. exact Hf.
Qed.

Lemma read_any_field_terminator (f : string) (row : list string)
    (rest : string) :
  read_from (mk_rd START_FIELD EmptyString row)
            (quote_field f ++ lineterminator ++ rest)
  = (row ++ [f])%list :: read_from (mk_rd START_RECORD EmptyString []) rest.
Proof.
  destruct (any_special f) eqn:Hf.
  - rewrite (quote_field_quoted f Hf).
    cbn [read_from]. unfold step at 1, start_field.
    cbn [rd_state rd_field rd_row].
    change (Ascii.eqb quotechar CR || Ascii.eqb quotechar LF) with false.
    rewrite Ascii.eqb_refl.
    rewrite read_in_quoted. reflexivity.
  - rewrite (quote_field_plain f Hf). apply read_field_terminator. exact Hf.
Qed.

Lemma read_any_first_field (f : string) (rest : string) :
  read_from (mk_rd START_RECORD EmptyString [])
            (quote_field f ++ String delimiter rest)
  = read_from (mk_rd START_FIELD EmptyString [f]) rest.
Proof.
  destruct (any_special f) eqn:Hf.
  - rewrite (quote_field_quoted f Hf).
    cbn [read_from]. unfold step at 1, start_record, start_field.
    cbn [rd_state rd_field rd_row].
    change (Ascii.eqb quotechar CR) with false.
    change (Ascii.eqb quotechar LF) with false.
    cbn [orb]. rewrite Ascii.eqb_refl.
    rewrite read_in_quoted. reflexivity.
  - rewrite (quote_field_plain f Hf). apply read_first_field. exact Hf.
Qed.

Lemma read_any_fields (fields : list string) :
  fields <> [] ->
  forall (row : list string) (rest : string),
    read_from (mk_rd START_FIELD EmptyString row)
              (join (map quote_field fields) ++ lineterminator ++ rest)
    = (row ++ fields)%list
      :: read_from (mk_rd START_RECORD EmptyString []) rest.
Proof.
  induction fields as [ | f fields IH]; intros Hne row rest; [congruence | ].
  destruct fields as [ | f2 fields].
  - cbn [map join]. apply read_any_field_terminator.
  - change (join (map quote_field (f :: f2 :: fields)))
      with (quote_field f
            ++ String delimiter (join (map quote_field (f2 :: fields)))).
    rewrite string_app_assoc. cbn [append].
    rewrite read_any_field_delimiter.
    rewrite IH by discriminate. rewrite <- app_assoc. reflexivity.
Qed.

Lemma read_any_writerow (fields : list string) (rest : string) :
  (2 <= List.length fields)%nat ->
  read_from (mk_rd START_RECORD EmptyString []) (writerow fields ++ rest)
  = fields :: read_from (mk_rd START_RECORD EmptyString []) rest.
Proof.
  intros Hlen.
  destruct fields as [ | f [ | f2 fields]]; cbn [List.length] in Hlen;
    try lia.
  assert (Hrow : writerow (f :: f2 :: fields)
                 = join (map quote_field (f :: f2 :: fields))
                   ++ lineterminator)
    by (unfold writerow; destruct f; reflexivity).
  rewrite Hrow. rewrite string_app_assoc.
  change (join (map quote_field (f :: f2 :: fields)))
    with (quote_field f
          ++ String delimiter (join (map quote_field (f2 :: fields)))).
  rewrite string_app_assoc. cbn [append].
  rewrite read_any_first_field.
  rewrite read_any_fields by discriminate. reflexivity.
Qed.

Lemma read_any_writerows (names : list string)
    (rowdicts : list (list (string * string))) :
  (2 <= List.length names)%nat ->
  read_from (mk_rd START_RECORD EmptyString []) (writerows names rowdicts)
  = map (dict_row names) rowdicts.
Proof.
  intros Hlen. induction rowdicts as [ | d rowdicts IH];
    cbn [writerows map]; [reflexivity | ].
  rewrite read_any_writerow; [rewrite IH; reflexivity | ].
  unfold dict_row. rewrite length_map. exact Hlen.
Qed.


(** ** Generation returns *)

Lemma same_tapes_refl (s : rng) : same_tapes s s.
Proof. split; reflexivity. Qed.

Lemma same_tapes_trans (s s1 s2 : rng) :
  same_tapes s s1 -> same_tapes s1 s2 -> same_tapes s s2.
Proof. unfold same_tapes. intros [H1 H2] [H3 H4]. split; congruence. Qed.

Lemma steady_same (k : nat) (s s' : rng) :
  same_tapes s s' -> steady k s -> steady k s'.
Proof.
  unfold same_tapes, steady. intros [Hpy Hg] [Hlow Hgam].
  rewrite Hpy, Hg. split; assumption.
Qed.

Lemma random_total (s : rng) :
  exists u s',
    random s = Returned (u, s') /\ (0 <= u < 1)%Q /\ same_tapes s s'.
Proof.
  unfold random. eexists. eexists. split; [reflexivity | ].
  split; [apply unit_variate_bounds | split; reflexivity].
Qed.

Lemma randint_total (a b : Z) (s : rng) :
  a <= b ->
  exists z s',
    randint a b s = Returned (z, s') /\ a <= z <= b /\ same_tapes s s'.
Proof.
  intros Hab. unfold randint, bind, random, ret.
  eexists. eexists. split; [reflexivity | ].
  pose proof (scaled_floor_bounds (py_tape s (py_pos s)) (b - a + 1)).
  split; [lia | split; reflexivity].
Qed.

Lemma choice_same {A : Type} (l : list A) (s : rng) (x : A) (s' : rng) :
  choice l s = Returned (x, s') -> same_tapes s s'.
Proof.
  unfold choice, bind, random.
  destruct (nth_error l _); [ | discriminate].
  unfold ret. intros H. inversion H. split; reflexivity.
Qed.

Lemma uniform_total (a b : Q) (s : rng) :
  (a <= b)%Q ->
  exists x s',
    uniform a b s = Returned (x, s') /\ (a <= x <= b)%Q /\ same_tapes s s'.
Proof.
  intros Hab. unfold uniform, bind, random, ret.
  eexists. eexists. split; [reflexivity | ].
  destruct (unit_variate_bounds (py_tape s (py_pos s))) as [H0 H1].
  assert (Hd : (0 <= b - a)%Q)
    by (setoid_replace 0%Q with (a - a)%Q by ring;
        apply Qplus_le_l; exact Hab).
  split; [split | split; reflexivity].
  - setoid_replace a with (a + 0)%Q at 1 by ring.
    apply Qplus_le_r. apply Qmult_le_0_compat; assumption.
  - setoid_replace b with (a + (b - a) * 1)%Q at 2 by ring.
    apply Qplus_le_r.
    rewrite (Qmult_comm (b - a)), (Qmult_comm (b - a) 1).
    apply Qmult_le_compat_r; [apply Qlt_le_weak, H1 | exact Hd].
Qed.

Lemma np_choice_priorities_total (s : rng) :
  exists priority s',
    np_choice priorities priority_weights s = Returned (priority, s')
    /\ same_tapes s s'.
Proof.
  unfold np_choice, bind, np_random_sample.
  destruct (unit_variate_bounds (np_unif s (np_upos s))) as [_ H1].
  set (u := uval (np_unif s (np_upos s))) in *.
  assert (Hidx : (searchsorted_right
                    (map (fun c => (c / last (cumsum 0 priority_weights) 1)%Q)
                         (cumsum 0 priority_weights)) u < 4)%nat).
  { cbn [priority_weights cumsum map last searchsorted_right].
    repeat match goal with
           | |- context [if ?c then _ else _] => destruct c eqn:?
           end; try lia.
    match goal with
    | H : Qle_bool ?q u = true |- _ =>
        match q with
        | context [(5 # 100)%Q] =>
            apply Qle_bool_iff in H; exfalso;
            apply (Qlt_not_le u 1 H1);
            apply Qle_trans with (y := q); [discriminate | exact H]
        end
    end. }
  destruct (nth_error priorities _) as [p | ] eqn:E.
  - exists p. eexists. split; [reflexivity | split; reflexivity].
  - apply nth_error_None in E. cbn [priorities List.length] in E. lia.
Qed.

Lemma np_gamma_total (shape scale : Q) (s : rng) :
  (0 <= scale)%Q ->
  (forall i, (gval (np_gam s i) <= 1000)%Q) ->
  exists x s',
    np_gamma shape scale s = Returned (x, s')
    /\ (0 <= x <= scale * 1000)%Q /\ same_tapes s s'.
Proof.
  intros Hscale Hgam. unfold np_gamma, bind, np_standard_gamma, ret.
  eexists. eexists. split; [reflexivity | ].
  split; [split | split; reflexivity].
  - apply Qmult_le_0_compat; [exact Hscale | ].
    apply Qlt_le_weak, gamma_variate_pos.
  - rewrite (Qmult_comm scale), (Qmult_comm scale 1000).
    apply Qmult_le_compat_r; [apply Hgam | exact Hscale].
Qed.

Lemma sample_base_hours_total (priority : string) (s : rng) :
  (forall i, (gval (np_gam s i) <= 1000)%Q) ->
  exists x s',
    sample_base_hours priority s = Returned (x, s')
    /\ (0 <= x <= 3000)%Q /\ same_tapes s s'.
Proof.
  intros Hgam. unfold sample_base_hours.
  repeat match goal with
         | |- context [if ?c then _ else _] => destruct c
         end;
    match goal with
    | |- context [np_gamma ?shape ?scale s] =>
        destruct (np_gamma_total shape scale s ltac:(discriminate) Hgam)
          as (x & s' & Hx & [H0 H1] & Hsame)
    end;
    exists x, s'; (split; [exact Hx | ]); (split; [ | exact Hsame]);
    (split; [exact H0 | ]);
    (eapply Qle_trans; [exact H1 | discriminate]).
Qed.

Lemma round_half_even_upper (x : Q) (z : Z) :
  (x <= inject_Z z)%Q -> round_half_even x <= z + 1.
Proof.
  intros H. apply Qfloor_resp_le in H. rewrite Qfloor_Z in H.
  unfold round_half_even.
  destruct (Qcompare _ _); [destruct (Z.even _) | | ]; lia.
Qed.

Lemma timedelta_hours_total (x : Q) (n : Z) :
  (0 <= x)%Q -> (x <= inject_Z n)%Q -> n <= 1000000 ->
  exists delta,
    timedelta_hours x = Returned delta /\ 0 <= delta <= n * HOUR + 1.
Proof.
  intros H0 Hn Hsmall. unfold timedelta_hours.
  set (us := round_half_even (x * inject_Z HOUR)).
  assert (Hlo : 0 <= us).
  { subst us. apply round_half_even_lower.
    apply Qmult_le_0_compat; [exact H0 | discriminate]. }
  assert (Hhi : us <= n * HOUR + 1).
  { subst us. apply round_half_even_upper.
    rewrite inject_Z_mult.
    apply Qmult_le_compat_r; [exact Hn | discriminate]. }
  replace (Z.abs (us / DAY) <=? MAXDELTADAYS) with true.
  - exists us. split; [reflexivity | lia].
  - symmetry. apply Z.leb_le. unfold DAY, HOUR, MAXDELTADAYS in *.
    Z.div_mod_to_equations. lia.
Qed.

Lemma add_total (t : datetime) (delta : timedelta) :
  in_range (t + delta) -> add t delta = Returned (t + delta).
Proof.
  unfold in_range, add. intros [H1 H2].
  replace (0 <? (t + delta) / DAY) with true
    by (symmetry; apply Z.ltb_lt, H1).
  replace ((t + delta) / DAY <=? MAXORDINAL) with true
    by (symmetry; apply Z.leb_le, H2).
  reflexivity.
Qed.

(** Dates within a million days of the start date are representable. *)
Lemma near_start_in_range (t : datetime) :
  start_date <= t <= start_date + 1000000 * DAY -> in_range t.
Proof.
  rewrite start_date_value. unfold in_range, MAXORDINAL, DAY.
  intros H. Z.div_mod_to_equations. lia.
Qed.

Lemma bind_lift_returned {A B : Type} (a : A) (k : A -> M B) (s : rng) :
  bind (lift (Returned a)) k s = k a s.
Proof. reflexivity. Qed.

Lemma weekend_loop_total (fuel : nat) :
  forall (d : datetime) (s : rng),
    in_range (d + 2 * DAY) ->
    (exists j, (py_pos s <= j < py_pos s + fuel)%nat
               /\ Qltb (uval (py_tape s j)) (7 # 10) = true) ->
    exists d' s',
      weekend_loop fuel d s = Returned (d', s')
      /\ d <= d' <= d + 2 * DAY /\ same_tapes s s'.
Proof.
  induction fuel as [ | fuel IH]; intros d s Hrange (j & Hj & Hlow);
    rewrite weekend_loop_unfold;
    destruct (4 <? weekday d) eqn:Hw;
    try apply Z.ltb_lt in Hw;
    try (exists d, s; split; [reflexivity | ];
         split; [unfold DAY; lia | apply same_tapes_refl]).
  - lia.
  - unfold bind at 1, random.
    destruct (Qltb (uval (py_tape s (py_pos s))) (7 # 10)) eqn:Hu.
    + replace (timedelta_ints 2 0 0) with (2 * DAY)
        by (unfold timedelta_ints; lia).
      rewrite (add_total d (2 * DAY) Hrange), bind_lift_returned.
      rewrite weekend_loop_unfold.
      replace (4 <? weekday (d + 2 * DAY)) with false.
      * eexists. eexists. split; [reflexivity | ].
        split; [unfold DAY; lia | split; reflexivity].
      * symmetry. apply Z.ltb_ge.
        assert (Hwd : 0 <= weekday d < 7)
          by (unfold weekday; apply Z.mod_pos_bound; lia).
        unfold weekday, toordinal, DAY in *. Z.div_mod_to_equations. lia.
    + assert (Hne : j <> py_pos s) by (intros ->; congruence).
      destruct (IH d (mk_rng (py_tape s) (S (py_pos s)) (np_unif s)
                             (np_upos s) (np_gam s) (np_gpos s)) Hrange)
        as (d' & s' & Hloop & Hd' & Hsame).
      { exists j. cbn [py_pos py_tape]. split; [lia | exact Hlow]. }
      exists d', s'. split; [exact Hloop | ]. split; [exact Hd' | ].
      unfold same_tapes in *. cbn [py_tape np_gam] in Hsame. exact Hsame.
Qed.

Lemma resolutions_not_empty :
  forallb (fun texts : list string =>
             match texts with [] => false | _ => true end)
          (map snd resolutions) = true.
Proof. reflexivity. Qed.

Lemma get_resolution_total (issue : string) (is_reopened : bool) (s : rng) :
  exists res s',
    get_resolution issue is_reopened s = Returned (res, s')
    /\ same_tapes s s'.
Proof.
  unfold get_resolution.
  destruct (dict_get resolutions issue) as [texts | ] eqn:Hdict.
  - assert (Hne : texts <> []).
    { pose proof resolutions_not_empty as Hall.
      rewrite forallb_forall in Hall.
      specialize (Hall texts (dict_get_in _ _ _ Hdict)).
      destruct texts; [discriminate Hall | discriminate]. }
    destruct (choice_total texts s Hne) as (base & s' & Hchoice & _ & _).
    rewrite (bind_step _ _ _ _ _ Hchoice).
    eexists. exists s'. split; [reflexivity | ].
    exact (choice_same _ _ _ _ Hchoice).
  - eexists. exists s. split; [reflexivity | apply same_tapes_refl].
Qed.

Lemma determine_status_total (will_reopen : bool) (date_closed : datetime)
    (issue : string) (s : rng) :
  start_date <= date_closed <= start_date + 5000 * DAY ->
  (forall i, (gval (np_gam s i) <= 1000)%Q) ->
  exists r s',
    determine_status will_reopen date_closed issue s = Returned (r, s')
    /\ same_tapes s s'.
Proof.
  intros Hdc Hgam. unfold determine_status.
  destruct will_reopen; destruct (ltb date_closed current_time);
    try (eexists; exists s; split; [reflexivity | apply same_tapes_refl]).
  - destruct (randint_total 1 168 s ltac:(lia)) as (h & s1 & E1 & Hh & T1).
    rewrite (bind_step _ _ _ _ _ E1).
    rewrite add_total, bind_lift_returned
      by (apply near_start_in_range;
          unfold timedelta_ints, DAY, HOUR, MINUTE in *; lia).
    destruct (ltb _ current_time);
      [ | eexists; exists s1; split; [reflexivity | exact T1]].
    destruct (random_total s1) as (u & s2 & E2 & _ & T2).
    rewrite (bind_step _ _ _ _ _ E2).
    pose proof (same_tapes_trans _ _ _ T1 T2) as T12.
    destruct (Qltb u (7 # 10));
      [ | eexists; exists s2; split; [reflexivity | exact T12]].
    assert (Hgam2 : forall i, (gval (np_gam s2 i) <= 1000)%Q)
      by (destruct T12 as [_ ->]; exact Hgam).
    destruct (np_gamma_total 2 (15 # 10) s2 ltac:(discriminate) Hgam2)
      as (x & s3 & E3 & [Hx0 Hx1] & T3).
    rewrite (bind_step _ _ _ _ _ E3).
    destruct (timedelta_hours_total x 1500 Hx0) as (delta & E4 & Hdelta);
      [eapply Qle_trans; [exact Hx1 | discriminate] | lia | ].
    rewrite E4, bind_lift_returned.
    rewrite add_total, bind_lift_returned
      by (apply near_start_in_range;
          unfold timedelta_ints, DAY, HOUR, MINUTE in *; lia).
    destruct (get_resolution_total issue true s3) as (res & s4 & E5 & T5).
    rewrite (bind_step _ _ _ _ _ E5).
    eexists. exists s4. split; [reflexivity | ].
    exact (same_tapes_trans _ _ _ (same_tapes_trans _ _ _ T12 T3) T5).
  - destruct (get_resolution_total issue false s) as (res & s1 & E1 & T1).
    rewrite (bind_step _ _ _ _ _ E1).
    eexists. exists s1. split; [reflexivity | exact T1].
Qed.

Lemma issues_of_product (product : string) :
  In product products ->
  exists issues,
    dict_get issue_types product = Some issues /\ issues <> [].
Proof.
  unfold products. cbn [In].
  intros [<- | [<- | [<- | []]]]; eexists;
    (split; [vm_compute; reflexivity | discriminate]).
Qed.

Lemma resolution_hours_bounds (base u : Q) (hours : Q) (s s' : rng) :
  (0 <= base <= 3000)%Q ->
  (if Qltb u (1 # 10)
   then bind (uniform 3 8)
             (fun f =>
                ret (Qmax (1 # 10)
                          (base * (target_full_resolution_hours / 4)) * f)%Q)
   else ret (Qmax (1 # 10) (base * (target_full_resolution_hours / 4)))%Q) s
  = Returned (hours, s') ->
  (0 <= hours)%Q /\ (hours <= inject_Z 25200)%Q.
Proof.
  intros [Hb0 Hb1] H.
  set (r := Qmax (1 # 10) (base * (target_full_resolution_hours / 4))%Q)
    in *.
  assert (Hr : (0 <= r <= 3150)%Q).
  { split.
    - apply Qle_trans with (y := (1 # 10)%Q);
        [discriminate | apply Qmax_lower].
    - subst r. unfold Qmax. destruct (Qltb (1 # 10) _); [ | discriminate].
      apply Qle_trans with (y := (3000 * (target_full_resolution_hours / 4))%Q);
        [ | discriminate].
      apply Qmult_le_compat_r; [exact Hb1 | discriminate]. }
  destruct (Qltb u (1 # 10)).
  - apply bind_returned in H. destruct H as (f & s1 & Hf & H).
    destruct (uniform_total 3 8 s ltac:(discriminate))
      as (f' & s1' & Hf' & [Hf3 Hf8] & _).
    rewrite Hf in Hf'. inversion Hf'; subst f' s1'. clear Hf'.
    apply ret_returned in H. destruct H as [-> _].
    assert (Hf0 : (0 <= f)%Q)
      by (apply Qle_trans with (y := 3%Q); [discriminate | exact Hf3]).
    split.
    + apply Qmult_le_0_compat; [apply Hr | exact Hf0].
    + apply Qle_trans with (y := (3150 * 8)%Q); [ | discriminate].
      apply Qmult_le_compat_nonneg; split; try apply Hr; assumption.
  - apply ret_returned in H. destruct H as [-> _].
    split; [apply Hr | ].
    apply Qle_trans with (y := 3150%Q); [apply Hr | discriminate].
Qed.

Lemma resolution_hours_total (base u : Q) (s : rng) :
  exists hours s',
    (if Qltb u (1 # 10)
     then bind (uniform 3 8)
               (fun f =>
                  ret (Qmax (1 # 10)
                            (base * (target_full_resolution_hours / 4)) * f)%Q)
     else ret (Qmax (1 # 10) (base * (target_full_resolution_hours / 4)))%Q) s
    = Returned (hours, s')
    /\ same_tapes s s'.
Proof.
  destruct (Qltb u (1 # 10)).
  - destruct (uniform_total 3 8 s ltac:(discriminate))
      as (f & s1 & Hf & _ & T).
    rewrite (bind_step _ _ _ _ _ Hf).
    eexists. exists s1. split; [reflexivity | exact T].
  - eexists. exists s. split; [reflexivity | apply same_tapes_refl].
Qed.

Lemma generate_ticket_total (k : nat) (ticket_id : Z) (s : rng) :
  steady k s ->
  exists t s',
    generate_ticket (S k) ticket_id s = Returned (t, s')
    /\ same_tapes s s'.
Proof.
  intros Hst. unfold generate_ticket.
  destruct (randint_total 0 365 s ltac:(lia)) as (days & s1 & E1 & Hdays & T1).
  rewrite (bind_step _ _ _ _ _ E1).
  rewrite add_total, bind_lift_returned
    by (apply near_start_in_range;
        unfold timedelta_ints, DAY, HOUR, MINUTE; lia).
  destruct (randint_total 0 23 s1 ltac:(lia)) as (hh & s2 & E2 & Hhh & T2).
  rewrite (bind_step _ _ _ _ _ E2).
  destruct (randint_total 0 59 s2 ltac:(lia)) as (mm & s3 & E3 & Hmm & T3).
  rewrite (bind_step _ _ _ _ _ E3).
  rewrite add_total, bind_lift_returned
    by (apply near_start_in_range;
        unfold timedelta_ints, DAY, HOUR, MINUTE; lia).
  set (date_opened :=
         start_date + timedelta_ints days 0 0 + timedelta_ints 0 hh mm).
  assert (Hopened : start_date <= date_opened <= start_date + 366 * DAY)
    by (subst date_opened; unfold timedelta_ints, DAY, HOUR, MINUTE; lia).
  destruct (choice_total products s3 ltac:(discriminate))
    as (product & s4 & E4 & Hproduct & _).
  pose proof (choice_same _ _ _ _ E4) as T4.
  rewrite (bind_step _ _ _ _ _ E4).
  destruct (issues_of_product product Hproduct) as (issues & Hdict & Hne).
  rewrite Hdict. rewrite (bind_step (ret issues) _ s4 issues s4 eq_refl).
  destruct (choice_total issues s4 Hne) as (issue & s5 & E5 & _ & _).
  pose proof (choice_same _ _ _ _ E5) as T5.
  rewrite (bind_step _ _ _ _ _ E5).
  destruct (np_choice_priorities_total s5) as (priority & s6 & E6 & T6).
  rewrite (bind_step _ _ _ _ _ E6).
  destruct (choice_total support_agents s6 ltac:(discriminate))
    as (agent & s7 & E7 & _ & _).
  pose proof (choice_same _ _ _ _ E7) as T7.
  rewrite (bind_step _ _ _ _ _ E7).
  destruct (random_total s7) as (u & s8 & E8 & _ & T8).
  rewrite (bind_step _ _ _ _ _ E8). cbv zeta.
  assert (T08 : same_tapes s s8).
  { repeat (eapply same_tapes_trans; [ | eassumption]).
    apply same_tapes_refl. }
  pose proof (steady_same k _ _ T08 Hst) as Hst8.
  destruct (sample_base_hours_total priority s8 (proj2 Hst8))
    as (base & s9 & E9 & Hbase & T9).
  rewrite (bind_step _ _ _ _ _ E9).
  destruct (random_total s9) as (u2 & s10 & E10 & _ & T10).
  rewrite (bind_step _ _ _ _ _ E10).
  destruct (resolution_hours_total base u2 s10) as (hours & s11 & E11 & T11).
  pose proof (resolution_hours_bounds _ _ _ _ _ Hbase E11) as [Hh0 Hh1].
  rewrite (bind_step _ _ _ _ _ E11).
  destruct (timedelta_hours_total hours 25200 Hh0 Hh1 ltac:(lia))
    as (delta & E12 & Hdelta).
  rewrite E12, bind_lift_returned.
  rewrite add_total, bind_lift_returned
    by (apply near_start_in_range; unfold DAY, HOUR in *; lia).
  assert (T0_11 : same_tapes s s11).
  { eapply same_tapes_trans; [ | exact T11].
    eapply same_tapes_trans; [ | exact T10].
    eapply same_tapes_trans; [ | exact T9]. exact T08. }
  pose proof (steady_same k _ _ T0_11 Hst) as Hst11.
  destruct (weekend_loop_total (S k) (date_opened + delta) s11)
    as (date_closed & s12 & E13 & Hclosed & T12).
  { apply near_start_in_range. unfold DAY, HOUR in *. lia. }
  { destruct (proj1 Hst11 (py_pos s11)) as (j & Hj & Hlow).
    exists j. split; [lia | exact Hlow]. }
  rewrite (bind_step _ _ _ _ _ E13).
  pose proof (same_tapes_trans _ _ _ T0_11 T12) as T0_12.
  pose proof (steady_same k _ _ T0_12 Hst) as Hst12.
  destruct (determine_status_total
              (Qltb u target_reopen_rate) date_closed issue s12)
    as ([[status dcf] res] & s13 & E14 & T13).
  { unfold DAY, HOUR in *. lia. }
  { exact (proj2 Hst12). }
  rewrite (bind_step _ _ _ _ _ E14).
  eexists. exists s13. split; [reflexivity | ].
  exact (same_tapes_trans _ _ _ T0_12 T13).
Qed.

Lemma generate_loop_total (k : nat) (ids : list Z) :
  forall (acc : list ticket) (s : rng),
    steady k s ->
    exists tickets s',
      generate_loop (S k) ids acc s = Returned (tickets, s')
      /\ List.length tickets = (List.length acc + List.length ids)%nat.
Proof.
  induction ids as [ | ticket_id ids IH]; intros acc s Hst;
    cbn [generate_loop].
  - exists acc, s. split; [reflexivity | cbn [List.length]; lia].
  - destruct (generate_ticket_total k ticket_id s Hst)
      as (t & s1 & E & T).
    rewrite (bind_step _ _ _ _ _ E).
    destruct (IH (acc ++ [t])%list s1 (steady_same k _ _ T Hst))
      as (tickets & s' & Hloop & Hlen).
    exists tickets, s'. split; [exact Hloop | ].
    rewrite Hlen, length_app. cbn [List.length]. lia.
Qed.

(** X12. Generation returns. When among any [k + 1] consecutive variates
    of [random] one is below 0.7 and no gamma variate exceeds 1000, a run
    whose weekend loops may take [k + 1] iterations raises nothing and
    returns [max(0, num_tickets)] tickets. *)
Theorem generation_returns (k : nat) (num_tickets : Z) (s : rng) :
  steady k s ->
  exists tickets,
    outcome_value (generate_support_tickets (S k) num_tickets s)
    = Returned tickets
    /\ List.length tickets = Z.to_nat num_tickets.
Proof.
  intros Hst. unfold generate_support_tickets.
  destruct (generate_loop_total k (range 1001 (1001 + num_tickets)) [] s Hst)
    as (tickets & s' & Hloop & Hlen).
  exists tickets. rewrite Hloop. split; [reflexivity | ].
  rewrite Hlen, range_length. reflexivity.
Qed.

Lemma generation_returns_witness :
  steady 0 rng_half
  /\ exists tickets,
       outcome_value (generate_support_tickets 1 500 rng_half)
       = Returned tickets
       /\ List.length tickets = Z.to_nat 500.
Proof.
  assert (Hst : steady 0 rng_half).
  { split.
    - intros i. exists i. split; [lia | reflexivity].
    - intros i. cbn. discriminate. }
  split; [exact Hst | exact (generation_returns 0 500 rng_half Hst)].
Defined.

(** ** The dashboard of [project_dash.py] *)

Import Dashboard.


Lemma na_not_date (s : string) :
  mem s na_values = true -> strptime s = None.
Proof.
  unfold mem. rewrite existsb_exists. intros (x & Hin & Heq).
  apply String.eqb_eq in Heq. subst x. unfold na_values in Hin.
  cbn [In] in Hin.
  repeat (destruct Hin as [<- | Hin]; [reflexivity | ]).
  destruct Hin.
Qed.

Lemma read_cell_date (t : datetime) :
  in_range t -> read_cell (strftime t) = Some (strftime t).
Proof.
  intros Ht. unfold read_cell.
  destruct (mem (strftime t) na_values) eqn:Hmem; [ | reflexivity].
  apply na_not_date in Hmem. rewrite strptime_strftime in Hmem by exact Ht.
  discriminate Hmem.
Qed.

Lemma hours_floor (opened closed : datetime) :
  opened + 6 * MINUTE <= closed ->
  (1 # 10 <= inject_Z (closed - opened) / inject_Z HOUR)%Q.
Proof.
  intros Hgap. apply Qle_shift_div_l; [reflexivity | ].
  apply Qle_trans with (y := inject_Z (6 * MINUTE)).
  - vm_compute. discriminate.
  - rewrite <- Zle_Qle. lia.
Qed.

Lemma prepare_generated_row (t : ticket) :
  generated t -> 0 <= TicketID t ->
  exists fr r,
    frame_row_of (ticket_row t) = Some fr
    /\ prepare_row fr = Some r
    /\ prepared_from t r.
Proof.
  intros (s & ticket_id & o & c & l & _ & Ho & Hmin & Hopened & _ & _ & _ & _
          & _ & Hc & Hgap & _ & Hsettled) Hid.
  rewrite ticket_row_fields. unfold frame_row_of, prepared_from.
  destruct (str_int_spec (TicketID t) Hid) as [Hint _].
  assert (Hmo : o mod MINUTE = 0)
    by (unfold minute_of in Hmin; lia).
  assert (Hopen6 : (o + 6 * MINUTE) mod MINUTE = 0)
    by (unfold MINUTE in *; Z.div_mod_to_equations; lia).
  inversion Hsettled as [ Hcut Hst Hdc Hres
                        | res Hw Hcut Hres Hst Hdc Hr
                        | Hw Hcut Hst Hdc Hres
                        | final res Hw Hcut Hfin Hlate Hres Hst Hdc Hr ];
    eexists; eexists; (split; [reflexivity | ]);
    unfold prepare_row;
    cbn [c_DateOpened c_DateClosed c_Status];
    rewrite Hopened, (read_cell_date o Ho); unfold to_datetime;
    rewrite (strptime_strftime o Ho), Hmin.
  - split; [reflexivity | ].
    split; [exact Hint | ]. right. repeat split; reflexivity.
  - rewrite (read_cell_date c Hc). unfold to_datetime_coerce.
    rewrite (strptime_strftime c Hc).
    split; [reflexivity | ].
    split; [exact Hint | ]. left.
    split; [apply strftime_not_empty | ]. split; [reflexivity | ].
    eexists. split; [reflexivity | ]. apply hours_floor.
    apply (minute_of_monotone (o + 6 * MINUTE) c Hopen6 Hgap).
  - split; [reflexivity | ].
    split; [exact Hint | ]. right. repeat split; reflexivity.
  - rewrite (read_cell_date final Hfin). unfold to_datetime_coerce.
    rewrite (strptime_strftime final Hfin).
    split; [reflexivity | ].
    split; [exact Hint | ]. left.
    split; [apply strftime_not_empty | ]. split; [reflexivity | ].
    eexists. split; [reflexivity | ]. apply hours_floor.
    apply (minute_of_monotone (o + 6 * MINUTE) final Hopen6).
    unfold HOUR, MINUTE in *. lia.
Qed.

Lemma prepare_generated_rows (tickets : list ticket) :
  Forall (fun t => generated t /\ 0 <= TicketID t) tickets ->
  exists df rows,
    all_some (map frame_row_of (map ticket_row tickets)) = Some df
    /\ all_some (map prepare_row df) = Some rows
    /\ Forall2 prepared_from tickets rows.
Proof.
  induction 1 as [ | t tickets [Hgen Hid] _ IH].
  - exists [], []. repeat split; constructor.
  - destruct IH as (df & rows & Hdf & Hrows & Hall).
    destruct (prepare_generated_row t Hgen Hid) as (fr & r & Hfr & Hr & Hp).
    exists (fr :: df), (r :: rows). cbn [map all_some].
    rewrite Hfr, Hdf. cbn [map all_some]. rewrite Hr, Hrows.
    repeat split. constructor; assumption.
Qed.

Lemma reader_of_saved (tickets : list ticket) :
  reader (save_to_csv tickets) = fieldnames :: map ticket_row tickets.
Proof.
  unfold reader, save_to_csv, writeheader.
  rewrite read_any_writerow by (cbn [List.length fieldnames]; lia).
  rewrite read_any_writerows by (cbn [List.length fieldnames]; lia).
  rewrite map_map. reflexivity.
Qed.

Lemma generated_file_prepared (fuel : nat) (num_tickets : Z)
    (s : rng) (tickets : list ticket) :
  outcome_value (generate_support_tickets fuel num_tickets s)
  = Returned tickets ->
  exists df rows,
    read_csv (save_to_csv tickets) = Some df
    /\ prepare_data df = Some rows
    /\ Forall2 prepared_from tickets rows.
Proof.
  intros Hrun.
  destruct (generate_returned _ _ _ _ Hrun) as [Hall Hids].
  unfold read_csv, prepare_data. rewrite reader_of_saved.
  apply prepare_generated_rows.
  rewrite Forall_forall in *. intros t Hin.
  split; [exact (Hall t Hin) | ].
  assert (Hid : In (TicketID t) (map TicketID tickets))
    by (apply in_map; exact Hin).
  rewrite Hids in Hid. apply range_bounds in Hid. lia.
Qed.

(** X13. The dashboard on a generated file. [pd.read_csv] and
    [prepare_data] raise nothing on the file that [save_to_csv] writes for
    the tickets of a generation, and give one row per ticket, in order, with
    the ticket's number. A ticket with a close date gets the clean status
    ['Closed'] and a resolution time of at least 0.1 hours; a ticket without
    one gets ['Open'], no close time and no resolution time. *)
Theorem dashboard_prepares_generated (fuel : nat) (num_tickets : Z)
    (s : rng) (tickets : list ticket) :
  outcome_value (generate_support_tickets fuel num_tickets s)
  = Returned tickets ->
  exists df rows,
    read_csv (save_to_csv tickets) = Some df
    /\ prepare_data df = Some rows
    /\ Forall2 prepared_from tickets rows.
Proof. apply generated_file_prepared. Qed.

Lemma dashboard_prepares_generated_witness :
  outcome_value (generate_support_tickets 0 1 rng_late)
  = Returned [ticket_late]
  /\ exists df rows,
       read_csv (save_to_csv [ticket_late]) = Some df
       /\ prepare_data df = Some rows
       /\ Forall2 prepared_from [ticket_late] rows.
Proof.
  split; [vm_compute; reflexivity | ].
  apply (dashboard_prepares_generated 0 1 rng_late [ticket_late]).
  vm_compute. reflexivity.
Defined.

(** ** [filter_data] and [create_kpi_cards] *)

Lemma filter_filter {A : Type} (p q : A -> bool) (l : list A) :
  filter p (filter q l) = filter (fun x => q x && p x) l.
Proof.
  induction l as [ | x l IH]; cbn [filter]; [reflexivity | ].
  destruct (q x); cbn [filter andb]; [ | exact IH].
  destruct (p x); rewrite IH; reflexivity.
Qed.

Lemma filter_true {A : Type} (l : list A) : filter (fun _ => true) l = l.
Proof. induction l as [ | x l IH]; cbn [filter]; congruence. Qed.

Lemma filter_data_filter (df : list prepared)
    (product priority status : string)
    (start_date end_date : option datetime) :
  filter_data df product priority status start_date end_date
  = filter (selected product priority status start_date end_date) df.
Proof.
  unfold filter_data, selected.
  destruct (String.eqb product "all"), (String.eqb priority "all"),
    (String.eqb status "all"), start_date as [first | ],
    end_date as [last | ];
    cbn [negb orb]; rewrite ?filter_filter;
    try (match goal with
         | |- df = _ => rewrite <- (filter_true df) at 1
         end);
    apply filter_ext; intros r; cbn [andb];
    rewrite ?Bool.andb_true_r, ?Bool.andb_assoc; reflexivity.
Qed.

(** X15. [filter_data] keeps, in their order, exactly the rows that pass
    every selection that is not ['all']: the four masks applied in turn
    are one mask, their conjunction. A product or a priority is compared
    with the cell, a status with the cleaned status; a row whose opening
    time is missing passes no date range; a range of which one end is
    missing is not applied at all. Filtering the result again with the
    same selections changes nothing. *)
Theorem filter_data_selected (df : list prepared)
    (product priority status : string)
    (start_date end_date : option datetime) :
  filter_data df product priority status start_date end_date
  = filter (selected product priority status start_date end_date) df
  /\ filter_data
       (filter_data df product priority status start_date end_date)
       product priority status start_date end_date
     = filter_data df product priority status start_date end_date
  /\ filter_data df product priority status start_date None
     = filter_data df product priority status None None
  /\ filter_data df product priority status None end_date
     = filter_data df product priority status None None.
Proof.
  split; [apply filter_data_filter | ]. split.
  - rewrite !filter_data_filter, filter_filter. apply filter_ext.
    intros r. apply Bool.andb_diag.
  - rewrite !filter_data_filter. split; apply filter_ext; intros r;
      unfold selected; destruct start_date, end_date; reflexivity.
Qed.

Lemma filter_disjoint_le {A : Type} (p q : A -> bool) (l : list A) :
  (forall x, p x && q x = false) ->
  (List.length (filter p l) + List.length (filter q l)
   <= List.length l)%nat.
Proof.
  intros Hpq. induction l as [ | x l IH]; cbn [filter List.length];
    [lia | ].
  specialize (Hpq x).
  destruct (p x), (q x); cbn [List.length]; try discriminate Hpq; lia.
Qed.

Lemma filter_cover_eq {A : Type} (p q : A -> bool) (l : list A) :
  (forall x, p x && q x = false) ->
  Forall (fun x => p x || q x = true) l ->
  (List.length (filter p l) + List.length (filter q l)
   = List.length l)%nat.
Proof.
  intros Hpq. induction 1 as [ | x l Hx _ IH]; cbn [filter List.length];
    [reflexivity | ].
  specialize (Hpq x).
  destruct (p x), (q x); cbn [List.length];
    try discriminate Hpq; try discriminate Hx; lia.
Qed.

Lemma closed_not_open (x : string) :
  String.eqb x "Closed" && String.eqb x "Open" = false.
Proof.
  destruct (String.eqb_spec x "Closed") as [-> | _]; reflexivity.
Qed.

Lemma sum_lower (lo : Q) (l : list Q) :
  Forall (fun q => (lo <= q)%Q) l ->
  (lo * inject_Z (Z.of_nat (List.length l)) <= fold_right Qplus 0 l)%Q.
Proof.
  induction 1 as [ | q l Hq _ IH]; cbn [List.length fold_right].
  - rewrite Qmult_0_r. apply Qle_refl.
  - rewrite Nat2Z.inj_succ, <- Z.add_1_l, inject_Z_plus.
    rewrite Qmult_plus_distr_r, Qmult_1_r.
    apply Qplus_le_compat; assumption.
Qed.

Lemma present_in (values : list (option Q)) (q : Q) :
  In q (flat_map (fun v => match v with Some q => [q] | None => [] end)
                 values)
  -> In (Some q) values.
Proof.
  rewrite in_flat_map. intros ([x | ] & Hin & Hq); [ | destruct Hq].
  destruct Hq as [-> | []]. exact Hin.
Qed.

Lemma mean_lower (lo : Q) (values : list (option Q)) (m : Q) :
  (forall q, In (Some q) values -> (lo <= q)%Q) ->
  mean values = Some m -> (lo <= m)%Q.
Proof.
  intros Hlo. unfold mean.
  set (present := flat_map _ values).
  assert (Hall : Forall (fun q => (lo <= q)%Q) present).
  { rewrite Forall_forall. intros q Hin. apply Hlo, present_in, Hin. }
  clearbody present. destruct present as [ | q present]; [discriminate | ].
  intros [= <-]. apply Qle_shift_div_l.
  - change 0%Q with (inject_Z 0). rewrite <- Zlt_Qlt.
    cbn [List.length]. lia.
  - exact (sum_lower lo (q :: present) Hall).
Qed.

Lemma mean_none (values : list (option Q)) :
  mean values = None <-> Forall (fun v => v = None) values.
Proof.
  unfold mean. split.
  - intros H. induction values as [ | [q | ] values IH];
      cbn [flat_map app] in *; [constructor | discriminate H | ].
    constructor; [reflexivity | ]. apply IH.
    destruct (flat_map _ values); [reflexivity | discriminate H].
  - induction 1 as [ | v values -> _ IH]; cbn [flat_map app];
      [reflexivity | exact IH].
Qed.



(** ** The cards for a generated file *)

Lemma prepared_rows_settled (tickets : list ticket) (rows : list prepared) :
  Forall2 prepared_from tickets rows ->
  Forall rated rows.
Proof.
  induction 1 as [ | t r tickets rows [_ Hr] _ IH]; constructor;
    [ | exact IH].
  unfold rated.
  destruct Hr as [(_ & Hst & Hh) | (_ & Hst & _ & Hh)];
    [left | right]; split; assumption.
Qed.

Lemma rated_no_hours (rows : list prepared) :
  Forall rated rows ->
  (Forall (fun r => p_ResolutionHours r = None) rows
   <-> List.length
         (filter (fun r => String.eqb (p_CleanStatus r) "Closed") rows)
       = 0%nat).
Proof.
  induction 1 as [ | r rows Hr _ IH]; cbn [filter List.length].
  - split; [reflexivity | constructor].
  - destruct Hr as [[Hst (h & Hh & _)] | [Hst Hh]]; rewrite Hst;
      cbn [String.eqb Ascii.eqb Bool.eqb andb List.length].
    + split; [ | discriminate].
      intros Hall. inversion Hall; congruence.
    + rewrite <- IH. split.
      * intros Hall. inversion Hall; assumption.
      * intros Hall. constructor; assumption.
Qed.



(** ** The reopen indicator of [project_dash4.py] *)

Lemma range_snoc (a n : Z) :
  0 <= n -> range a (a + (n + 1)) = (range a (a + n) ++ [a + n])%list.
Proof.
  intros Hn. unfold range.
  replace (Z.to_nat (a + (n + 1) - a)) with (S (Z.to_nat (a + n - a)))
    by lia.
  rewrite seq_S, map_app. cbn [map Nat.add]. f_equal. f_equal. lia.
Qed.

Lemma every_twentieth (n : Z) :
  0 <= n ->
  Z.of_nat (Dashboard4.reopened_tickets (range 1001 (1001 + n)))
  = (1000 + n) / 20 - 50.
Proof.
  unfold Dashboard4.reopened_tickets.
  revert n. apply natlike_ind.
  - reflexivity.
  - intros n Hn IH. unfold Z.succ. rewrite range_snoc by exact Hn.
    rewrite filter_app, length_app, Nat2Z.inj_add, IH.
    cbn [filter]. unfold Dashboard4.WasReopened.
    destruct (Z.eqb_spec ((1001 + n) mod 20) 0) as [Hm | Hm];
      cbn [Bool.eqb List.length]; Z.div_mod_to_equations; lia.
Qed.

(** X17. The reopen figures of [project_dash4.py] follow the ticket numbers
    alone. On the tickets of a generation the indicator [WasReopened] marks
    [(1000 + n) // 20 - 50] of the [n] tickets, whatever their statuses and
    whatever the generator drew, and the reopen rate shown for the whole
    file is at most 5 per cent. *)
Theorem simulated_reopen_rate (fuel : nat) (num_tickets : Z) (s : rng)
    (tickets : list ticket) :
  outcome_value (generate_support_tickets fuel num_tickets s)
  = Returned tickets ->
  Z.of_nat (Dashboard4.reopened_tickets (map TicketID tickets))
  = (1000 + Z.max 0 num_tickets) / 20 - 50
  /\ (Dashboard4.reopen_rate (map TicketID tickets) <= 5)%Q.
Proof.
  intros Hrun.
  destruct (generate_returned _ _ _ _ Hrun) as [_ Hids].
  assert (Hsame : range 1001 (1001 + num_tickets)
                  = range 1001 (1001 + Z.max 0 num_tickets)).
  { unfold range. f_equal. f_equal. lia. }
  rewrite Hids, Hsame.
  pose proof (every_twentieth (Z.max 0 num_tickets) ltac:(lia)) as Hcount.
  split; [exact Hcount | ].
  unfold Dashboard4.reopen_rate. rewrite range_length.
  set (r := Dashboard4.reopened_tickets _) in *.
  destruct (0 <? Z.of_nat (Z.to_nat (Z.max 0 num_tickets))) eqn:Hpos;
    [ | discriminate].
  apply Z.ltb_lt in Hpos.
  apply Qle_trans with (y := ((1 # 20) * 100)%Q); [ | discriminate].
  apply Qmult_le_compat_r; [ | discriminate].
  apply Qle_shift_div_r.
  - change 0%Q with (inject_Z 0). rewrite <- Zlt_Qlt. exact Hpos.
  - unfold Qle. cbn [Qnum Qden Qmult inject_Z].
    Z.div_mod_to_equations. lia.
Qed.

Lemma simulated_reopen_rate_witness :
  outcome_value (generate_support_tickets 0 1 rng_late)
  = Returned [ticket_late]
  /\ Z.of_nat (Dashboard4.reopened_tickets (map TicketID [ticket_late]))
     = (1000 + Z.max 0 1) / 20 - 50
  /\ (Dashboard4.reopen_rate (map TicketID [ticket_late]) <= 5)%Q.
Proof.
  split; [vm_compute; reflexivity | ].
  apply (simulated_reopen_rate 0 1 rng_late [ticket_late]).
  vm_compute. reflexivity.
Defined.
